(** * osteo-canin: clinic booking back end, shallow embedding

    The development follows the Express/Prisma back end:

    - [backend/src/services/authService.ts]  (module [AuthService])
    - [backend/src/routes/auth.ts]           (module [AuthRoutes])
    - [backend/src/routes/users.ts]          (module [UsersRoutes])
    - [backend/src/routes/animals.ts]        (module [AnimalsRoutes])
    - [backend/src/routes/reminders.ts]      (module [RemindersRoutes])

    Conventions.

    - A JavaScript string is a [string]: a sequence of code units, taken in
      the range U+0000..U+00FF.
    - A JavaScript number that the code uses as an integer (epoch
      milliseconds, minutes, HTTP status, counts) is a [Z].
    - A [Date] is its time value in milliseconds, [None] being
      [Invalid Date].
    - The relational store behind Prisma is a record of tables, each table a
      list of rows in insertion order.  Values the store generates (row ids,
      [createdAt]) and values of the environment ([Date.now()],
      [Math.random()], the bcrypt salt) are explicit arguments.
    - Handlers run in a state-and-exception monad: a [throw] keeps the writes
      made before it, as in the source, where nothing runs in a transaction. *)

From Stdlib Require Import ZArith String Ascii List Bool Lia.
From stdpp Require Import base strings list gmap pretty.

Open Scope string_scope.
Open Scope Z_scope.

(** ** JavaScript strings *)

Module Js.

Definition unit_code (c : ascii) : N := N_of_ascii c.

(** [\s] of a regular expression, and the white space and line terminators
    that [trim] strips, among the code units below 256. *)
Definition isWhiteSpace (c : ascii) : bool :=
  let n := unit_code c in
  (((9 <=? n) && (n <=? 13)) || (n =? 32) || (n =? 160))%N.

(** [String.prototype.toLowerCase] on one code unit: A-Z, and the
    Latin-1 capitals U+00C0..U+00DE without the multiplication sign. *)
Definition lowerUnit (c : ascii) : ascii :=
  let n := unit_code c in
  if (((65 <=? n) && (n <=? 90))
      || ((192 <=? n) && (n <=? 222) && negb (n =? 215)))%N
  then ascii_of_N (n + 32) else c.

Fixpoint toLowerCase (s : string) : string :=
  match s with
  | EmptyString => EmptyString
  | String c r => String (lowerUnit c) (toLowerCase r)
  end.

Fixpoint trimStart (s : string) : string :=
  match s with
  | String c r => if isWhiteSpace c then trimStart r else s
  | EmptyString => EmptyString
  end.

Definition trimEnd (s : string) : string :=
  String.rev (trimStart (String.rev s)).

Definition trim (s : string) : string := trimEnd (trimStart s).

Definition startsWith (s p : string) : bool := String.prefix p s.

(** Truthiness of a string value: the empty string is falsy. *)
Definition truthy (s : string) : bool := negb (String.eqb s "").

(** Truthiness of a possibly [undefined]/[null] string. *)
Definition truthy_opt (o : option string) : bool :=
  match o with
  | Some s => truthy s
  | None => false
  end.

(** An [Error]-like object that is thrown: its [name] and [message]. *)
Record Error := mkError { name : string; message : string }.

Definition newError (msg : string) : Error :=
  {| name := "Error"; message := msg |}.

(** Range of the time values of valid [Date] objects (ECMAScript TimeClip). *)
Definition maxTime : Z := 8640000000000000.

(** [new Date(t)] for a number [t]. *)
Definition newDate (t : Z) : option Z :=
  if (- maxTime <=? t) && (t <=? maxTime) then Some t else None.

(** Free-form JSON values, as stored in [AuditLog.meta]. *)
#[warnings="-register-all"]
Inductive Json :=
| JNull
| JBool (b : bool)
| JNum (n : Z)
| JStr (s : string)
| JArr (l : list Json)
| JObj (fields : list (string * Json)).

Definition JOptStr (o : option string) : Json :=
  match o with
  | Some s => JStr s
  | None => JNull
  end.

End Js.

(** ** The relational schema, as far as the handlers read and write it *)

Inductive UserRole := ADMIN | PRACTITIONER | CLIENT.

#[global] Instance UserRole_eq_dec : EqDecision UserRole.
Proof. solve_decision. Defined.

Definition UserRole_eqb (a b : UserRole) : bool := bool_decide (a = b).

Definition UserRole_toString (r : UserRole) : string :=
  match r with
  | ADMIN => "ADMIN"
  | PRACTITIONER => "PRACTITIONER"
  | CLIENT => "CLIENT"
  end.

Inductive ReminderType :=
| APPOINTMENT_REMINDER
| FOLLOW_UP
| APPOINTMENT_CONFIRMATION
| BIRTHDAY.

Definition ReminderType_toString (t : ReminderType) : string :=
  match t with
  | APPOINTMENT_REMINDER => "APPOINTMENT_REMINDER"
  | FOLLOW_UP => "FOLLOW_UP"
  | APPOINTMENT_CONFIRMATION => "APPOINTMENT_CONFIRMATION"
  | BIRTHDAY => "BIRTHDAY"
  end.

Module User.
Record t := mk {
  id : string;
  email : string;
  password : string;
  firstName : string;
  lastName : string;
  phone : option string;
  role : UserRole;
  validated : bool;
  createdAt : Z
}.

Definition set_validated (b : bool) (u : t) : t :=
  {| id := id u; email := email u; password := password u;
     firstName := firstName u; lastName := lastName u; phone := phone u;
     role := role u; validated := b; createdAt := createdAt u |}.
End User.

Module AuditLog.
Record t := mk {
  userId : string;
  action : string;
  meta : Js.Json
}.
End AuditLog.

Module Animal.
Record t := mk {
  id : string;
  name : string;
  breed : string;
  ownerId : string
}.
End Animal.

Module Appointment.
Record t := mk {
  id : string;
  clientId : string;
  animalId : string
}.
End Appointment.

Module TreatmentNote.
Record t := mk {
  id : string;
  animalId : string
}.
End TreatmentNote.

Module Reminder.
Record t := mk {
  id : string;
  message : string;
  messageFr : string;
  type : ReminderType;
  remindAt : Z;
  sent : bool;
  appointmentId : string;
  createdAt : Z
}.

Definition set_remindAt (d : Z) (r : t) : t :=
  {| id := id r; message := message r; messageFr := messageFr r;
     type := type r; remindAt := d; sent := sent r;
     appointmentId := appointmentId r; createdAt := createdAt r |}.
End Reminder.

(** The record the reminder routes answer with, and the record kept in
    memory for a manual reminder ([interface ReminderResponse]). *)
Module ReminderResponse.
Record t := mk {
  id : string;
  message : string;
  type : string;
  dueDate : string;
  completed : bool;
  priority : string;
  appointmentId : option string;
  createdAt : string
}.

Definition set_dueDate (d : string) (r : t) : t :=
  {| id := id r; message := message r; type := type r; dueDate := d;
     completed := completed r; priority := priority r;
     appointmentId := appointmentId r; createdAt := createdAt r |}.
End ReminderResponse.

(** ** State of the server process *)

Record State := mkState {
  users : list User.t;
  auditLogs : list AuditLog.t;
  animals : list Animal.t;
  appointments : list Appointment.t;
  treatmentNotes : list TreatmentNote.t;
  reminders : list Reminder.t;
  (** [const manualReminders = new Map<string, ReminderResponse>()] *)
  manualReminders : gmap string ReminderResponse.t
}.

Definition set_users (f : list User.t -> list User.t) (s : State) : State :=
  {| users := f (users s); auditLogs := auditLogs s; animals := animals s;
     appointments := appointments s; treatmentNotes := treatmentNotes s;
     reminders := reminders s; manualReminders := manualReminders s |}.

Definition set_auditLogs (f : list AuditLog.t -> list AuditLog.t) (s : State) : State :=
  {| users := users s; auditLogs := f (auditLogs s); animals := animals s;
     appointments := appointments s; treatmentNotes := treatmentNotes s;
     reminders := reminders s; manualReminders := manualReminders s |}.

Definition set_animals (f : list Animal.t -> list Animal.t) (s : State) : State :=
  {| users := users s; auditLogs := auditLogs s; animals := f (animals s);
     appointments := appointments s; treatmentNotes := treatmentNotes s;
     reminders := reminders s; manualReminders := manualReminders s |}.

Definition set_reminders (f : list Reminder.t -> list Reminder.t) (s : State) : State :=
  {| users := users s; auditLogs := auditLogs s; animals := animals s;
     appointments := appointments s; treatmentNotes := treatmentNotes s;
     reminders := f (reminders s); manualReminders := manualReminders s |}.

Definition set_manualReminders
    (f : gmap string ReminderResponse.t -> gmap string ReminderResponse.t)
    (s : State) : State :=
  {| users := users s; auditLogs := auditLogs s; animals := animals s;
     appointments := appointments s; treatmentNotes := treatmentNotes s;
     reminders := reminders s; manualReminders := f (manualReminders s) |}.

(** ** The monad of handlers: state, and exceptions that keep the state *)

Definition M (A : Type) : Type := State -> (Js.Error + A) * State.

Definition ret {A} (a : A) : M A := fun s => (inr a, s).

Definition bind {A B} (c : M A) (k : A -> M B) : M B :=
  fun s =>
    match c s with
    | (inr a, s') => k a s'
    | (inl e, s') => (inl e, s')
    end.

Definition throw {A} (e : Js.Error) : M A := fun s => (inl e, s).

(** [try { c } catch (error) { h error }] *)
Definition try_catch {A} (c : M A) (h : Js.Error -> M A) : M A :=
  fun s =>
    match c s with
    | (inr a, s') => (inr a, s')
    | (inl e, s') => h e s'
    end.

Definition gets {A} (f : State -> A) : M A := fun s => (inr (f s), s).

Definition modify (f : State -> State) : M unit := fun s => (inr tt, f s).

Declare Scope handler_scope.
Delimit Scope handler_scope with handler.
Notation "x <- c ;; k" := (bind c (fun x => k))
  (at level 100, c at next level, right associativity) : handler_scope.
Notation "c ;;; k" := (bind c (fun _ => k))
  (at level 100, right associativity) : handler_scope.

Open Scope handler_scope.

(** An HTTP answer: [res.status(status).json({ data, message, error })].
    The status is 200 where the source calls [res.json] alone. *)
Record Response (A : Type) := mkResponse {
  status : Z;
  data : option A;
  message : option string;
  error : option string
}.
Arguments mkResponse {A} _ _ _ _.
Arguments status {A} _.
Arguments data {A} _.
Arguments message {A} _.
Arguments error {A} _.

Definition json_error {A} (st : Z) (err : string) : Response A :=
  {| status := st; data := None; message := None; error := Some err |}.

Definition json_data {A} (st : Z) (d : A) (msg : string) : Response A :=
  {| status := st; data := Some d; message := Some msg; error := None |}.

Definition json_message {A} (st : Z) (msg : string) : Response A :=
  {| status := st; data := None; message := Some msg; error := None |}.

(** [error.message || fallback] *)
Definition message_or (e : Js.Error) (fallback : string) : string :=
  if Js.truthy (Js.message e) then Js.message e else fallback.

(** ** The Prisma client calls the handlers make *)

Module Prisma.

Definition update_where {A} (p : A -> bool) (f : A -> A) (l : list A) : list A :=
  map (fun x => if p x then f x else x) l.

Definition delete_where {A} (p : A -> bool) (l : list A) : list A :=
  List.filter (fun x => negb (p x)) l.

(** Prisma's error for [update]/[delete] on a row that does not exist. *)
Definition recordNotFound : Js.Error :=
  {| Js.name := "PrismaClientKnownRequestError";
     Js.message := "Record to update not found." |}.

(** Prisma's error for an argument of the wrong shape ([undefined] where
    a unique key is required, an invalid [Date]). *)
Definition validationError : Js.Error :=
  {| Js.name := "PrismaClientValidationError";
     Js.message := "Invalid invocation." |}.

Definition user_by_id (id : string) (u : User.t) : bool :=
  String.eqb (User.id u) id.

Definition user_by_email (email : string) (u : User.t) : bool :=
  String.eqb (User.email u) email.

(** [prisma.user.findUnique({ where: { id } })] *)
Definition user_findUnique_id (id : string) : M (option User.t) :=
  gets (fun s => find (user_by_id id) (users s)).

(** [prisma.user.findUnique({ where: { email } })] *)
Definition user_findUnique_email (email : string) : M (option User.t) :=
  gets (fun s => find (user_by_email email) (users s)).

(** [prisma.user.findFirst({ where: { email, NOT: { id } } })] *)
Definition user_findFirst_email_not_id (email id : string) : M (option User.t) :=
  gets (fun s =>
    find (fun u => user_by_email email u && negb (user_by_id id u)) (users s)).

(** [prisma.user.create({ data })]; [id] and [createdAt] come with [u]. *)
Definition user_create (u : User.t) : M User.t :=
  modify (set_users (fun l => (l ++ [u])%list)) ;;; ret u.

(** [prisma.user.update({ where: { id }, data })], [f] writing [data]. *)
Definition user_update (id : string) (f : User.t -> User.t) : M User.t :=
  found <- user_findUnique_id id ;;
  match found with
  | None => throw recordNotFound
  | Some u =>
      modify (set_users (update_where (user_by_id id) f)) ;;;
      ret (f u)
  end.

(** [prisma.user.updateMany({ where, data })], answering [{ count }]. *)
Definition user_updateMany (p : User.t -> bool) (f : User.t -> User.t) : M Z :=
  n <- gets (fun s => Z.of_nat (length (List.filter p (users s)))) ;;
  modify (set_users (update_where p f)) ;;;
  ret n.

(** [prisma.user.delete({ where: { id } })] *)
Definition user_delete (id : string) : M unit :=
  found <- user_findUnique_id id ;;
  match found with
  | None => throw recordNotFound
  | Some _ => modify (set_users (delete_where (user_by_id id)))
  end.

(** [prisma.auditLog.create({ data })] *)
Definition auditLog_create (a : AuditLog.t) : M unit :=
  modify (set_auditLogs (fun l => (l ++ [a])%list)).

Definition animal_by_id (id : string) (a : Animal.t) : bool :=
  String.eqb (Animal.id a) id.

(** [prisma.animal.delete({ where: { id } })] *)
Definition animal_delete (id : string) : M unit :=
  found <- gets (fun s => find (animal_by_id id) (animals s)) ;;
  match found with
  | None => throw recordNotFound
  | Some _ => modify (set_animals (delete_where (animal_by_id id)))
  end.

(** [prisma.appointment.findFirst({ where: { animalId } })] *)
Definition appointment_findFirst_animal (animalId : string) : M (option Appointment.t) :=
  gets (fun s =>
    find (fun a => String.eqb (Appointment.animalId a) animalId) (appointments s)).

(** [prisma.treatmentNote.findFirst({ where: { animalId } })] *)
Definition treatmentNote_findFirst_animal (animalId : string) : M (option TreatmentNote.t) :=
  gets (fun s =>
    find (fun n => String.eqb (TreatmentNote.animalId n) animalId) (treatmentNotes s)).

(** [prisma.appointment.findUnique({ where: { id } })] *)
Definition appointment_findUnique (id : string) : M (option Appointment.t) :=
  gets (fun s => find (fun a => String.eqb (Appointment.id a) id) (appointments s)).

Definition reminder_by_id (id : string) (r : Reminder.t) : bool :=
  String.eqb (Reminder.id r) id.

Definition reminder_findUnique (id : string) : M (option Reminder.t) :=
  gets (fun s => find (reminder_by_id id) (reminders s)).

(** [prisma.reminder.create({ data })]; [id] and [createdAt] are the
    values the store generates, [remindAt] the [Date] handed over, which
    Prisma refuses when it is invalid. *)
Definition reminder_create (id : string) (createdAt : Z)
    (message messageFr : string) (type : ReminderType) (remindAt : option Z)
    (sent : bool) (appointmentId : string) : M Reminder.t :=
  match remindAt with
  | None => throw validationError
  | Some d =>
      let r := {| Reminder.id := id; Reminder.message := message;
                  Reminder.messageFr := messageFr; Reminder.type := type;
                  Reminder.remindAt := d; Reminder.sent := sent;
                  Reminder.appointmentId := appointmentId;
                  Reminder.createdAt := createdAt |} in
      modify (set_reminders (fun l => (l ++ [r])%list)) ;;; ret r
  end.

(** [prisma.reminder.update({ where: { id }, data: { remindAt } })] *)
Definition reminder_update_remindAt (id : string) (remindAt : option Z)
    : M Reminder.t :=
  match remindAt with
  | None => throw validationError
  | Some d =>
      found <- reminder_findUnique id ;;
      match found with
      | None => throw recordNotFound
      | Some r =>
          modify (set_reminders
                    (update_where (reminder_by_id id) (Reminder.set_remindAt d))) ;;;
          ret (Reminder.set_remindAt d r)
      end
  end.

(** [prisma.reminder.update({ where: { id }, data: { sent: true } })] *)
Definition reminder_update_sent (id : string) : M Reminder.t :=
  found <- reminder_findUnique id ;;
  match found with
  | None => throw recordNotFound
  | Some r =>
      let mark (r : Reminder.t) : Reminder.t :=
        {| Reminder.id := Reminder.id r; Reminder.message := Reminder.message r;
           Reminder.messageFr := Reminder.messageFr r; Reminder.type := Reminder.type r;
           Reminder.remindAt := Reminder.remindAt r; Reminder.sent := true;
           Reminder.appointmentId := Reminder.appointmentId r;
           Reminder.createdAt := Reminder.createdAt r |} in
      modify (set_reminders (update_where (reminder_by_id id) mark)) ;;;
      ret (mark r)
  end.

(** [prisma.reminder.delete({ where: { id } })] *)
Definition reminder_delete (id : string) : M unit :=
  found <- reminder_findUnique id ;;
  match found with
  | None => throw recordNotFound
  | Some _ => modify (set_reminders (delete_where (reminder_by_id id)))
  end.

End Prisma.

(** ** Libraries and environment of the process

    [bcryptjs], [jsonwebtoken], [process.env] and the [Date] conversions to
    and from text are taken as an interface; nothing is assumed of them. *)

Inductive VerifyResult :=
| Decoded (userId : option string)   (* the payload, [userId] possibly absent *)
| VerifyError (e : Js.Error).        (* bad signature, malformed, expired *)

Class Platform := {
  (** [bcrypt.hash(password, rounds)], the salt drawn being explicit *)
  bcrypt_hash : string -> Z -> string -> string;
  (** [bcrypt.compare(password, hash)] *)
  bcrypt_compare : string -> string -> bool;
  (** [jwt.sign({ userId }, secret, { expiresIn })] at a given time *)
  jwt_sign : string -> string -> string -> Z -> string;
  (** [jwt.verify(token, secret)] at a given time *)
  jwt_verify : string -> string -> Z -> VerifyResult;
  JWT_SECRET : string;
  JWT_EXPIRES_IN : option string;
  JWT_REFRESH_SECRET : string;
  JWT_REFRESH_EXPIRES_IN : option string;
  (** [date.toISOString()] of a valid date *)
  toISOString : Z -> string;
  (** [new Date(text)]: the time value, or [None] for [Invalid Date] *)
  parseDate : string -> option Z
}.

(** ** backend/src/types/auth.ts *)

Record RegisterInput := mkRegisterInput {
  ri_firstName : string;
  ri_lastName : string;
  ri_email : string;
  ri_phone : option string;
  ri_password : string
}.

Record LoginInput := mkLoginInput {
  li_email : string;
  li_password : string
}.

Module AuthUser.
Record t := mk {
  id : string;
  email : string;
  firstName : string;
  lastName : string;
  phone : option string;
  role : UserRole;
  validated : bool
}.
End AuthUser.

Module AuthResponse.
Record t := mk {
  user : AuthUser.t;
  token : string;
  refreshToken : string
}.
End AuthResponse.

(** The projection [{ id, email, firstName, lastName, role, validated }]
    that [register] and [validateClient] answer with. *)
Module UserSummary.
Record t := mk {
  id : string;
  email : string;
  firstName : string;
  lastName : string;
  role : UserRole;
  validated : bool
}.

Definition of_user (u : User.t) : t :=
  {| id := User.id u; email := User.email u;
     firstName := User.firstName u; lastName := User.lastName u;
     role := User.role u; validated := User.validated u |}.
End UserSummary.

Module RegisterResponse.
Record t := mk {
  message : string;
  user : UserSummary.t
}.
End RegisterResponse.

(** ** backend/src/services/authService.ts *)

Module AuthService.
Section WithPlatform.
Context `{Platform}.

(** The messages of the errors the service throws, under the names the
    specification gives them. *)
Definition DuplicateEmail : string :=
  "An account with this email already exists".
Definition InvalidCredentials : string := "Invalid credentials".
Definition PendingValidation : string :=
  "Your account is pending validation by an administrator. Please wait for approval before logging in.".
Definition InvalidRefreshToken : string := "Invalid refresh token".
Definition ValidationRevoked : string :=
  "Account validation has been revoked. Please contact an administrator.".
Definition ClientNotFound : string := "Client not found".
Definition OnlyClients : string := "Only client accounts can be validated".
Definition AlreadyValidated : string := "Client is already validated".

Definition register (newId : string) (now : Z) (salt : string)
    (data : RegisterInput) : M RegisterResponse.t :=
  existingUser <- Prisma.user_findUnique_email (Js.toLowerCase (ri_email data)) ;;
  match existingUser with
  | Some _ => throw (Js.newError DuplicateEmail)
  | None =>
      let hashedPassword := bcrypt_hash (ri_password data) 12 salt in
      user <- Prisma.user_create
        {| User.id := newId;
           User.email := Js.toLowerCase (ri_email data);
           User.password := hashedPassword;
           User.firstName := ri_firstName data;
           User.lastName := ri_lastName data;
           User.phone := ri_phone data;
           User.role := CLIENT;
           User.validated := false;
           User.createdAt := now |} ;;
      Prisma.auditLog_create
        {| AuditLog.userId := User.id user;
           AuditLog.action := "USER_REGISTERED";
           AuditLog.meta := Js.JObj
             [("email", Js.JStr (User.email user));
              ("firstName", Js.JStr (User.firstName user));
              ("lastName", Js.JStr (User.lastName user));
              ("role", Js.JStr (UserRole_toString (User.role user)));
              ("validated", Js.JBool (User.validated user))] |} ;;;
      ret {| RegisterResponse.message :=
               "Registration successful! Your account is pending validation by an administrator.";
             RegisterResponse.user := UserSummary.of_user user |}
  end.

(** [process.env.X || fallback] *)
Definition env_or (v : option string) (fallback : string) : string :=
  match v with
  | Some s => if Js.truthy s then s else fallback
  | None => fallback
  end.

Definition generateTokens (now : Z) (userId : string) : string * string :=
  let token := jwt_sign userId JWT_SECRET (env_or JWT_EXPIRES_IN "15m") now in
  let refreshToken :=
    jwt_sign userId JWT_REFRESH_SECRET (env_or JWT_REFRESH_EXPIRES_IN "7d") now in
  (token, refreshToken).

Definition authUser (user : User.t) : AuthUser.t :=
  {| AuthUser.id := User.id user;
     AuthUser.email := User.email user;
     AuthUser.firstName := User.firstName user;
     AuthUser.lastName := User.lastName user;
     AuthUser.phone := User.phone user;
     AuthUser.role := User.role user;
     AuthUser.validated := User.validated user |}.

Definition authResponse (user : User.t) (tokens : string * string) : AuthResponse.t :=
  {| AuthResponse.user := authUser user;
     AuthResponse.token := fst tokens;
     AuthResponse.refreshToken := snd tokens |}.

(** [user.role === UserRole.CLIENT && !user.validated] *)
Definition pendingClient (user : User.t) : bool :=
  UserRole_eqb (User.role user) CLIENT && negb (User.validated user).

Definition login (now : Z) (data : LoginInput) : M AuthResponse.t :=
  found <- Prisma.user_findUnique_email (Js.toLowerCase (li_email data)) ;;
  match found with
  | None => throw (Js.newError InvalidCredentials)
  | Some user =>
      let isValidPassword := bcrypt_compare (li_password data) (User.password user) in
      if negb isValidPassword then throw (Js.newError InvalidCredentials)
      else if pendingClient user then throw (Js.newError PendingValidation)
      else
        let tokens := generateTokens now (User.id user) in
        Prisma.auditLog_create
          {| AuditLog.userId := User.id user;
             AuditLog.action := "USER_LOGIN";
             AuditLog.meta := Js.JObj
               [("email", Js.JStr (User.email user));
                ("role", Js.JStr (UserRole_toString (User.role user)))] |} ;;;
        ret (authResponse user tokens)
  end.

(** The body of the [try] block of [refreshToken]. *)
Definition refreshToken_try (now : Z) (refreshToken : string) : M AuthResponse.t :=
  match jwt_verify refreshToken JWT_REFRESH_SECRET now with
  | VerifyError e => throw e
  | Decoded None => throw Prisma.validationError
  | Decoded (Some userId) =>
      found <- Prisma.user_findUnique_id userId ;;
      match found with
      | None => throw (Js.newError InvalidRefreshToken)
      | Some user =>
          if pendingClient user then throw (Js.newError ValidationRevoked)
          else ret (authResponse user (generateTokens now (User.id user)))
      end
  end.

Definition refreshToken (now : Z) (refreshToken : string) : M AuthResponse.t :=
  try_catch (refreshToken_try now refreshToken)
            (fun _ => throw (Js.newError InvalidRefreshToken)).

Definition validateClient (clientId adminUserId : string) : M UserSummary.t :=
  found <- Prisma.user_findUnique_id clientId ;;
  match found with
  | None => throw (Js.newError ClientNotFound)
  | Some client =>
      if negb (UserRole_eqb (User.role client) CLIENT)
      then throw (Js.newError OnlyClients)
      else if User.validated client then throw (Js.newError AlreadyValidated)
      else
        updatedClient <- Prisma.user_update clientId (User.set_validated true) ;;
        Prisma.auditLog_create
          {| AuditLog.userId := adminUserId;
             AuditLog.action := "CLIENT_VALIDATED";
             AuditLog.meta := Js.JObj
               [("validatedClientId", Js.JStr clientId);
                ("validatedClientEmail", Js.JStr (User.email client));
                ("validatedClientName",
                 Js.JStr (User.firstName client +:+ " " +:+ User.lastName client))] |} ;;;
        ret (UserSummary.of_user updatedClient)
  end.

End WithPlatform.
End AuthService.

(** ** Authorization middleware ([backend/src/middleware/auth.ts])

    [authenticateToken] resolves the bearer token to [req.user]; a handler
    below starts from the [req.user] it is given. *)

Record ReqUser := mkReqUser {
  req_id : string;
  req_role : UserRole
}.

Definition Forbidden : string := "Forbidden".

(** Modelled from the spec: [requireRole] of [backend/src/middleware/auth.ts],
    which is not among the sources.  "checks the resolved role against a
    static allow-list (fails with Forbidden if not listed)", the status of a
    role failure being 403. *)
Definition requireRole {A} (allowed : list UserRole) (user : ReqUser)
    (handler : M (Response A)) : M (Response A) :=
  if existsb (UserRole_eqb (req_role user)) allowed
  then handler
  else ret (json_error 403 Forbidden).

Definition staff : list UserRole := [ADMIN; PRACTITIONER].

(** ** backend/src/routes/auth.ts *)

Module AuthRoutes.

(** [/^[^\s@]+@[^\s@]+\.[^\s@]+$/] *)
Definition classChar (c : ascii) : bool :=
  negb (Js.isWhiteSpace c) && negb (Ascii.eqb c "@").

Fixpoint allClass (s : string) : bool :=
  match s with
  | EmptyString => true
  | String c r => classChar c && allClass r
  end.

(** Longest prefix of class characters, and what follows it. *)
Fixpoint spanClass (s : string) : string * string :=
  match s with
  | EmptyString => (EmptyString, EmptyString)
  | String c r =>
      if classChar c
      then let '(a, b) := spanClass r in (String c a, b)
      else (EmptyString, s)
  end.

(** Some ["."] of [s] is followed by at least one more unit. *)
Fixpoint dotBeforeLast (s : string) : bool :=
  match s with
  | EmptyString => false
  | String c r =>
      (Ascii.eqb c "." && negb (String.eqb r "")) || dotBeforeLast r
  end.

(** [[^\s@]+\.[^\s@]+$] against the whole of [d]. *)
Definition domainMatches (d : string) : bool :=
  match d with
  | EmptyString => false
  | String _ r => allClass d && dotBeforeLast r
  end.

Definition emailRegex_test (email : string) : bool :=
  let '(local, rest) := spanClass email in
  negb (String.eqb local "") &&
  match rest with
  | String c d => Ascii.eqb c "@" && domainMatches d
  | EmptyString => false
  end.

(** [req.body] of a registration: the five fields the handler reads, and
    whatever else the caller put in the object. *)
Record RegisterBody := mkRegisterBody {
  rb_firstName : option string;
  rb_lastName : option string;
  rb_email : option string;
  rb_phone : option string;
  rb_password : option string;
  rb_extra : list (string * Js.Json)
}.

(** [phone?.trim() || null] *)
Definition trimmedPhone (phone : option string) : option string :=
  match phone with
  | Some p => let t := Js.trim p in if Js.truthy t then Some t else None
  | None => None
  end.

Section WithPlatform.
Context `{Platform}.

Definition post_register (newId : string) (now : Z) (salt : string)
    (body : RegisterBody) : M (Response RegisterResponse.t) :=
  try_catch
    (match rb_firstName body, rb_lastName body, rb_email body, rb_password body with
     | Some firstName, Some lastName, Some email, Some password =>
         if negb (Js.truthy firstName) || negb (Js.truthy lastName)
            || negb (Js.truthy email) || negb (Js.truthy password)
         then ret (json_error 400 "First name, last name, email and password are required")
         else if (Z.of_nat (String.length password) <? 6)
         then ret (json_error 400 "Password must be at least 6 characters long")
         else if negb (emailRegex_test email)
         then ret (json_error 400 "Please provide a valid email address")
         else
           result <- AuthService.register newId now salt
             {| ri_firstName := Js.trim firstName;
                ri_lastName := Js.trim lastName;
                ri_email := Js.trim email;
                ri_phone := trimmedPhone (rb_phone body);
                ri_password := password |} ;;
           ret (json_data 201 result (RegisterResponse.message result))
     | _, _, _, _ =>
         ret (json_error 400 "First name, last name, email and password are required")
     end)
    (fun e => ret (json_error 400 (message_or e "Registration failed"))).

(** [PUT /auth/validate-client/:clientId] *)
Definition put_validate_client (user : ReqUser) (clientId : string)
    : M (Response UserSummary.t) :=
  requireRole staff user
    (try_catch
      (if negb (Js.truthy clientId)
       then ret (json_error 400 "Client ID is required")
       else
         validatedClient <- AuthService.validateClient clientId (req_id user) ;;
         ret (json_data 200 validatedClient
                ("Client " +:+ UserSummary.firstName validatedClient +:+ " "
                 +:+ UserSummary.lastName validatedClient
                 +:+ " has been validated successfully")))
      (fun e => ret (json_error 400 (message_or e "Failed to validate client")))).

(** [req.body] of [POST /auth/login]. *)
Record LoginBody := mkLoginBody {
  lb_email : option string;
  lb_password : option string
}.

(** [POST /auth/login] *)
Definition post_login (now : Z) (body : LoginBody) : M (Response AuthResponse.t) :=
  try_catch
    (match lb_email body, lb_password body with
     | Some email, Some password =>
         if negb (Js.truthy email) || negb (Js.truthy password)
         then ret (json_error 400 "Email and password are required")
         else
           result <- AuthService.login now
                       {| li_email := Js.trim email; li_password := password |} ;;
           ret (json_data 200 result "Login successful")
     | _, _ => ret (json_error 400 "Email and password are required")
     end)
    (fun e => ret (json_error 401 (message_or e "Login failed"))).

(** [POST /auth/refresh], [refreshToken] being the field of the body. *)
Definition post_refresh (now : Z) (refreshToken : option string)
    : M (Response AuthResponse.t) :=
  try_catch
    (if negb (Js.truthy_opt refreshToken)
     then ret (json_error 400 "Refresh token required")
     else
       result <- AuthService.refreshToken now (default "" refreshToken) ;;
       ret (json_data 200 result "Token refreshed successfully"))
    (fun e => ret (json_error 401 (message_or e "Token refresh failed"))).

End WithPlatform.
End AuthRoutes.

(** ** Express routing

    A router tries its routes in the order of their registration and runs
    the first one whose method and path pattern match; a handler that
    answers without calling [next] ends the search. *)

Module Express.

Inductive Method := GET | POST | PUT | DELETE.

#[global] Instance Method_eq_dec : EqDecision Method.
Proof. solve_decision. Defined.

(** A segment of a path pattern: a literal, or a [:name] parameter. *)
Inductive Segment :=
| Lit (s : string)
| Param (name : string).

(** Paths are lists of their non-empty segments.  Literals compare without
    regard to case, as Express does by default; a parameter takes one
    whole segment. *)
Fixpoint matchPath (pattern : list Segment) (path : list string)
    : option (list (string * string)) :=
  match pattern, path with
  | [], [] => Some []
  | Lit l :: pattern', seg :: path' =>
      if String.eqb (Js.toLowerCase l) (Js.toLowerCase seg)
      then matchPath pattern' path'
      else None
  | Param x :: pattern', seg :: path' =>
      match matchPath pattern' path' with
      | Some params => Some ((x, seg) :: params)
      | None => None
      end
  | _, _ => None
  end.

Fixpoint dispatch {R} (routes : list (Method * list Segment * R))
    (m : Method) (path : list string) : option (R * list (string * string)) :=
  match routes with
  | [] => None
  | (m', pattern, r) :: rest =>
      if bool_decide (m' = m) then
        match matchPath pattern path with
        | Some params => Some (r, params)
        | None => dispatch rest m path
        end
      else dispatch rest m path
  end.

(** [req.params.name] *)
Fixpoint param (params : list (string * string)) (x : string) : string :=
  match params with
  | [] => ""
  | (y, v) :: rest => if String.eqb x y then v else param rest x
  end.

End Express.

(** ** backend/src/routes/users.ts *)

Module UsersRoutes.

(** The projection [PUT /:id] answers with. *)
Record ClientProfile := mkClientProfile {
  cp_id : string;
  cp_email : string;
  cp_firstName : string;
  cp_lastName : string;
  cp_phone : option string;
  cp_validated : bool;
  cp_createdAt : Z
}.

Definition clientProfile (u : User.t) : ClientProfile :=
  {| cp_id := User.id u; cp_email := User.email u;
     cp_firstName := User.firstName u; cp_lastName := User.lastName u;
     cp_phone := User.phone u; cp_validated := User.validated u;
     cp_createdAt := User.createdAt u |}.

(** What the modelled handlers put in their answer: [data], or
    [validatedCount] for the bulk validation. *)
Inductive Data :=
| DSummary (u : UserSummary.t)
| DProfile (p : ClientProfile)
| DValidatedCount (n : Z).

(** [req.body] as the [PUT] handlers read it.  [b_phone] tells
    [undefined] ([None]) from [null] ([Some None]); [b_clientIds] is
    [None] when the field is not an array. *)
Record Body := mkBody {
  b_firstName : option string;
  b_lastName : option string;
  b_phone : option (option string);
  b_email : option string;
  b_clientIds : option (list string)
}.

(** [PUT /:id/validate] *)
Definition put_validate (user : ReqUser) (id : string) : M (Response Data) :=
  requireRole staff user
    (try_catch
      (found <- Prisma.user_findUnique_id id ;;
       match found with
       | None => ret (json_error 404 "User not found")
       | Some u =>
           if negb (UserRole_eqb (User.role u) CLIENT)
           then ret (json_error 400 "Only client accounts can be validated")
           else if User.validated u
           then ret (json_error 400 "Client account is already validated")
           else
             updatedUser <- Prisma.user_update id (User.set_validated true) ;;
             Prisma.auditLog_create
               {| AuditLog.userId := req_id user;
                  AuditLog.action := "VALIDATE_CLIENT";
                  AuditLog.meta := Js.JObj
                    [("validatedClientId", Js.JStr id);
                     ("validatedClientEmail", Js.JStr (User.email u));
                     ("validatedClientName",
                      Js.JStr (User.firstName u +:+ " " +:+ User.lastName u))] |} ;;;
             ret (json_data 200 (DSummary (UserSummary.of_user updatedUser))
                    ("Client " +:+ User.firstName u +:+ " " +:+ User.lastName u
                     +:+ " has been validated successfully"))
       end)
      (fun _ => ret (json_error 500 "Failed to validate client account"))).

(** The [data] of the update of [PUT /:id]:
    [...(firstName && { firstName })], [...(lastName && { lastName })],
    [...(phone !== undefined && { phone })], [...(email && { email })]. *)
Definition profileData (body : Body) (u : User.t) : User.t :=
  {| User.id := User.id u;
     User.email :=
       (if Js.truthy_opt (b_email body)
        then default "" (b_email body) else User.email u);
     User.password := User.password u;
     User.firstName :=
       (if Js.truthy_opt (b_firstName body)
        then default "" (b_firstName body) else User.firstName u);
     User.lastName :=
       (if Js.truthy_opt (b_lastName body)
        then default "" (b_lastName body) else User.lastName u);
     User.phone :=
       match b_phone body with
       | Some phone => phone
       | None => User.phone u
       end;
     User.role := User.role u;
     User.validated := User.validated u;
     User.createdAt := User.createdAt u |}.

(** [PUT /:id] *)
Definition put_update (user : ReqUser) (id : string) (body : Body)
    : M (Response Data) :=
  requireRole staff user
    (try_catch
      (found <- Prisma.user_findUnique_id id ;;
       match found with
       | None => ret (json_error 404 "User not found")
       | Some u =>
           if negb (UserRole_eqb (User.role u) CLIENT)
           then ret (json_error 400 "Only client accounts can be updated")
           else
             existingUser <-
               (if Js.truthy_opt (b_email body)
                then Prisma.user_findFirst_email_not_id (default "" (b_email body)) id
                else ret None) ;;
             match existingUser with
             | Some _ => ret (json_error 400 "Email is already taken")
             | None =>
                 updatedUser <- Prisma.user_update id (profileData body) ;;
                 ret (json_data 200 (DProfile (clientProfile updatedUser))
                        "Client profile updated successfully")
             end
       end)
      (fun _ => ret (json_error 500 "Failed to update client profile"))).

(** [where: { id: { in: clientIds }, role: CLIENT, validated: false }] *)
Definition bulkTarget (clientIds : list string) (u : User.t) : bool :=
  existsb (String.eqb (User.id u)) clientIds
  && UserRole_eqb (User.role u) CLIENT
  && negb (User.validated u).

(** [PUT /bulk/validate] *)
Definition put_bulk_validate (user : ReqUser) (body : Body) : M (Response Data) :=
  requireRole [ADMIN] user
    (try_catch
      (match b_clientIds body with
       | None | Some [] => ret (json_error 400 "Client IDs array is required")
       | Some clientIds =>
           count <- Prisma.user_updateMany (bulkTarget clientIds)
                      (User.set_validated true) ;;
           Prisma.auditLog_create
             {| AuditLog.userId := req_id user;
                AuditLog.action := "BULK_VALIDATE_CLIENTS";
                AuditLog.meta := Js.JObj
                  [("validatedClientIds", Js.JArr (map Js.JStr clientIds));
                   ("validatedCount", Js.JNum count)] |} ;;;
           ret {| status := 200;
                  data := Some (DValidatedCount count);
                  message := Some (pretty count +:+ " clients validated successfully");
                  error := None |}
       end)
      (fun _ => ret (json_error 500 "Failed to validate clients"))).

(** The routes of the file, in the order of their registration. *)
Inductive Route :=
| GetMe
| GetClients
| GetById
| PutValidate
| DeleteById
| PutById
| GetSearch
| PutBulkValidate.

Definition routes : list (Express.Method * list Express.Segment * Route) :=
  [ (Express.GET, [Express.Lit "me"], GetMe);
    (Express.GET, [Express.Lit "clients"], GetClients);
    (Express.GET, [Express.Param "id"], GetById);
    (Express.PUT, [Express.Param "id"; Express.Lit "validate"], PutValidate);
    (Express.DELETE, [Express.Param "id"], DeleteById);
    (Express.PUT, [Express.Param "id"], PutById);
    (Express.GET, [Express.Lit "search"], GetSearch);
    (Express.PUT, [Express.Lit "bulk"; Express.Lit "validate"], PutBulkValidate) ].

(** A [PUT] request to the router, answered by the route it reaches;
    [None] when no route matches and the request leaves the router. *)
Definition handle_put (user : ReqUser) (path : list string) (body : Body)
    : option (M (Response Data)) :=
  match Express.dispatch routes Express.PUT path with
  | Some (PutValidate, params) => Some (put_validate user (Express.param params "id"))
  | Some (PutById, params) => Some (put_update user (Express.param params "id") body)
  | Some (PutBulkValidate, _) => Some (put_bulk_validate user body)
  | _ => None
  end.

End UsersRoutes.

(** ** backend/src/routes/animals.ts *)

Module AnimalsRoutes.

(** The message of the refusal the specification calls
    [DependencyBlocked]. *)
Definition DependencyBlocked : string :=
  "Cannot delete animal with existing appointments or treatment notes. Please contact an administrator.".

(** [req.user!.role === 'ADMIN' || req.user!.role === 'PRACTITIONER'] *)
Definition isAdmin (user : ReqUser) : bool :=
  UserRole_eqb (req_role user) ADMIN || UserRole_eqb (req_role user) PRACTITIONER.

(** [where: isAdmin ? { id } : { id, ownerId: req.user!.id }] *)
Definition visible (user : ReqUser) (id : string) (a : Animal.t) : bool :=
  if isAdmin user
  then String.eqb (Animal.id a) id
  else String.eqb (Animal.id a) id && String.eqb (Animal.ownerId a) (req_id user).

Definition is_some {A} (o : option A) : bool :=
  match o with
  | Some _ => true
  | None => false
  end.

(** [DELETE /animals/:id] *)
Definition delete_animal (user : ReqUser) (id : string) : M (Response unit) :=
  try_catch
    (existingAnimal <- gets (fun s => find (visible user id) (animals s)) ;;
     match existingAnimal with
     | None =>
         ret (json_error 404
                "Animal not found or you do not have permission to delete it")
     | Some _ =>
         hasAppointments <- Prisma.appointment_findFirst_animal id ;;
         hasTreatmentNotes <- Prisma.treatmentNote_findFirst_animal id ;;
         if is_some hasAppointments || is_some hasTreatmentNotes
         then ret (json_error 400 DependencyBlocked)
         else
           Prisma.animal_delete id ;;;
           ret (json_message 200 "Animal deleted successfully")
     end)
    (fun e => ret (json_error 400 (message_or e "Failed to delete animal"))).

End AnimalsRoutes.

(** ** backend/src/routes/reminders.ts *)

Module RemindersRoutes.

(** [req.body] of [POST /reminders], each field absent or a string. *)
Record CreateBody := mkCreateBody {
  cb_message : option string;
  cb_type : option string;
  cb_dueDate : option string;
  cb_priority : option string;
  cb_appointmentId : option string
}.

(** The value [createReminderSchema.parse] returns. *)
Record ValidatedData := mkValidatedData {
  v_message : string;
  v_type : string;
  v_dueDate : string;
  v_priority : string;
  v_appointmentId : option string
}.

Definition zodError : Js.Error :=
  {| Js.name := "ZodError"; Js.message := "Invalid input" |}.

(** [z.enum(['HIGH', 'MEDIUM', 'LOW'])] *)
Definition isPriority (p : string) : bool :=
  String.eqb p "HIGH" || String.eqb p "MEDIUM" || String.eqb p "LOW".

(** [createReminderSchema.parse(req.body)] *)
Definition createReminderSchema_parse (body : CreateBody) : Js.Error + ValidatedData :=
  match cb_message body, cb_dueDate body with
  | Some message, Some dueDate =>
      let priority := default "MEDIUM" (cb_priority body) in
      if (1 <=? Z.of_nat (String.length message)) && isPriority priority
      then inr {| v_message := message;
                  v_type := default "MANUAL" (cb_type body);
                  v_dueDate := dueDate;
                  v_priority := priority;
                  v_appointmentId := cb_appointmentId body |}
      else inl zodError
  | _, _ => inl zodError
  end.

Definition mapStringToReminderType (typeString : string) : ReminderType :=
  if String.eqb typeString "APPOINTMENT_REMINDER" then APPOINTMENT_REMINDER
  else if String.eqb typeString "FOLLOW_UP" then FOLLOW_UP
  else if String.eqb typeString "APPOINTMENT_CONFIRMATION" then APPOINTMENT_CONFIRMATION
  else if String.eqb typeString "BIRTHDAY" then BIRTHDAY
  else if String.eqb typeString "MEDICATION" then FOLLOW_UP
  else if String.eqb typeString "CHECKUP" then FOLLOW_UP
  else if String.eqb typeString "MANUAL" then FOLLOW_UP
  else FOLLOW_UP.

(** [!minutes || minutes <= 0], for [minutes] absent or an integer. *)
Definition invalidMinutes (minutes : option Z) : bool :=
  match minutes with
  | None => true
  | Some m => (m =? 0) || (m <=? 0)
  end.

(** [toISOString] of an invalid date throws this. *)
Definition rangeError : Js.Error :=
  {| Js.name := "RangeError"; Js.message := "Invalid time value" |}.

Section WithPlatform.
Context `{Platform}.

(** A database row as the routes answer it: [type: reminder.type],
    [completed: reminder.sent], [priority: 'MEDIUM']. *)
Definition dbResponse (reminder : Reminder.t) : ReminderResponse.t :=
  {| ReminderResponse.id := Reminder.id reminder;
     ReminderResponse.message := Reminder.message reminder;
     ReminderResponse.type := ReminderType_toString (Reminder.type reminder);
     ReminderResponse.dueDate := toISOString (Reminder.remindAt reminder);
     ReminderResponse.completed := Reminder.sent reminder;
     ReminderResponse.priority := "MEDIUM";
     ReminderResponse.appointmentId := Some (Reminder.appointmentId reminder);
     ReminderResponse.createdAt := toISOString (Reminder.createdAt reminder) |}.

(** The linked branch of [POST /reminders], inside its own [try]. *)
Definition create_linked (newId : string) (now : Z) (validatedData : ValidatedData)
    (appointmentId : string) : M (Response ReminderResponse.t) :=
  try_catch
    (appointment <- Prisma.appointment_findUnique appointmentId ;;
     match appointment with
     | None => ret (json_error 404 "Appointment not found")
     | Some _ =>
         let reminderType := mapStringToReminderType (v_type validatedData) in
         reminder <- Prisma.reminder_create newId now
                       (v_message validatedData) (v_message validatedData)
                       reminderType (parseDate (v_dueDate validatedData))
                       false appointmentId ;;
         ret (json_data 201
                {| ReminderResponse.id := Reminder.id reminder;
                   ReminderResponse.message := Reminder.message reminder;
                   ReminderResponse.type := v_type validatedData;
                   ReminderResponse.dueDate := toISOString (Reminder.remindAt reminder);
                   ReminderResponse.completed := Reminder.sent reminder;
                   ReminderResponse.priority := v_priority validatedData;
                   ReminderResponse.appointmentId := Some (Reminder.appointmentId reminder);
                   ReminderResponse.createdAt := toISOString (Reminder.createdAt reminder) |}
                "Reminder created successfully")
     end)
    (fun _ => ret (json_error 500 "Failed to create reminder in database")).

(** [`manual-${Date.now()}-${Math.random().toString(36).substr(2, 9)}`],
    [rnd] being the random suffix. *)
Definition manualId (now : Z) (rnd : string) : string :=
  "manual-" +:+ pretty now +:+ "-" +:+ rnd.

(** The manual branch of [POST /reminders]. *)
Definition create_manual (now : Z) (rnd : string) (validatedData : ValidatedData)
    : M (Response ReminderResponse.t) :=
  let id := manualId now rnd in
  let manualReminder :=
    {| ReminderResponse.id := id;
       ReminderResponse.message := v_message validatedData;
       ReminderResponse.type := v_type validatedData;
       ReminderResponse.dueDate := v_dueDate validatedData;
       ReminderResponse.completed := false;
       ReminderResponse.priority := v_priority validatedData;
       ReminderResponse.appointmentId := None;
       ReminderResponse.createdAt := toISOString now |} in
  modify (set_manualReminders (insert id manualReminder)) ;;;
  ret (json_data 201 manualReminder "Manual reminder created successfully").

(** [POST /reminders] *)
Definition post_reminder (user : ReqUser) (newId : string) (now : Z) (rnd : string)
    (body : CreateBody) : M (Response ReminderResponse.t) :=
  requireRole staff user
    (try_catch
      (match createReminderSchema_parse body with
       | inl e => throw e
       | inr validatedData =>
           if Js.truthy_opt (v_appointmentId validatedData)
           then create_linked newId now validatedData
                  (default "" (v_appointmentId validatedData))
           else create_manual now rnd validatedData
       end)
      (fun e =>
         if String.eqb (Js.name e) "ZodError"
         then ret (json_error 400 "Validation error")
         else ret (json_error 400 (message_or e "Failed to create reminder")))).

(** [new Date(Date.now() + minutes * 60 * 1000)] *)
Definition snoozeDate (now minutes : Z) : option Z :=
  Js.newDate (now + minutes * 60 * 1000).

(** [PUT /reminders/:id/snooze] *)
Definition put_snooze (user : ReqUser) (now : Z) (id : string) (minutes : option Z)
    : M (Response ReminderResponse.t) :=
  requireRole staff user
    (try_catch
      (if invalidMinutes minutes
       then ret (json_error 400 "Invalid snooze duration")
       else
         let m := default 0 minutes in
         if Js.startsWith id "manual-" then
           existingReminder <- gets (fun s => manualReminders s !! id) ;;
           match existingReminder with
           | None => ret (json_error 404 "Manual reminder not found")
           | Some existing =>
               match snoozeDate now m with
               | None => throw rangeError
               | Some newDueDate =>
                   let snoozedReminder :=
                     ReminderResponse.set_dueDate (toISOString newDueDate) existing in
                   modify (set_manualReminders (insert id snoozedReminder)) ;;;
                   ret (json_data 200 snoozedReminder
                          ("Manual reminder snoozed for " +:+ pretty m +:+ " minutes"))
               end
           end
         else
           try_catch
             (reminder <- Prisma.reminder_update_remindAt id (snoozeDate now m) ;;
              ret (json_data 200 (dbResponse reminder)
                     ("Reminder snoozed for " +:+ pretty m +:+ " minutes")))
             (fun _ => ret (json_error 404 "Reminder not found")))
      (fun _ => ret (json_error 400 "Failed to snooze reminder"))).

End WithPlatform.

(** What [PUT /reminders/:id/complete] answers with: [{ id, completed }]. *)
Record Completion := mkCompletion {
  done_id : string;
  done_completed : bool
}.

(** [{ ...existingReminder, completed: true }] *)
Definition markCompleted (r : ReminderResponse.t) : ReminderResponse.t :=
  {| ReminderResponse.id := ReminderResponse.id r;
     ReminderResponse.message := ReminderResponse.message r;
     ReminderResponse.type := ReminderResponse.type r;
     ReminderResponse.dueDate := ReminderResponse.dueDate r;
     ReminderResponse.completed := true;
     ReminderResponse.priority := ReminderResponse.priority r;
     ReminderResponse.appointmentId := ReminderResponse.appointmentId r;
     ReminderResponse.createdAt := ReminderResponse.createdAt r |}.

(** [PUT /reminders/:id/complete] *)
Definition put_complete (user : ReqUser) (id : string) : M (Response Completion) :=
  requireRole staff user
    (try_catch
      (if Js.startsWith id "manual-" then
         existingReminder <- gets (fun s => manualReminders s !! id) ;;
         match existingReminder with
         | None => ret (json_error 404 "Manual reminder not found")
         | Some existing =>
             modify (set_manualReminders (insert id (markCompleted existing))) ;;;
             ret (json_data 200 {| done_id := id; done_completed := true |}
                    "Manual reminder marked as completed")
         end
       else
         try_catch
           (reminder <- Prisma.reminder_update_sent id ;;
            ret (json_data 200
                   {| done_id := Reminder.id reminder;
                      done_completed := Reminder.sent reminder |}
                   "Reminder marked as completed"))
           (fun _ => ret (json_error 404 "Reminder not found")))
      (fun _ => ret (json_error 400 "Failed to complete reminder"))).

(** [DELETE /reminders/:id] *)
Definition delete_reminder (user : ReqUser) (id : string) : M (Response unit) :=
  requireRole staff user
    (try_catch
      (if Js.startsWith id "manual-" then
         existed <- gets (fun s => bool_decide (is_Some (manualReminders s !! id))) ;;
         modify (set_manualReminders (delete id)) ;;;
         if negb existed
         then ret (json_error 404 "Manual reminder not found")
         else ret (json_message 200 "Manual reminder deleted successfully")
       else
         try_catch
           (Prisma.reminder_delete id ;;;
            ret (json_message 200 "Reminder deleted successfully"))
           (fun _ => ret (json_error 404 "Reminder not found")))
      (fun _ => ret (json_error 400 "Failed to delete reminder"))).

(** The stored reminder an id denotes: the routes look an id that starts
    with [manual-] up in the in-memory map, and any other id in the
    database. *)
Inductive Stored :=
| Manual (r : ReminderResponse.t)
| Persisted (r : Reminder.t).

Definition lookupReminder (s : State) (id : string) : option Stored :=
  if Js.startsWith id "manual-"
  then Manual <$> manualReminders s !! id
  else Persisted <$> find (Prisma.reminder_by_id id) (reminders s).

End RemindersRoutes.

(** ** Appointment status

    The appointment routes ([backend/src/routes/appointments.ts]) are not
    among the sources; the dashboard that calls them is. *)

Inductive AppointmentStatus := SCHEDULED | CONFIRMED | CANCELLED | COMPLETED.

#[global] Instance AppointmentStatus_eq_dec : EqDecision AppointmentStatus.
Proof. solve_decision. Defined.

Module AppointmentsTab.

(** [user?.role !== 'CLIENT' && appointment.status === 'SCHEDULED']: the
    dashboard shows the Confirm and Refuse buttons. *)
Definition offersConfirmRefuse (role : UserRole) (st : AppointmentStatus) : bool :=
  negb (UserRole_eqb role CLIENT) && bool_decide (st = SCHEDULED).

(** [appointment.status !== 'CANCELLED' && appointment.status !== 'COMPLETED']:
    the dashboard shows the Cancel button. *)
Definition offersCancel (st : AppointmentStatus) : bool :=
  negb (bool_decide (st = CANCELLED)) && negb (bool_decide (st = COMPLETED)).

End AppointmentsTab.

Module AppointmentLifecycle.

Inductive Operation := Confirm | Refuse | Cancel.

(** Modelled from the spec: the status update of the appointment routes
    [confirm], [refuse] and [cancel], which are not among the sources.
    "confirm(id): only valid from SCHEDULED"; "refuse(id, reason?): only
    valid from SCHEDULED", the data model reusing CANCELLED for a refusal;
    "cancel(id): valid from any non-terminal state".  [None] is a failed
    call, which leaves the status as it is. *)
Definition confirm (st : AppointmentStatus) : option AppointmentStatus :=
  match st with
  | SCHEDULED => Some CONFIRMED
  | _ => None
  end.

Definition refuse (st : AppointmentStatus) : option AppointmentStatus :=
  match st with
  | SCHEDULED => Some CANCELLED
  | _ => None
  end.

Definition cancel (st : AppointmentStatus) : option AppointmentStatus :=
  match st with
  | SCHEDULED | CONFIRMED => Some CANCELLED
  | _ => None
  end.

Definition apply (op : Operation) : AppointmentStatus -> option AppointmentStatus :=
  match op with
  | Confirm => confirm
  | Refuse => refuse
  | Cancel => cancel
  end.




End AppointmentLifecycle.

(** * Vocabulary of the statements *)

(** The audit entry [validateClient] writes. *)
Definition validationEntry (clientId adminUserId : string) (client : User.t) : AuditLog.t :=
  {| AuditLog.userId := adminUserId;
     AuditLog.action := "CLIENT_VALIDATED";
     AuditLog.meta := Js.JObj
       [("validatedClientId", Js.JStr clientId);
        ("validatedClientEmail", Js.JStr (User.email client));
        ("validatedClientName",
         Js.JStr (User.firstName client +:+ " " +:+ User.lastName client))] |}.

(** The state [validateClient] leaves when it succeeds. *)
Definition validatedState (clientId adminUserId : string) (client : User.t)
    (s : State) : State :=
  set_auditLogs (fun l => (l ++ [validationEntry clientId adminUserId client])%list)
    (set_users (Prisma.update_where (Prisma.user_by_id clientId)
                  (User.set_validated true)) s).

(** A concrete platform and a concrete state, on which the statements are
    run.  The stand-ins keep the shape of the libraries: a hash that
    [compare] accepts for its password only, a token that [verify] accepts
    for its secret only. *)
Module Demo.

Definition platform : Platform :=
  {| bcrypt_hash := fun password _ salt => salt +:+ "$" +:+ password;
     bcrypt_compare := fun password hash => String.eqb hash ("salt$" +:+ password);
     jwt_sign := fun userId secret _ _ => secret +:+ "." +:+ userId;
     jwt_verify := fun token secret _ =>
       if String.prefix (secret +:+ ".") token
       then Decoded (Some (String.substring (S (String.length secret))
                             (String.length token) token))
       else VerifyError {| Js.name := "JsonWebTokenError";
                           Js.message := "invalid signature" |};
     JWT_SECRET := "access-secret";
     JWT_EXPIRES_IN := None;
     JWT_REFRESH_SECRET := "refresh-secret";
     JWT_REFRESH_EXPIRES_IN := Some "30d";
     toISOString := fun t => "T" +:+ pretty t;
     parseDate := fun text =>
       if String.eqb text "2030-01-01T00:00:00.000Z" then Some 1893456000000
       else None |}.

Definition admin : User.t :=
  {| User.id := "a1"; User.email := "admin@clinic.test";
     User.password := "salt$adminpw"; User.firstName := "Ada";
     User.lastName := "Min"; User.phone := None; User.role := ADMIN;
     User.validated := false; User.createdAt := 1000 |}.

Definition pending : User.t :=
  {| User.id := "c1"; User.email := "ana@example.com";
     User.password := "salt$secret1"; User.firstName := "Ana";
     User.lastName := "Lopez"; User.phone := Some "0601"; User.role := CLIENT;
     User.validated := false; User.createdAt := 2000 |}.

Definition approved : User.t :=
  {| User.id := "c2"; User.email := "bob@example.com";
     User.password := "salt$secret2"; User.firstName := "Bob";
     User.lastName := "Stone"; User.phone := None; User.role := CLIENT;
     User.validated := true; User.createdAt := 3000 |}.

Definition rex : Animal.t :=
  {| Animal.id := "an1"; Animal.name := "Rex"; Animal.breed := "Beagle";
     Animal.ownerId := "c2" |}.

Definition bella : Animal.t :=
  {| Animal.id := "an2"; Animal.name := "Bella"; Animal.breed := "Collie";
     Animal.ownerId := "c2" |}.

Definition visit : Appointment.t :=
  {| Appointment.id := "ap1"; Appointment.clientId := "c2";
     Appointment.animalId := "an1" |}.

Definition followUp : Reminder.t :=
  {| Reminder.id := "r1"; Reminder.message := "Call back";
     Reminder.messageFr := "Rappeler"; Reminder.type := FOLLOW_UP;
     Reminder.remindAt := 1700000000000; Reminder.sent := false;
     Reminder.appointmentId := "ap1"; Reminder.createdAt := 1690000000000 |}.

Definition note : ReminderResponse.t :=
  {| ReminderResponse.id := "manual-1700000000000-k3x9q2m1z";
     ReminderResponse.message := "Order supplies";
     ReminderResponse.type := "MEDICATION";
     ReminderResponse.dueDate := "2024-01-01T00:00:00.000Z";
     ReminderResponse.completed := false;
     ReminderResponse.priority := "HIGH";
     ReminderResponse.appointmentId := None;
     ReminderResponse.createdAt := "2023-11-14T22:13:20.000Z" |}.

Definition state : State :=
  {| users := [admin; pending; approved];
     auditLogs := [];
     animals := [rex; bella];
     appointments := [visit];
     treatmentNotes := [];
     reminders := [followUp];
     manualReminders := {[ "manual-1700000000000-k3x9q2m1z" := note ]} |}.

Definition adminUser : ReqUser := {| req_id := "a1"; req_role := ADMIN |}.
Definition practitioner : ReqUser := {| req_id := "p1"; req_role := PRACTITIONER |}.
Definition clientUser : ReqUser := {| req_id := "c2"; req_role := CLIENT |}.

End Demo.

(** The audit entry [login] writes. *)
Definition loginEntry (user : User.t) : AuditLog.t :=
  {| AuditLog.userId := User.id user;
     AuditLog.action := "USER_LOGIN";
     AuditLog.meta := Js.JObj
       [("email", Js.JStr (User.email user));
        ("role", Js.JStr (UserRole_toString (User.role user)))] |}.

Section RegisterVocabulary.
Context `{Platform}.

(** The row [register] creates. *)
Definition registeredUser (newId : string) (now : Z) (salt : string)
    (data : RegisterInput) : User.t :=
  {| User.id := newId;
     User.email := Js.toLowerCase (ri_email data);
     User.password := bcrypt_hash (ri_password data) 12 salt;
     User.firstName := ri_firstName data;
     User.lastName := ri_lastName data;
     User.phone := ri_phone data;
     User.role := CLIENT;
     User.validated := false;
     User.createdAt := now |}.

(** The state [register] leaves when it succeeds. *)
Definition registeredState (newId : string) (now : Z) (salt : string)
    (data : RegisterInput) (s : State) : State :=
  let user := registeredUser newId now salt data in
  set_auditLogs
    (fun l =>
       (l ++ [{| AuditLog.userId := User.id user;
                 AuditLog.action := "USER_REGISTERED";
                 AuditLog.meta := Js.JObj
                   [("email", Js.JStr (User.email user));
                    ("firstName", Js.JStr (User.firstName user));
                    ("lastName", Js.JStr (User.lastName user));
                    ("role", Js.JStr (UserRole_toString (User.role user)));
                    ("validated", Js.JBool (User.validated user))] |}])%list)
    (set_users (fun l => (l ++ [user])%list) s).
End RegisterVocabulary.



(** The sent/completed flag of a stored reminder. *)
Definition storedDone (st : RemindersRoutes.Stored) : bool :=
  match st with
  | RemindersRoutes.Manual r => ReminderResponse.completed r
  | RemindersRoutes.Persisted r => Reminder.sent r
  end.

(** The row the linked branch of [POST /reminders] persists for a type
    outside the enum. *)
Definition fallbackRow (newId : string) (now : Z)
    (v : RemindersRoutes.ValidatedData) (appointmentId : string) (remindAt : Z)
    : Reminder.t :=
  {| Reminder.id := newId;
     Reminder.message := RemindersRoutes.v_message v;
     Reminder.messageFr := RemindersRoutes.v_message v;
     Reminder.type := FOLLOW_UP;
     Reminder.remindAt := remindAt;
     Reminder.sent := false;
     Reminder.appointmentId := appointmentId;
     Reminder.createdAt := now |}.

(** The record the manual branch of [POST /reminders] keeps in memory. *)
Definition manualRecord `{Platform} (now : Z) (rnd : string)
    (v : RemindersRoutes.ValidatedData) : ReminderResponse.t :=
  {| ReminderResponse.id := RemindersRoutes.manualId now rnd;
     ReminderResponse.message := RemindersRoutes.v_message v;
     ReminderResponse.type := RemindersRoutes.v_type v;
     ReminderResponse.dueDate := RemindersRoutes.v_dueDate v;
     ReminderResponse.completed := false;
     ReminderResponse.priority := RemindersRoutes.v_priority v;
     ReminderResponse.appointmentId := None;
     ReminderResponse.createdAt := toISOString now |}.

(** The user-management requests that write to the users table: the
    handlers themselves, and a [PUT] sent through the users router. *)
Inductive UserOperation :=
| ProfileUpdate (user : ReqUser) (id : string) (body : UsersRoutes.Body)
| BulkValidate (user : ReqUser) (body : UsersRoutes.Body)
| ValidateUser (user : ReqUser) (id : string)
| ValidateClient (user : ReqUser) (clientId : string)
| RouterPut (user : ReqUser) (path : list string) (body : UsersRoutes.Body).

(** The state after a request, whatever the answer was. *)
Definition perform (op : UserOperation) (s : State) : State :=
  match op with
  | ProfileUpdate user id body => snd (UsersRoutes.put_update user id body s)
  | BulkValidate user body => snd (UsersRoutes.put_bulk_validate user body s)
  | ValidateUser user id => snd (UsersRoutes.put_validate user id s)
  | ValidateClient user clientId => snd (AuthRoutes.put_validate_client user clientId s)
  | RouterPut user path body =>
      match UsersRoutes.handle_put user path body with
      | Some handler => snd (handler s)
      | None => s
      end
  end.

Definition performAll (ops : list UserOperation) (s : State) : State :=
  fold_left (fun s op => perform op s) ops s.

(** What a request may do to a row of the users table: the id and the role
    stay, and a [validated] that is true stays true. *)
Definition keepsValidation (u u' : User.t) : Prop :=
  User.id u' = User.id u
  /\ User.role u' = User.role u
  /\ (User.validated u = true -> User.validated u' = true).

(** ** src/pages/RegisterPage.tsx, the caller of [POST /auth/register] *)

Module RegisterPage.

Record FormData := mkFormData {
  firstName : string;
  lastName : string;
  email : string;
  phone : string;
  password : string;
  confirmPassword : string
}.

(** The message [validateForm] hands to [setError], [None] when it
    returns [true]. *)
Definition formError (formData : FormData) : option string :=
  if negb (Js.truthy (Js.trim (firstName formData)))
  then Some "First name is required"
  else if negb (Js.truthy (Js.trim (lastName formData)))
  then Some "Last name is required"
  else if negb (Js.truthy (Js.trim (email formData)))
  then Some "Email is required"
  else if negb (AuthRoutes.emailRegex_test (email formData))
  then Some "Please enter a valid email address"
  else if negb (Js.truthy (password formData))
  then Some "Password is required"
  else if (Z.of_nat (String.length (password formData)) <? 6)
  then Some "Password must be at least 6 characters long"
  else if negb (String.eqb (password formData) (confirmPassword formData))
  then Some "Passwords do not match"
  else None.

Definition validateForm (formData : FormData) : bool :=
  match formError formData with
  | None => true
  | Some _ => false
  end.

(** The object [handleSubmit] gives to [apiClient.register], as the body
    of the request; [phone.trim() || undefined] leaves the phone out when it
    is blank. *)
Definition registerRequest (formData : FormData) : AuthRoutes.RegisterBody :=
  {| AuthRoutes.rb_firstName := Some (Js.trim (firstName formData));
     AuthRoutes.rb_lastName := Some (Js.trim (lastName formData));
     AuthRoutes.rb_email := Some (Js.toLowerCase (Js.trim (email formData)));
     AuthRoutes.rb_phone :=
       (if Js.truthy (Js.trim (phone formData))
        then Some (Js.trim (phone formData)) else None);
     AuthRoutes.rb_password := Some (password formData);
     AuthRoutes.rb_extra := [] |}.

End RegisterPage.

(** No code unit of the string is white space. *)
Fixpoint noWhiteSpace (s : string) : bool :=
  match s with
  | EmptyString => true
  | String c r => negb (Js.isWhiteSpace c) && noWhiteSpace r
  end.

(** The keys of the users table are unique: no two rows share an id, no
    two rows share an e-mail. *)
Definition uniqueKeys (l : list User.t) : Prop :=
  List.NoDup (map User.id l) /\ List.NoDup (map User.email l).

(** A database reminder marked as sent. *)
Definition markSent (r : Reminder.t) : Reminder.t :=
  {| Reminder.id := Reminder.id r; Reminder.message := Reminder.message r;
     Reminder.messageFr := Reminder.messageFr r; Reminder.type := Reminder.type r;
     Reminder.remindAt := Reminder.remindAt r; Reminder.sent := true;
     Reminder.appointmentId := Reminder.appointmentId r;
     Reminder.createdAt := Reminder.createdAt r |}.

(** A stored reminder whose sent/completed flag alone is set. *)
Definition completedStored (st : RemindersRoutes.Stored) : RemindersRoutes.Stored :=
  match st with
  | RemindersRoutes.Manual r => RemindersRoutes.Manual (RemindersRoutes.markCompleted r)
  | RemindersRoutes.Persisted r => RemindersRoutes.Persisted (markSent r)
  end.

(** Every key of the in-memory map starts with [manual-] and is the id of
    the record it holds. *)
Definition manualKeyed (m : gmap string ReminderResponse.t) : Prop :=
  forall k r, m !! k = Some r ->
    Js.startsWith k "manual-" = true /\ ReminderResponse.id r = k.

(** ** src/pages/BookingPage.tsx: the steps of a booking *)

Module BookingPage.

Inductive BookingStep := service | animal | datetime | details | confirmation.

Definition BookingStep_eqb (a b : BookingStep) : bool :=
  match a, b with
  | service, service | animal, animal | datetime, datetime
  | details, details | confirmation, confirmation => true
  | _, _ => false
  end.

Definition steps : list BookingStep :=
  [service; animal; datetime; details; confirmation].

(** [Array.prototype.indexOf], searching from index [i]; -1 when absent. *)
Fixpoint indexOf_from (i : Z) (l : list BookingStep) (x : BookingStep) : Z :=
  match l with
  | [] => -1
  | y :: r => if BookingStep_eqb y x then i else indexOf_from (i + 1) r x
  end.

Definition indexOf (l : list BookingStep) (x : BookingStep) : Z := indexOf_from 0 l x.

(** [steps[i]], [None] for [undefined]. *)
Definition at_index (l : list BookingStep) (i : Z) : option BookingStep :=
  if i <? 0 then None else nth_error l (Z.to_nat i).

(** The step [handleNext] leaves in [currentStep]; [None] is the
    [undefined] an index out of range would store. *)
Definition handleNext (currentStep : BookingStep) : option BookingStep :=
  let currentIndex := indexOf steps currentStep in
  if currentIndex <? Z.of_nat (length steps) - 1
  then at_index steps (currentIndex + 1)
  else Some currentStep.

Definition handleBack (currentStep : BookingStep) : option BookingStep :=
  let currentIndex := indexOf steps currentStep in
  if 0 <? currentIndex
  then at_index steps (currentIndex - 1)
  else Some currentStep.

End BookingPage.

(** * Properties *)

(** ** Rows and their keys *)

Section Tables.
Context {A : Type}.
Implicit Types (p q : A -> bool) (f : A -> A) (l : list A).

Lemma find_update_where_same p f l :
  (forall x, p (f x) = p x) ->
  find p (Prisma.update_where p f l) = f <$> find p l.
Proof.
  intros Hp. induction l as [|x l IH]; simpl; [reflexivity|].
  destruct (p x) eqn:Hx.
  - rewrite Hp, Hx. reflexivity.
  - rewrite Hx. exact IH.
Qed.

Lemma find_update_where_other p q f l :
  (forall x, q (f x) = q x) ->
  (forall x, q x = true -> p x = false) ->
  find q (Prisma.update_where p f l) = find q l.
Proof.
  intros Hq Hpq. induction l as [|x l IH]; simpl; [reflexivity|].
  destruct (p x) eqn:Hx.
  - rewrite Hq. destruct (q x) eqn:Hqx.
    + apply Hpq in Hqx. congruence.
    + exact IH.
  - destruct (q x); [reflexivity | exact IH].
Qed.

Lemma find_delete_where p l :
  find p (Prisma.delete_where p l) = None.
Proof.
  induction l as [|x l IH]; simpl; [reflexivity|].
  destruct (p x) eqn:Hx; simpl; [exact IH | rewrite Hx; exact IH].
Qed.

Lemma update_where_none p f l :
  List.filter p l = [] -> Prisma.update_where p f l = l.
Proof.
  induction l as [|x l IH]; simpl; [reflexivity|].
  destruct (p x); [discriminate|]. intros Hl. f_equal. auto.
Qed.
End Tables.

Lemma user_by_id_set_validated i b u :
  Prisma.user_by_id i (User.set_validated b u) = Prisma.user_by_id i u.
Proof. reflexivity. Qed.

Lemma UserRole_eqb_eq a b : UserRole_eqb a b = true <-> a = b.
Proof. unfold UserRole_eqb. apply bool_decide_eq_true. Qed.

Lemma UserRole_eqb_neq a b : UserRole_eqb a b = false <-> a <> b.
Proof. unfold UserRole_eqb. apply bool_decide_eq_false. Qed.

(** ** AuthService.validateClient *)

(** Unfolding of the monad, for goals that run a handler on a state. *)
Ltac run_handler :=
  unfold bind, ret, throw, try_catch, gets, modify; simpl.

Lemma validateClient_missing s clientId actorId :
  find (Prisma.user_by_id clientId) (users s) = None ->
  AuthService.validateClient clientId actorId s
  = (inl (Js.newError AuthService.ClientNotFound), s).
Proof.
  intros Hf. unfold AuthService.validateClient, Prisma.user_findUnique_id.
  run_handler. rewrite Hf. reflexivity.
Qed.

Lemma validateClient_not_client s clientId actorId c :
  find (Prisma.user_by_id clientId) (users s) = Some c ->
  User.role c <> CLIENT ->
  AuthService.validateClient clientId actorId s
  = (inl (Js.newError AuthService.OnlyClients), s).
Proof.
  intros Hf Hr. unfold AuthService.validateClient, Prisma.user_findUnique_id.
  run_handler. rewrite Hf.
  apply UserRole_eqb_neq in Hr. rewrite Hr. reflexivity.
Qed.

Lemma validateClient_already s clientId actorId c :
  find (Prisma.user_by_id clientId) (users s) = Some c ->
  User.role c = CLIENT ->
  User.validated c = true ->
  AuthService.validateClient clientId actorId s
  = (inl (Js.newError AuthService.AlreadyValidated), s).
Proof.
  intros Hf Hr Hv. unfold AuthService.validateClient, Prisma.user_findUnique_id.
  run_handler. rewrite Hf.
  apply UserRole_eqb_eq in Hr. rewrite Hr, Hv. reflexivity.
Qed.

Lemma validateClient_pending s clientId actorId c :
  find (Prisma.user_by_id clientId) (users s) = Some c ->
  User.role c = CLIENT ->
  User.validated c = false ->
  AuthService.validateClient clientId actorId s
  = (inr (UserSummary.of_user (User.set_validated true c)),
     validatedState clientId actorId c s).
Proof.
  intros Hf Hr Hv.
  unfold AuthService.validateClient, Prisma.user_update, Prisma.auditLog_create,
    Prisma.user_findUnique_id.
  run_handler. rewrite Hf.
  apply UserRole_eqb_eq in Hr. rewrite Hr, Hv. simpl. rewrite Hf. reflexivity.
Qed.

Lemma validatedState_find s clientId actorId c :
  find (Prisma.user_by_id clientId) (users s) = Some c ->
  find (Prisma.user_by_id clientId) (users (validatedState clientId actorId c s))
  = Some (User.set_validated true c).
Proof.
  intros Hf. simpl. rewrite find_update_where_same by reflexivity.
  rewrite Hf. reflexivity.
Qed.

(** C3. [validateClient(clientId, actorId)] fails, and leaves the state as
    it was, when no user has [clientId], when the target is not a CLIENT,
    and when the target is already validated; otherwise it sets [validated]
    to true on the target, appends one audit entry and touches nothing
    else; a second call on the same client then fails. *)
Theorem validateClient_contract (s : State) (clientId actorId : string) :
  (find (Prisma.user_by_id clientId) (users s) = None ->
   AuthService.validateClient clientId actorId s
   = (inl (Js.newError AuthService.ClientNotFound), s))
  /\ (forall c,
       find (Prisma.user_by_id clientId) (users s) = Some c ->
       User.role c <> CLIENT ->
       AuthService.validateClient clientId actorId s
       = (inl (Js.newError AuthService.OnlyClients), s))
  /\ (forall c,
       find (Prisma.user_by_id clientId) (users s) = Some c ->
       User.role c = CLIENT ->
       User.validated c = true ->
       AuthService.validateClient clientId actorId s
       = (inl (Js.newError AuthService.AlreadyValidated), s))
  /\ (forall c,
       find (Prisma.user_by_id clientId) (users s) = Some c ->
       User.role c = CLIENT ->
       User.validated c = false ->
       exists s',
         AuthService.validateClient clientId actorId s
         = (inr (UserSummary.of_user (User.set_validated true c)), s')
         /\ find (Prisma.user_by_id clientId) (users s')
            = Some (User.set_validated true c)
         /\ users s'
            = Prisma.update_where (Prisma.user_by_id clientId)
                (User.set_validated true) (users s)
         /\ auditLogs s'
            = (auditLogs s ++ [validationEntry clientId actorId c])%list
         /\ animals s' = animals s
         /\ appointments s' = appointments s
         /\ treatmentNotes s' = treatmentNotes s
         /\ reminders s' = reminders s
         /\ manualReminders s' = manualReminders s
         /\ forall actor',
              AuthService.validateClient clientId actor' s'
              = (inl (Js.newError AuthService.AlreadyValidated), s')).
Proof.
  split; [apply validateClient_missing|].
  split; [intros c; apply validateClient_not_client|].
  split; [intros c; apply validateClient_already|].
  intros c Hf Hr Hv.
  exists (validatedState clientId actorId c s).
  split; [apply validateClient_pending; assumption|].
  split; [apply validatedState_find; assumption|].
  repeat (split; [reflexivity|]).
  intros actor'.
  apply validateClient_already with (c := User.set_validated true c);
    [apply validatedState_find; assumption | exact Hr | reflexivity].
Qed.

Lemma validateClient_contract_witness :
  exists s',
    AuthService.validateClient "c1" "a1" Demo.state
    = (inr (UserSummary.of_user (User.set_validated true Demo.pending)), s')
    /\ find (Prisma.user_by_id "c1") (users s')
       = Some (User.set_validated true Demo.pending)
    /\ AuthService.validateClient "c1" "a1" s'
       = (inl (Js.newError AuthService.AlreadyValidated), s').
Proof.
  destruct (validateClient_contract Demo.state "c1" "a1") as (_ & _ & _ & Hp).
  destruct (Hp Demo.pending eq_refl eq_refl eq_refl)
    as (s' & Hrun & Hfind & _ & _ & _ & _ & _ & _ & _ & Hagain).
  exists s'. split; [exact Hrun|]. split; [exact Hfind | apply Hagain].
Defined.

(** ** AuthService.login *)




Section Login.
Context `{Platform}.




End Login.


(** ** AuthService.refreshToken *)

Section Refresh.
Context `{Platform}.


End Refresh.


(** ** POST /auth/register *)

Section Register.
Context `{Platform}.

Lemma register_run s newId now salt data :
  AuthService.register newId now salt data s
  = match find (Prisma.user_by_email (Js.toLowerCase (ri_email data))) (users s) with
    | Some _ => (inl (Js.newError AuthService.DuplicateEmail), s)
    | None =>
        (inr {| RegisterResponse.message :=
                  "Registration successful! Your account is pending validation by an administrator.";
                RegisterResponse.user :=
                  UserSummary.of_user (registeredUser newId now salt data) |},
         registeredState newId now salt data s)
    end.
Proof.
  unfold AuthService.register, Prisma.user_findUnique_email, Prisma.user_create,
    Prisma.auditLog_create.
  run_handler. destruct (find _ _); reflexivity.
Qed.

(** C9. Whatever the body of a registration request holds, the handler
    either leaves the users as they are or adds exactly one user, whose
    role is CLIENT and whose [validated] is false; a request answered with
    201 did add that user, and the answer shows it as a CLIENT that is not
    validated.  Fields of the body that the handler does not read, a
    [role] among them, change neither the answer nor the state. *)
Theorem register_creates_pending_client (s : State) (newId : string) (now : Z)
    (salt : string) (body : AuthRoutes.RegisterBody) :
  exists resp s',
  AuthRoutes.post_register newId now salt body s = (inr resp, s')
  /\ (users s' = users s
   \/ exists u,
        users s' = (users s ++ [u])%list
        /\ User.id u = newId
        /\ User.role u = CLIENT
        /\ User.validated u = false)
  /\ (status resp = 201 ->
      exists u r,
        users s' = (users s ++ [u])%list
        /\ User.role u = CLIENT
        /\ User.validated u = false
        /\ data resp = Some r
        /\ UserSummary.id (RegisterResponse.user r) = User.id u
        /\ UserSummary.role (RegisterResponse.user r) = CLIENT
        /\ UserSummary.validated (RegisterResponse.user r) = false)
  /\ forall extra,
       AuthRoutes.post_register newId now salt
         {| AuthRoutes.rb_firstName := AuthRoutes.rb_firstName body;
            AuthRoutes.rb_lastName := AuthRoutes.rb_lastName body;
            AuthRoutes.rb_email := AuthRoutes.rb_email body;
            AuthRoutes.rb_phone := AuthRoutes.rb_phone body;
            AuthRoutes.rb_password := AuthRoutes.rb_password body;
            AuthRoutes.rb_extra := extra |} s
       = (inr resp, s').
Proof.
  assert (Hextra : forall extra,
    AuthRoutes.post_register newId now salt
      {| AuthRoutes.rb_firstName := AuthRoutes.rb_firstName body;
         AuthRoutes.rb_lastName := AuthRoutes.rb_lastName body;
         AuthRoutes.rb_email := AuthRoutes.rb_email body;
         AuthRoutes.rb_phone := AuthRoutes.rb_phone body;
         AuthRoutes.rb_password := AuthRoutes.rb_password body;
         AuthRoutes.rb_extra := extra |} s
    = AuthRoutes.post_register newId now salt body s)
    by (intros extra; destruct body; reflexivity).
  enough (exists resp s',
    AuthRoutes.post_register newId now salt body s = (inr resp, s')
    /\ (users s' = users s
        \/ exists u,
             users s' = (users s ++ [u])%list
             /\ User.id u = newId
             /\ User.role u = CLIENT
             /\ User.validated u = false)
    /\ (status resp = 201 ->
        exists u r,
          users s' = (users s ++ [u])%list
          /\ User.role u = CLIENT
          /\ User.validated u = false
          /\ data resp = Some r
          /\ UserSummary.id (RegisterResponse.user r) = User.id u
          /\ UserSummary.role (RegisterResponse.user r) = CLIENT
          /\ UserSummary.validated (RegisterResponse.user r) = false))
    as (resp & s' & Hrun & Husers & Hcreated).
  { exists resp, s'. repeat (split; [assumption|]).
    intros extra. rewrite Hextra. exact Hrun. }
  clear Hextra.
  unfold AuthRoutes.post_register, try_catch, bind;
    destruct (AuthRoutes.rb_firstName body) as [firstName|];
    destruct (AuthRoutes.rb_lastName body) as [lastName|];
    destruct (AuthRoutes.rb_email body) as [email|];
    destruct (AuthRoutes.rb_password body) as [password|];
    try (eexists _, _; split; [reflexivity|];
         split; [left; reflexivity | discriminate]).
  destruct (_ || _);
    [eexists _, _; split; [reflexivity|];
     split; [left; reflexivity | discriminate]|].
  destruct (_ <? _);
    [eexists _, _; split; [reflexivity|];
     split; [left; reflexivity | discriminate]|].
  destruct (negb _);
    [eexists _, _; split; [reflexivity|];
     split; [left; reflexivity | discriminate]|].
  rewrite register_run. destruct (find _ _).
  - eexists _, _; split; [reflexivity|].
    split; [left; reflexivity | discriminate].
  - eexists _, _; split; [reflexivity|]. simpl.
    split; [right; eexists; repeat split|].
    intros _; eexists _, _; repeat split.
Qed.
End Register.

Lemma register_creates_pending_client_witness :
  exists u r s',
    AuthRoutes.post_register (H := Demo.platform) "c3" 9000 "salt"
      {| AuthRoutes.rb_firstName := Some " Eve ";
         AuthRoutes.rb_lastName := Some "Moreau";
         AuthRoutes.rb_email := Some "Eve@Example.com";
         AuthRoutes.rb_phone := None;
         AuthRoutes.rb_password := Some "secret3";
         AuthRoutes.rb_extra :=
           [("role", Js.JStr "ADMIN"); ("validated", Js.JBool true)] |}
      Demo.state
    = (inr (json_data 201 r (RegisterResponse.message r)), s')
    /\ users s' = [Demo.admin; Demo.pending; Demo.approved; u]
    /\ User.role u = CLIENT
    /\ User.validated u = false
    /\ UserSummary.role (RegisterResponse.user r) = CLIENT.
Proof.
  destruct (register_creates_pending_client (H := Demo.platform) Demo.state "c3" 9000
              "salt"
              {| AuthRoutes.rb_firstName := Some " Eve ";
                 AuthRoutes.rb_lastName := Some "Moreau";
                 AuthRoutes.rb_email := Some "Eve@Example.com";
                 AuthRoutes.rb_phone := None;
                 AuthRoutes.rb_password := Some "secret3";
                 AuthRoutes.rb_extra :=
                   [("role", Js.JStr "ADMIN"); ("validated", Js.JBool true)] |})
    as (resp & s' & Hrun & _ & Hcreated & _).
  vm_compute in Hrun. injection Hrun as <- <-.
  destruct (Hcreated eq_refl) as (u & r & Husers & Hrole & Hval & Hdata & _ & Hr & _).
  exists u, r. eexists. split; [|split; [exact Husers|auto]].
  simpl in Hdata. injection Hdata as <-. reflexivity.
Defined.

(** ** The e-mail pattern of the registration route, on samples *)

Example emailRegex_accepts :
  map AuthRoutes.emailRegex_test ["a@b.c"; "eve@example.com"; "a@b..c"; "a@..c"]
  = [true; true; true; true].
Proof. reflexivity. Qed.

Example emailRegex_rejects :
  map AuthRoutes.emailRegex_test
    ["a@b"; "a b@c.d"; "a@b@c.d"; "a@b."; "a@.b"; "@b.c"; "a@b.c "; ""]
  = [false; false; false; false; false; false; false; false].
Proof. reflexivity. Qed.

Example trim_sample : Js.trim "  Eve Moreau " = "Eve Moreau".
Proof. reflexivity. Qed.

Example toLowerCase_sample : Js.toLowerCase "Eve@Example.COM" = "eve@example.com".
Proof. reflexivity. Qed.

(** ** DELETE /animals/:id *)

Lemma is_some_find_false {A} (p : A -> bool) (l : list A) :
  AnimalsRoutes.is_some (find p l) = false <-> List.filter p l = [].
Proof.
  induction l as [|x l IH]; simpl; [tauto|].
  destruct (p x); simpl; [split; discriminate | exact IH].
Qed.

(** C4. For an animal the caller can see (any animal for staff, an own
    animal for a client): when an appointment or a treatment note refers to
    it the deletion is refused with [DependencyBlocked] and nothing changes;
    when none does the deletion succeeds, the animal is gone and the other
    animals stay. *)
Theorem delete_animal_dependency_guard (s : State) (user : ReqUser) (id : string)
    (a : Animal.t) :
  find (AnimalsRoutes.visible user id) (animals s) = Some a ->
  let dependents :=
    (length (List.filter (fun p => String.eqb (Appointment.animalId p) id) (appointments s))
     + length (List.filter (fun n => String.eqb (TreatmentNote.animalId n) id)
                 (treatmentNotes s)))%nat in
  ((0 < dependents)%nat ->
   AnimalsRoutes.delete_animal user id s
   = (inr (json_error 400 AnimalsRoutes.DependencyBlocked), s))
  /\ (dependents = 0%nat ->
      AnimalsRoutes.delete_animal user id s
      = (inr (json_message 200 "Animal deleted successfully"),
         set_animals (Prisma.delete_where (Prisma.animal_by_id id)) s)
      /\ find (Prisma.animal_by_id id)
           (animals (set_animals (Prisma.delete_where (Prisma.animal_by_id id)) s))
         = None
      /\ forall b, Animal.id b <> id ->
           In b (animals s) ->
           In b (animals (set_animals (Prisma.delete_where (Prisma.animal_by_id id)) s))).
Proof.
  intros Hvis dependents.
  assert (Hid : exists a', find (Prisma.animal_by_id id) (animals s) = Some a').
  { clear dependents. revert Hvis. unfold AnimalsRoutes.visible, Prisma.animal_by_id.
    induction (animals s) as [|x l IH]; simpl; [discriminate|].
    destruct (AnimalsRoutes.isAdmin user).
    - destruct (String.eqb (Animal.id x) id); eauto.
    - destruct (String.eqb (Animal.id x) id); simpl; eauto. }
  destruct Hid as [a' Ha'].
  unfold AnimalsRoutes.delete_animal, Prisma.appointment_findFirst_animal,
    Prisma.treatmentNote_findFirst_animal, Prisma.animal_delete.
  run_handler. rewrite Hvis.
  destruct (AnimalsRoutes.is_some (find _ (appointments s))) eqn:Happ;
    [|destruct (AnimalsRoutes.is_some (find _ (treatmentNotes s))) eqn:Hnote]; simpl.
  - split; [reflexivity|]. intros Hzero. exfalso.
    assert (Hnil : List.filter (fun p => String.eqb (Appointment.animalId p) id)
                     (appointments s) = []).
    { destruct (List.filter _ (appointments s)); [reflexivity|].
      subst dependents. simpl in Hzero. discriminate. }
    apply is_some_find_false in Hnil. congruence.
  - split; [reflexivity|]. intros Hzero. exfalso.
    assert (Hnil : List.filter (fun n => String.eqb (TreatmentNote.animalId n) id)
                     (treatmentNotes s) = []).
    { destruct (List.filter _ (treatmentNotes s)); [reflexivity|].
      subst dependents. rewrite Nat.add_comm in Hzero. simpl in Hzero. discriminate. }
    apply is_some_find_false in Hnil. congruence.
  - apply is_some_find_false in Happ, Hnote. split.
    + subst dependents. rewrite Happ, Hnote. simpl. lia.
    + intros _. rewrite Ha'. split; [reflexivity|].
      split; [apply find_delete_where|].
      intros b Hb Hin. unfold Prisma.delete_where. apply filter_In.
      split; [exact Hin|]. unfold Prisma.animal_by_id.
      apply negb_true_iff, String.eqb_neq. exact Hb.
Qed.

Lemma delete_animal_dependency_guard_witness :
  AnimalsRoutes.delete_animal Demo.clientUser "an1" Demo.state
  = (inr (json_error 400 AnimalsRoutes.DependencyBlocked), Demo.state)
  /\ AnimalsRoutes.delete_animal Demo.clientUser "an2" Demo.state
     = (inr (json_message 200 "Animal deleted successfully"),
        set_animals (Prisma.delete_where (Prisma.animal_by_id "an2")) Demo.state).
Proof.
  split.
  - apply (delete_animal_dependency_guard Demo.state Demo.clientUser "an1" Demo.rex
             eq_refl).
    simpl. lia.
  - apply (delete_animal_dependency_guard Demo.state Demo.clientUser "an2" Demo.bella
             eq_refl).
    reflexivity.
Defined.

(** ** PUT /reminders/:id/snooze *)

Lemma staff_allowed user :
  req_role user = ADMIN \/ req_role user = PRACTITIONER ->
  existsb (UserRole_eqb (req_role user)) staff = true.
Proof. intros [-> | ->]; reflexivity. Qed.

Lemma invalidMinutes_positive m :
  0 < m -> RemindersRoutes.invalidMinutes (Some m) = false.
Proof.
  intros Hm. unfold RemindersRoutes.invalidMinutes.
  apply orb_false_iff. split; [apply Z.eqb_neq | apply Z.leb_gt]; lia.
Qed.

Lemma snoozeDate_in_range now m :
  0 <= now -> 0 < m -> now + m * 60 * 1000 <= Js.maxTime ->
  RemindersRoutes.snoozeDate now m = Some (now + m * 60 * 1000).
Proof.
  intros Hnow Hm Hmax. unfold RemindersRoutes.snoozeDate, Js.newDate.
  assert (Hlo : (- Js.maxTime <=? now + m * 60 * 1000) = true)
    by (apply Z.leb_le; unfold Js.maxTime in *; lia).
  assert (Hhi : (now + m * 60 * 1000 <=? Js.maxTime) = true)
    by (apply Z.leb_le; assumption).
  rewrite Hlo, Hhi. reflexivity.
Qed.

Lemma reminder_by_id_other id id' r :
  id' <> id ->
  Prisma.reminder_by_id id' r = true -> Prisma.reminder_by_id id r = false.
Proof.
  unfold Prisma.reminder_by_id. intros Hne Hid'.
  apply String.eqb_eq in Hid'. apply String.eqb_neq. congruence.
Qed.

Section Snooze.
Context `{Platform}.


(** What [snoozed] keeps of a reminder: everything but the due date. *)
Lemma snoozed_manual_fields t r :
  let r' := ReminderResponse.set_dueDate (toISOString t) r in
  ReminderResponse.dueDate r' = toISOString t
  /\ ReminderResponse.completed r' = ReminderResponse.completed r
  /\ ReminderResponse.id r' = ReminderResponse.id r
  /\ ReminderResponse.message r' = ReminderResponse.message r
  /\ ReminderResponse.type r' = ReminderResponse.type r
  /\ ReminderResponse.priority r' = ReminderResponse.priority r
  /\ ReminderResponse.appointmentId r' = ReminderResponse.appointmentId r
  /\ ReminderResponse.createdAt r' = ReminderResponse.createdAt r.
Proof. repeat split. Qed.

Lemma snoozed_persisted_fields t r :
  let r' := Reminder.set_remindAt t r in
  Reminder.remindAt r' = t
  /\ Reminder.sent r' = Reminder.sent r
  /\ Reminder.id r' = Reminder.id r
  /\ Reminder.message r' = Reminder.message r
  /\ Reminder.messageFr r' = Reminder.messageFr r
  /\ Reminder.type r' = Reminder.type r
  /\ Reminder.appointmentId r' = Reminder.appointmentId r
  /\ Reminder.createdAt r' = Reminder.createdAt r.
Proof. repeat split. Qed.

(** A call without minutes, or with [m <= 0], is refused and changes
    nothing. *)
Lemma snooze_rejects_nonpositive s user now id minutes :
  req_role user = ADMIN \/ req_role user = PRACTITIONER ->
  RemindersRoutes.invalidMinutes minutes = true ->
  RemindersRoutes.put_snooze user now id minutes s
  = (inr (json_error 400 "Invalid snooze duration"), s).
Proof.
  intros Hrole Hbad. unfold RemindersRoutes.put_snooze, requireRole.
  rewrite (staff_allowed user Hrole), Hbad. reflexivity.
Qed.
End Snooze.



(** ** POST /reminders *)

Lemma mapStringToReminderType_enum (rt : ReminderType) :
  RemindersRoutes.mapStringToReminderType (ReminderType_toString rt) = rt.
Proof. destruct rt; reflexivity. Qed.

Lemma mapStringToReminderType_fallback (t : string) :
  (forall rt, t <> ReminderType_toString rt) ->
  RemindersRoutes.mapStringToReminderType t = FOLLOW_UP.
Proof.
  intros Hout. unfold RemindersRoutes.mapStringToReminderType.
  destruct (String.eqb t "APPOINTMENT_REMINDER") eqn:H1.
  { apply String.eqb_eq in H1. destruct (Hout APPOINTMENT_REMINDER H1). }
  destruct (String.eqb t "FOLLOW_UP"); [reflexivity|].
  destruct (String.eqb t "APPOINTMENT_CONFIRMATION") eqn:H3.
  { apply String.eqb_eq in H3. destruct (Hout APPOINTMENT_CONFIRMATION H3). }
  destruct (String.eqb t "BIRTHDAY") eqn:H4.
  { apply String.eqb_eq in H4. destruct (Hout BIRTHDAY H4). }
  repeat match goal with |- context [if ?b then _ else _] => destruct b end;
    reflexivity.
Qed.

Section CreateReminder.
Context `{Platform}.

(** C7. For staff and a request that passes the schema with a type that
    names no value of the enum: with an [appointmentId] (of an existing
    appointment, and a due date that parses) the row persisted has the type
    FOLLOW_UP and no field that holds the type of the request; without an
    [appointmentId] the record kept in memory has the type of the request
    as it came. *)
Theorem create_reminder_type_storage (s : State) (user : ReqUser) (newId : string)
    (now : Z) (rnd : string) (body : RemindersRoutes.CreateBody)
    (v : RemindersRoutes.ValidatedData) :
  req_role user = ADMIN \/ req_role user = PRACTITIONER ->
  RemindersRoutes.createReminderSchema_parse body = inr v ->
  (forall rt, RemindersRoutes.v_type v <> ReminderType_toString rt) ->
  (forall a ap d,
     RemindersRoutes.v_appointmentId v = Some a ->
     Js.truthy a = true ->
     find (fun x => String.eqb (Appointment.id x) a) (appointments s) = Some ap ->
     parseDate (RemindersRoutes.v_dueDate v) = Some d ->
     exists resp r,
       RemindersRoutes.post_reminder user newId now rnd body s
       = (inr resp,
          set_reminders (fun l => (l ++ [fallbackRow newId now v a d])%list) s)
       /\ status resp = 201
       /\ data resp = Some r
       /\ ReminderResponse.type r = RemindersRoutes.v_type v)
  /\ (Js.truthy_opt (RemindersRoutes.v_appointmentId v) = false ->
      RemindersRoutes.post_reminder user newId now rnd body s
      = (inr (json_data 201 (manualRecord now rnd v)
                "Manual reminder created successfully"),
         set_manualReminders
           (insert (RemindersRoutes.manualId now rnd) (manualRecord now rnd v)) s)
      /\ ReminderResponse.type (manualRecord now rnd v) = RemindersRoutes.v_type v).
Proof.
  intros Hrole Hparse Hout.
  unfold RemindersRoutes.post_reminder, requireRole.
  rewrite (staff_allowed user Hrole), Hparse. split.
  - intros a ap d Ha Htruthy Hap Hd.
    unfold Js.truthy_opt. rewrite Ha, Htruthy. simpl.
    unfold RemindersRoutes.create_linked, Prisma.appointment_findUnique,
      Prisma.reminder_create.
    rewrite Hd, (mapStringToReminderType_fallback _ Hout).
    run_handler. rewrite Hap. simpl.
    eexists _, _. split; [reflexivity|]. repeat split.
  - intros Hnone. rewrite Hnone. split; reflexivity.
Qed.
End CreateReminder.

Lemma create_reminder_type_storage_witness :
  (exists resp,
     RemindersRoutes.post_reminder (H := Demo.platform) Demo.adminUser "r2" 1700000600000
       "abc"
       {| RemindersRoutes.cb_message := Some "Give tablets";
          RemindersRoutes.cb_type := Some "MEDICATION";
          RemindersRoutes.cb_dueDate := Some "2030-01-01T00:00:00.000Z";
          RemindersRoutes.cb_priority := None;
          RemindersRoutes.cb_appointmentId := Some "ap1" |} Demo.state
     = (inr resp,
        set_reminders
          (fun l =>
             (l ++ [{| Reminder.id := "r2"; Reminder.message := "Give tablets";
                       Reminder.messageFr := "Give tablets";
                       Reminder.type := FOLLOW_UP;
                       Reminder.remindAt := 1893456000000; Reminder.sent := false;
                       Reminder.appointmentId := "ap1";
                       Reminder.createdAt := 1700000600000 |}])%list) Demo.state))
  /\ (exists r s',
        RemindersRoutes.post_reminder (H := Demo.platform) Demo.adminUser "r2"
          1700000600000 "abc"
          {| RemindersRoutes.cb_message := Some "Give tablets";
             RemindersRoutes.cb_type := Some "MEDICATION";
             RemindersRoutes.cb_dueDate := Some "2030-01-01T00:00:00.000Z";
             RemindersRoutes.cb_priority := None;
             RemindersRoutes.cb_appointmentId := None |} Demo.state
        = (inr (json_data 201 r "Manual reminder created successfully"), s')
        /\ manualReminders s' !! "manual-1700000600000-abc" = Some r
        /\ ReminderResponse.type r = "MEDICATION").
Proof.
  assert (Hout : forall rt, "MEDICATION" <> ReminderType_toString rt)
    by (intros rt; destruct rt; discriminate).
  split.
  - destruct (create_reminder_type_storage (H := Demo.platform) Demo.state Demo.adminUser
                "r2" 1700000600000 "abc"
                {| RemindersRoutes.cb_message := Some "Give tablets";
                   RemindersRoutes.cb_type := Some "MEDICATION";
                   RemindersRoutes.cb_dueDate := Some "2030-01-01T00:00:00.000Z";
                   RemindersRoutes.cb_priority := None;
                   RemindersRoutes.cb_appointmentId := Some "ap1" |}
                _ (or_introl eq_refl) eq_refl Hout) as [Hlinked _].
    destruct (Hlinked "ap1" Demo.visit 1893456000000 eq_refl eq_refl eq_refl eq_refl)
      as (resp & r & Hrun & _).
    exists resp. exact Hrun.
  - destruct (create_reminder_type_storage (H := Demo.platform) Demo.state Demo.adminUser
                "r2" 1700000600000 "abc"
                {| RemindersRoutes.cb_message := Some "Give tablets";
                   RemindersRoutes.cb_type := Some "MEDICATION";
                   RemindersRoutes.cb_dueDate := Some "2030-01-01T00:00:00.000Z";
                   RemindersRoutes.cb_priority := None;
                   RemindersRoutes.cb_appointmentId := None |}
                _ (or_introl eq_refl) eq_refl Hout) as [_ Hmanual].
    destruct (Hmanual eq_refl) as [Hrun Htype].
    eexists _, _. split; [exact Hrun|]. split; [|exact Htype].
    simpl. apply lookup_insert_eq.
Defined.

(** ** The validated flag under the user-management requests *)

Lemma keepsValidation_refl u : keepsValidation u u.
Proof. repeat split; auto. Qed.

Lemma keepsValidation_trans u v w :
  keepsValidation u v -> keepsValidation v w -> keepsValidation u w.
Proof.
  intros (Hid & Hrole & Hval) (Hid' & Hrole' & Hval').
  repeat split; [congruence | congruence | auto].
Qed.

Lemma keepsValidation_set_validated u :
  keepsValidation u (User.set_validated true u).
Proof. repeat split. Qed.

Lemma keepsValidation_profileData body u :
  keepsValidation u (UsersRoutes.profileData body u).
Proof. repeat split; auto. Qed.

Lemma Forall2_keeps_refl (l : list User.t) : Forall2 keepsValidation l l.
Proof. induction l; constructor; auto using keepsValidation_refl. Qed.

Lemma Forall2_keeps_trans (l1 l2 l3 : list User.t) :
  Forall2 keepsValidation l1 l2 -> Forall2 keepsValidation l2 l3 ->
  Forall2 keepsValidation l1 l3.
Proof.
  intros H12. revert l3. induction H12 as [|u v l1 l2 Huv _ IH]; intros l3 H23.
  - inversion H23; constructor.
  - inversion H23; subst. constructor; eauto using keepsValidation_trans.
Qed.

Lemma update_where_keeps (p : User.t -> bool) (f : User.t -> User.t) (l : list User.t) :
  (forall u, keepsValidation u (f u)) ->
  Forall2 keepsValidation l (Prisma.update_where p f l).
Proof.
  intros Hf. induction l as [|u l IH]; simpl; constructor; [|exact IH].
  destruct (p u); [apply Hf | apply keepsValidation_refl].
Qed.

Create HintDb keeps.

#[local] Hint Resolve Forall2_keeps_refl update_where_keeps
  keepsValidation_set_validated keepsValidation_profileData : keeps.

(** Closes the goal [Forall2 keepsValidation (users s) (users (snd (h s)))]
    for a handler [h] laid open: every branch either leaves the users or
    rewrites rows through [update_where]. *)
Ltac keeps_branches :=
  repeat match goal with
         | |- context [find ?p ?l] => destruct (find p l) eqn:?; simpl
         | |- context [UsersRoutes.b_clientIds ?b] =>
             destruct (UsersRoutes.b_clientIds b) as [[|? ?]|] eqn:?; simpl
         | |- context [if ?b then _ else _] => destruct b eqn:?; simpl
         | |- context [match ?x with _ => _ end] => destruct x eqn:?; simpl
         end;
  auto with keeps.

Lemma put_validate_keeps user id s :
  Forall2 keepsValidation (users s) (users (snd (UsersRoutes.put_validate user id s))).
Proof.
  unfold UsersRoutes.put_validate, requireRole, Prisma.user_update,
    Prisma.user_findUnique_id, Prisma.auditLog_create.
  run_handler. keeps_branches.
Qed.

Lemma put_update_keeps user id body s :
  Forall2 keepsValidation (users s) (users (snd (UsersRoutes.put_update user id body s))).
Proof.
  unfold UsersRoutes.put_update, requireRole, Prisma.user_update,
    Prisma.user_findUnique_id, Prisma.user_findFirst_email_not_id.
  run_handler. keeps_branches.
Qed.

Lemma put_bulk_validate_keeps user body s :
  Forall2 keepsValidation (users s)
    (users (snd (UsersRoutes.put_bulk_validate user body s))).
Proof.
  unfold UsersRoutes.put_bulk_validate, requireRole, Prisma.user_updateMany,
    Prisma.auditLog_create.
  run_handler. keeps_branches.
Qed.

Lemma put_validate_client_keeps user clientId s :
  Forall2 keepsValidation (users s)
    (users (snd (AuthRoutes.put_validate_client user clientId s))).
Proof.
  unfold AuthRoutes.put_validate_client, requireRole, AuthService.validateClient,
    Prisma.user_update, Prisma.user_findUnique_id, Prisma.auditLog_create.
  run_handler. keeps_branches.
Qed.

Lemma perform_keeps op s :
  Forall2 keepsValidation (users s) (users (perform op s)).
Proof.
  destruct op as [user id body|user body|user id|user clientId|user path body]; simpl.
  - apply put_update_keeps.
  - apply put_bulk_validate_keeps.
  - apply put_validate_keeps.
  - apply put_validate_client_keeps.
  - unfold UsersRoutes.handle_put.
    destruct (Express.dispatch _ _ _) as [[[] params]|];
      auto using Forall2_keeps_refl, put_validate_keeps, put_update_keeps,
        put_bulk_validate_keeps.
Qed.

Lemma performAll_keeps ops s :
  Forall2 keepsValidation (users s) (users (performAll ops s)).
Proof.
  revert s. induction ops as [|op ops IH]; intros s; simpl.
  - apply Forall2_keeps_refl.
  - eapply Forall2_keeps_trans; [apply perform_keeps | apply IH].
Qed.

Lemma find_user_keeps (l l' : list User.t) (i : string) (u : User.t) :
  Forall2 keepsValidation l l' ->
  find (Prisma.user_by_id i) l = Some u ->
  exists u', find (Prisma.user_by_id i) l' = Some u' /\ keepsValidation u u'.
Proof.
  induction 1 as [|x y l l' Hxy _ IH]; simpl; [discriminate|].
  unfold Prisma.user_by_id at 1 3. destruct Hxy as (Hid & Hrest).
  rewrite Hid. destruct (String.eqb (User.id x) i).
  - intros [= <-]. exists y. split; [reflexivity|]. split; auto.
  - exact IH.
Qed.

(** C8. After any sequence of profile updates, bulk validations and single
    validations (through either validation route, or sent as [PUT] requests
    through the users router), whatever their answers: a user whose
    [validated] was true is still there under the same id and role, and
    [validated] is still true; row by row, no row of the users table goes
    from validated to not validated. *)
Theorem validated_never_reset (ops : list UserOperation) (s : State) (i : string)
    (u : User.t) :
  find (Prisma.user_by_id i) (users s) = Some u ->
  User.validated u = true ->
  (exists u',
     find (Prisma.user_by_id i) (users (performAll ops s)) = Some u'
     /\ User.id u' = User.id u
     /\ User.role u' = User.role u
     /\ User.validated u' = true)
  /\ Forall2 keepsValidation (users s) (users (performAll ops s)).
Proof.
  intros Hfind Hval. split; [|apply performAll_keeps].
  destruct (find_user_keeps _ _ i u (performAll_keeps ops s) Hfind)
    as (u' & Hfind' & Hid & Hrole & Hkeep).
  exists u'. auto.
Qed.

Lemma validated_never_reset_witness :
  exists u',
    find (Prisma.user_by_id "c2")
      (users (performAll
                [ ProfileUpdate Demo.adminUser "c2"
                    {| UsersRoutes.b_firstName := Some "Robert";
                       UsersRoutes.b_lastName := None;
                       UsersRoutes.b_phone := Some None;
                       UsersRoutes.b_email := Some "rob@example.com";
                       UsersRoutes.b_clientIds := None |};
                  ValidateUser Demo.practitioner "c2";
                  BulkValidate Demo.adminUser
                    {| UsersRoutes.b_firstName := None;
                       UsersRoutes.b_lastName := None;
                       UsersRoutes.b_phone := None;
                       UsersRoutes.b_email := None;
                       UsersRoutes.b_clientIds := Some ["c1"; "c2"; "zz"] |};
                  ValidateClient Demo.adminUser "c2" ]
                Demo.state))
    = Some u'
    /\ User.validated u' = true.
Proof.
  destruct (validated_never_reset
              [ ProfileUpdate Demo.adminUser "c2"
                  {| UsersRoutes.b_firstName := Some "Robert";
                     UsersRoutes.b_lastName := None;
                     UsersRoutes.b_phone := Some None;
                     UsersRoutes.b_email := Some "rob@example.com";
                     UsersRoutes.b_clientIds := None |};
                ValidateUser Demo.practitioner "c2";
                BulkValidate Demo.adminUser
                  {| UsersRoutes.b_firstName := None;
                     UsersRoutes.b_lastName := None;
                     UsersRoutes.b_phone := None;
                     UsersRoutes.b_email := None;
                     UsersRoutes.b_clientIds := Some ["c1"; "c2"; "zz"] |};
                ValidateClient Demo.adminUser "c2" ]
              Demo.state "c2" Demo.approved eq_refl eq_refl)
    as [(u' & Hfind & _ & _ & Hval) _].
  exists u'. split; [exact Hfind | exact Hval].
Defined.

(** ** PUT /users/bulk/validate *)

(** The handler, run on its own: for an ADMIN and a non-empty list of ids
    it answers 200 with the number of rows it updated; the rows updated are
    the CLIENT rows of the list that were not validated, every other row is
    as before. *)
Lemma put_bulk_validate_handler (s : State) (user : ReqUser) (body : UsersRoutes.Body)
    (clientIds : list string) :
  req_role user = ADMIN ->
  UsersRoutes.b_clientIds body = Some clientIds ->
  clientIds <> [] ->
  let count :=
    Z.of_nat (length (List.filter (UsersRoutes.bulkTarget clientIds) (users s))) in
  exists s',
    UsersRoutes.put_bulk_validate user body s
    = (inr {| status := 200;
              data := Some (UsersRoutes.DValidatedCount count);
              message := Some (pretty count +:+ " clients validated successfully");
              error := None |}, s')
    /\ users s'
       = Prisma.update_where (UsersRoutes.bulkTarget clientIds)
           (User.set_validated true) (users s)
    /\ Forall2
         (fun u u' =>
            if UsersRoutes.bulkTarget clientIds u
            then u' = User.set_validated true u
            else u' = u)
         (users s) (users s').
Proof.
  intros Hrole Hbody Hne count.
  unfold UsersRoutes.put_bulk_validate, requireRole, Prisma.user_updateMany,
    Prisma.auditLog_create.
  rewrite Hrole, Hbody. destruct clientIds as [|c cs]; [congruence|].
  run_handler. eexists. split; [reflexivity|]. simpl. split; [reflexivity|].
  induction (users s) as [|u l IH]; simpl; constructor; [|exact IH].
  destruct (UsersRoutes.bulkTarget (c :: cs) u); reflexivity.
Qed.

Lemma bulkTarget_spec clientIds u :
  UsersRoutes.bulkTarget clientIds u = true
  <-> In (User.id u) clientIds /\ User.role u = CLIENT /\ User.validated u = false.
Proof.
  unfold UsersRoutes.bulkTarget.
  rewrite !andb_true_iff, negb_true_iff, UserRole_eqb_eq, existsb_exists.
  split.
  - intros [[(x & Hin & Heq) Hr] Hv]. apply String.eqb_eq in Heq. subst x. auto.
  - intros (Hin & Hr & Hv). repeat split; auto.
    exists (User.id u). split; [exact Hin | apply String.eqb_refl].
Qed.

(** The route table sends [PUT /bulk/validate] to the route
    [PUT /:id/validate], registered before it, with [id = "bulk"]. *)
Lemma dispatch_bulk_validate :
  Express.dispatch UsersRoutes.routes Express.PUT ["bulk"; "validate"]
  = Some (UsersRoutes.PutValidate, [("id", "bulk")]).
Proof. reflexivity. Qed.

Lemma bulk_validate_request_shadowed (s : State) (user : ReqUser)
    (body : UsersRoutes.Body) :
  req_role user = ADMIN \/ req_role user = PRACTITIONER ->
  find (Prisma.user_by_id "bulk") (users s) = None ->
  exists handler,
    UsersRoutes.handle_put user ["bulk"; "validate"] body = Some handler
    /\ handler s = (inr (json_error 404 "User not found"), s).
Proof.
  intros Hrole Hnone. eexists. split; [reflexivity|].
  unfold UsersRoutes.put_validate, requireRole, Prisma.user_findUnique_id.
  rewrite (staff_allowed user Hrole). run_handler.
  change (Express.param [("id", "bulk")] "id") with "bulk".
  rewrite Hnone. reflexivity.
Qed.

(** C10, at a request the server can receive: an ADMIN sends
    [PUT /users/bulk/validate] with [clientIds = ["c1"; "c2"; "zz"]] while
    [c1] is a CLIENT waiting for validation.  The router answers 404
    [User not found] from the single-validation handler and validates
    nobody; the bulk handler, had it been reached, would have answered 200
    with a count of 1 and validated [c1] alone. *)
Theorem bulk_validate_request_not_served :
  let body :=
    {| UsersRoutes.b_firstName := None; UsersRoutes.b_lastName := None;
       UsersRoutes.b_phone := None; UsersRoutes.b_email := None;
       UsersRoutes.b_clientIds := Some ["c1"; "c2"; "zz"] |} in
  (exists handler,
     UsersRoutes.handle_put Demo.adminUser ["bulk"; "validate"] body = Some handler
     /\ handler Demo.state = (inr (json_error 404 "User not found"), Demo.state))
  /\ (exists s',
        UsersRoutes.put_bulk_validate Demo.adminUser body Demo.state
        = (inr {| status := 200;
                  data := Some (UsersRoutes.DValidatedCount 1);
                  message := Some "1 clients validated successfully";
                  error := None |}, s')
        /\ users s'
           = [Demo.admin; User.set_validated true Demo.pending; Demo.approved]).
Proof.
  split.
  - eexists. split; reflexivity.
  - eexists. split; reflexivity.
Qed.

(** ** Appointment status *)

Lemma offers_confirm_refuse_iff role st :
  AppointmentsTab.offersConfirmRefuse role st = true
  <-> role <> CLIENT
      /\ is_Some (AppointmentLifecycle.confirm st)
      /\ is_Some (AppointmentLifecycle.refuse st).
Proof.
  unfold AppointmentsTab.offersConfirmRefuse.
  rewrite andb_true_iff, negb_true_iff, UserRole_eqb_neq, bool_decide_eq_true.
  split.
  - intros [Hr ->]. repeat split; eauto.
  - intros (Hr & [st' Hc] & _). split; [exact Hr|].
    destruct st; simpl in Hc; congruence.
Qed.

Lemma offers_cancel_iff st :
  AppointmentsTab.offersCancel st = true <-> is_Some (AppointmentLifecycle.cancel st).
Proof.
  destruct st; simpl; split; intros Hx; try reflexivity; try discriminate;
    eauto; destruct Hx; discriminate.
Qed.



(** * Further properties of the code *)

(** ** Strings *)

Lemma lowerUnit_idempotent (c : ascii) : Js.lowerUnit (Js.lowerUnit c) = Js.lowerUnit c.
Proof. destruct c as [[] [] [] [] [] [] [] []]; reflexivity. Qed.

Lemma toLowerCase_idempotent (s : string) :
  Js.toLowerCase (Js.toLowerCase s) = Js.toLowerCase s.
Proof.
  induction s as [|c s IH]; simpl; [reflexivity|].
  rewrite lowerUnit_idempotent, IH. reflexivity.
Qed.

Lemma find_app_none {A} (p : A -> bool) (l : list A) (x : A) :
  find p l = None -> find p (l ++ [x])%list = if p x then Some x else None.
Proof.
  induction l as [|y l IH]; simpl; [reflexivity|].
  destruct (p y); [discriminate | exact IH].
Qed.

Lemma find_app_some {A} (p : A -> bool) (l l' : list A) (y : A) :
  find p l = Some y -> find p (l ++ l')%list = Some y.
Proof.
  induction l as [|z l IH]; simpl; [discriminate|].
  destruct (p z); [trivial | exact IH].
Qed.

Lemma find_some_in {A} (p : A -> bool) (l : list A) (x : A) :
  In x l -> p x = true -> exists y, find p l = Some y.
Proof.
  intros Hin Hp. destruct (find p l) as [y|] eqn:Hf; [eauto|].
  rewrite (find_none p l Hf x Hin) in Hp. discriminate.
Qed.

(** ** AuthService.register and AuthService.login together *)

Section RegisterLogin.
Context `{Platform}.

(** X1. An e-mail is taken when a stored user has its lower-case form:
    [register] then throws [DuplicateEmail] and writes nothing, and so does
    it for every other spelling of the e-mail with the same lower-case
    form. *)
Theorem register_duplicate_email (s : State) (newId : string) (now : Z) (salt : string)
    (data : RegisterInput) (u : User.t) :
  In u (users s) ->
  User.email u = Js.toLowerCase (ri_email data) ->
  AuthService.register newId now salt data s
  = (inl (Js.newError AuthService.DuplicateEmail), s)
  /\ forall e' : string,
       Js.toLowerCase e' = Js.toLowerCase (ri_email data) ->
       AuthService.register newId now salt
         {| ri_firstName := ri_firstName data; ri_lastName := ri_lastName data;
            ri_email := e'; ri_phone := ri_phone data;
            ri_password := ri_password data |} s
       = (inl (Js.newError AuthService.DuplicateEmail), s).
Proof.
  intros Hin Hemail.
  assert (Hfound : exists y,
             find (Prisma.user_by_email (Js.toLowerCase (ri_email data))) (users s)
             = Some y).
  { apply find_some_in with (x := u); [exact Hin|].
    unfold Prisma.user_by_email. rewrite Hemail. apply String.eqb_refl. }
  destruct Hfound as [y Hy]. split.
  - rewrite register_run, Hy. reflexivity.
  - intros e' He'. rewrite register_run. simpl. rewrite He', Hy. reflexivity.
Qed.



Lemma login_outcomes (s : State) (now : Z) (data : LoginInput) :
  (forall resp s',
     AuthService.login now data s = (inr resp, s') ->
     exists u,
       find (Prisma.user_by_email (Js.toLowerCase (li_email data))) (users s) = Some u
       /\ bcrypt_compare (li_password data) (User.password u) = true
       /\ (User.role u = CLIENT -> User.validated u = true)
       /\ AuthResponse.user resp = AuthService.authUser u
       /\ s' = set_auditLogs (fun l => (l ++ [loginEntry u])%list) s)
  /\ (forall e s',
        AuthService.login now data s = (inl e, s') ->
        s' = s
        /\ (e = Js.newError AuthService.InvalidCredentials
            \/ e = Js.newError AuthService.PendingValidation)).
Proof.
  unfold AuthService.login, Prisma.user_findUnique_email, Prisma.auditLog_create.
  run_handler.
  destruct (find _ (users s)) as [u|] eqn:Hf.
  - destruct (bcrypt_compare _ _) eqn:Hpw; simpl.
    + destruct (AuthService.pendingClient u) eqn:Hp; split;
        intros ? ? Hrun; inversion Hrun; subst; auto.
      exists u. repeat split; auto.
      intros Hr. unfold AuthService.pendingClient in Hp.
      apply UserRole_eqb_eq in Hr. rewrite Hr in Hp.
      destruct (User.validated u); [reflexivity | discriminate].
    + split; intros ? ? Hrun; inversion Hrun; subst; auto.
  - split; intros ? ? Hrun; inversion Hrun; subst; auto.
Qed.



(** X5. The answers of [POST /auth/login]: 400 exactly when the e-mail or
    the password is missing or empty; otherwise 200 with what [login]
    returned, or 401 with the message of the error [login] threw, so that a
    pending CLIENT and a wrong password both get 401.  The state is the one
    [login] left. *)
Theorem post_login_answers (s : State) (now : Z) (body : AuthRoutes.LoginBody) :
  (Js.truthy_opt (AuthRoutes.lb_email body) && Js.truthy_opt (AuthRoutes.lb_password body)
   = false ->
   AuthRoutes.post_login now body s
   = (inr (json_error 400 "Email and password are required"), s))
  /\ forall email password,
       AuthRoutes.lb_email body = Some email ->
       AuthRoutes.lb_password body = Some password ->
       Js.truthy email = true ->
       Js.truthy password = true ->
       match AuthService.login now
               {| li_email := Js.trim email; li_password := password |} s with
       | (inr result, s') =>
           AuthRoutes.post_login now body s
           = (inr (json_data 200 result "Login successful"), s')
       | (inl e, s') =>
           AuthRoutes.post_login now body s
           = (inr (json_error 401 (Js.message e)), s')
           /\ s' = s
       end.
Proof.
  split.
  - unfold AuthRoutes.post_login.
    destruct (AuthRoutes.lb_email body) as [email|];
      destruct (AuthRoutes.lb_password body) as [password|]; simpl; try reflexivity.
    intros Hbad. apply andb_false_iff in Hbad.
    destruct Hbad as [-> | ->]; cbn [negb orb]; [reflexivity|].
    rewrite orb_true_r. reflexivity.
  - intros email password He Hp Hte Htp.
    destruct (AuthService.login now _ s) as [[e|result] s'] eqn:Hlogin.
    + destruct (login_outcomes s now {| li_email := Js.trim email; li_password := password |})
        as [_ Hfail].
      destruct (Hfail e s' Hlogin) as [-> He'].
      split; [|reflexivity].
      unfold AuthRoutes.post_login. rewrite He, Hp, Hte, Htp. cbn [negb orb].
      unfold try_catch, bind. rewrite Hlogin.
      destruct He' as [-> | ->]; reflexivity.
    + unfold AuthRoutes.post_login. rewrite He, Hp, Hte, Htp. cbn [negb orb].
      unfold try_catch, bind. rewrite Hlogin. reflexivity.
Qed.
End RegisterLogin.

(** ** The e-mail pattern *)

Lemma allClass_app (a b : string) :
  AuthRoutes.allClass (a +:+ b) = AuthRoutes.allClass a && AuthRoutes.allClass b.
Proof.
  induction a as [|c a IH]; simpl; [reflexivity|].
  rewrite IH. apply andb_assoc.
Qed.

Lemma spanClass_spec (s : string) :
  s = fst (AuthRoutes.spanClass s) +:+ snd (AuthRoutes.spanClass s)
  /\ AuthRoutes.allClass (fst (AuthRoutes.spanClass s)) = true
  /\ match snd (AuthRoutes.spanClass s) with
     | EmptyString => True
     | String c _ => AuthRoutes.classChar c = false
     end.
Proof.
  induction s as [|c s (IH1 & IH2 & IH3)]; simpl; [auto|].
  destruct (AuthRoutes.classChar c) eqn:Hc.
  - destruct (AuthRoutes.spanClass s) as [a b]; simpl in *.
    rewrite Hc, IH2. repeat split; [subst s; reflexivity | assumption].
  - simpl. auto.
Qed.

Lemma spanClass_app (a : string) (c : ascii) (r : string) :
  AuthRoutes.allClass a = true ->
  AuthRoutes.classChar c = false ->
  AuthRoutes.spanClass (a +:+ String c r) = (a, String c r).
Proof.
  intros Ha Hc. induction a as [|x a IH]; simpl.
  - rewrite Hc. reflexivity.
  - simpl in Ha. apply andb_true_iff in Ha as [Hx Ha].
    rewrite Hx, (IH Ha). reflexivity.
Qed.

Lemma dotBeforeLast_spec (r : string) :
  AuthRoutes.dotBeforeLast r = true
  <-> exists r1 r2, r = r1 +:+ String "." r2 /\ r2 <> "".
Proof.
  induction r as [|c r IH]; simpl.
  - split; [discriminate|]. intros (r1 & r2 & Hr & _). destruct r1; discriminate.
  - rewrite orb_true_iff, andb_true_iff, negb_true_iff, IH. split.
    + intros [[Hc Hr] | (r1 & r2 & -> & Hne)].
      * apply Ascii.eqb_eq in Hc. subst c. exists "", r. split; [reflexivity|].
        apply String.eqb_neq. exact Hr.
      * exists (String c r1), r2. split; [reflexivity | exact Hne].
    + intros (r1 & r2 & Hr & Hne). destruct r1 as [|x r1]; simpl in Hr.
      * injection Hr as -> ->. left. split; [reflexivity|].
        apply String.eqb_neq. exact Hne.
      * injection Hr as -> ->. right. eauto.
Qed.

Lemma classChar_at : AuthRoutes.classChar "@" = false.
Proof. reflexivity. Qed.

Lemma classChar_dot : AuthRoutes.classChar "." = true.
Proof. reflexivity. Qed.

Lemma emailRegex_test_parts (s : string) :
  AuthRoutes.emailRegex_test s = true
  <-> exists a b c,
        s = a +:+ "@" +:+ b +:+ "." +:+ c
        /\ a <> "" /\ b <> "" /\ c <> ""
        /\ AuthRoutes.allClass a = true
        /\ AuthRoutes.allClass b = true
        /\ AuthRoutes.allClass c = true.
Proof.
  unfold AuthRoutes.emailRegex_test. split.
  - destruct (spanClass_spec s) as (Hs & Ha & _).
    destruct (AuthRoutes.spanClass s) as [a rest]; simpl in Hs, Ha.
    rewrite andb_true_iff, negb_true_iff. intros [Hne Hrest].
    destruct rest as [|x d]; [discriminate|].
    apply andb_true_iff in Hrest as [Hx Hd]. apply Ascii.eqb_eq in Hx. subst x.
    unfold AuthRoutes.domainMatches in Hd. destruct d as [|y r]; [discriminate|].
    apply andb_true_iff in Hd as [Hall Hdot].
    apply dotBeforeLast_spec in Hdot as (r1 & r2 & -> & Hr2).
    change (String y (r1 +:+ String "." r2)) with (String y r1 +:+ String "." r2) in Hall.
    rewrite allClass_app in Hall. apply andb_true_iff in Hall as [Hb Hc].
    exists a, (String y r1), r2. split; [exact Hs|].
    split; [apply String.eqb_neq; exact Hne|].
    split; [discriminate|]. split; [exact Hr2|].
    split; [exact Ha|]. split; [exact Hb|].
    simpl in Hc. exact Hc.
  - intros (a & b & c & -> & Ha & Hb & Hc & Hca & Hcb & Hcc).
    change (a +:+ "@" +:+ b +:+ "." +:+ c)
      with (a +:+ String "@" (b +:+ String "." c)).
    rewrite (spanClass_app a "@" _ Hca classChar_at).
    apply andb_true_iff. split; [apply negb_true_iff, String.eqb_neq; exact Ha|].
    apply andb_true_iff. split; [reflexivity|].
    destruct b as [|y r1]; [congruence|].
    unfold AuthRoutes.domainMatches.
    change (String y r1 +:+ String "." c) with (String y (r1 +:+ String "." c)).
    apply andb_true_iff. split.
    + change (String y (r1 +:+ String "." c)) with (String y r1 +:+ String "." c).
      rewrite allClass_app, Hcb. simpl. rewrite Hcc. reflexivity.
    + apply dotBeforeLast_spec. exists r1, c. auto.
Qed.

(** X6. The e-mail test of the registration route accepts exactly the
    strings [local@domain.rest] in which the three parts are non-empty and
    hold neither white space nor ["@"]. *)
Theorem emailRegex_test_spec (s : string) :
  AuthRoutes.emailRegex_test s = true
  <-> exists a b c,
        s = a +:+ "@" +:+ b +:+ "." +:+ c
        /\ a <> "" /\ b <> "" /\ c <> ""
        /\ AuthRoutes.allClass a = true
        /\ AuthRoutes.allClass b = true
        /\ AuthRoutes.allClass c = true.
Proof. apply emailRegex_test_parts. Qed.

Lemma emailRegex_test_spec_witness :
  exists a b c,
    "eve@example.com" = a +:+ "@" +:+ b +:+ "." +:+ c
    /\ a <> "" /\ b <> "" /\ c <> "".
Proof.
  destruct (proj1 (emailRegex_test_spec "eve@example.com") eq_refl)
    as (a & b & c & Hs & Ha & Hb & Hc & _).
  exists a, b, c. auto.
Defined.

(** ** White space, [trim] and [toLowerCase] *)

Lemma append_cons (c : ascii) (s t : string) : String c s +:+ t = String c (s +:+ t).
Proof. reflexivity. Qed.

Lemma append_empty_r (s : string) : s +:+ "" = s.
Proof.
  induction s as [|c s IH]; [reflexivity|]. rewrite append_cons, IH. reflexivity.
Qed.

Lemma rev_app_rev_app (s acc acc' : string) :
  String.rev_app (String.rev_app s acc) acc' = String.rev_app acc (s +:+ acc').
Proof.
  revert acc acc'. induction s as [|c s IH]; intros acc acc'; [reflexivity|].
  rewrite append_cons. cbn [String.rev_app]. rewrite IH. reflexivity.
Qed.

Lemma rev_involutive (s : string) : String.rev (String.rev s) = s.
Proof.
  unfold String.rev. rewrite rev_app_rev_app. cbn [String.rev_app].
  apply append_empty_r.
Qed.

Lemma noWhiteSpace_rev_app (s acc : string) :
  noWhiteSpace (String.rev_app s acc) = noWhiteSpace s && noWhiteSpace acc.
Proof.
  revert acc. induction s as [|c s IH]; intros acc; [reflexivity|].
  cbn. rewrite IH. cbn.
  destruct (Js.isWhiteSpace c), (noWhiteSpace s), (noWhiteSpace acc); reflexivity.
Qed.

Lemma trimStart_noWhiteSpace (s : string) :
  noWhiteSpace s = true -> Js.trimStart s = s.
Proof.
  destruct s as [|c s]; [reflexivity|]. cbn.
  destruct (Js.isWhiteSpace c); [discriminate | reflexivity].
Qed.

Lemma trim_noWhiteSpace (s : string) : noWhiteSpace s = true -> Js.trim s = s.
Proof.
  intros Hs. unfold Js.trim, Js.trimEnd.
  rewrite (trimStart_noWhiteSpace s Hs).
  rewrite trimStart_noWhiteSpace; [apply rev_involutive|].
  unfold String.rev. rewrite noWhiteSpace_rev_app, Hs. reflexivity.
Qed.

Lemma noWhiteSpace_app (a b : string) :
  noWhiteSpace (a +:+ b) = noWhiteSpace a && noWhiteSpace b.
Proof.
  induction a as [|c a IH]; [reflexivity|].
  rewrite append_cons. cbn [noWhiteSpace]. rewrite IH. apply andb_assoc.
Qed.

Lemma allClass_noWhiteSpace (s : string) :
  AuthRoutes.allClass s = true -> noWhiteSpace s = true.
Proof.
  induction s as [|c s IH]; [reflexivity|]. cbn. unfold AuthRoutes.classChar.
  rewrite !andb_true_iff. intros [[Hc _] Hs]. auto.
Qed.

Lemma emailRegex_noWhiteSpace (s : string) :
  AuthRoutes.emailRegex_test s = true -> noWhiteSpace s = true.
Proof.
  intros Hs. apply emailRegex_test_parts in Hs
    as (a & b & c & -> & _ & _ & _ & Ha & Hb & Hc).
  rewrite !noWhiteSpace_app.
  rewrite (allClass_noWhiteSpace a Ha), (allClass_noWhiteSpace b Hb),
    (allClass_noWhiteSpace c Hc). reflexivity.
Qed.

Lemma lowerUnit_whiteSpace (c : ascii) :
  Js.isWhiteSpace (Js.lowerUnit c) = Js.isWhiteSpace c.
Proof. destruct c as [[] [] [] [] [] [] [] []]; reflexivity. Qed.

Lemma lowerUnit_at (c : ascii) : Ascii.eqb (Js.lowerUnit c) "@" = Ascii.eqb c "@".
Proof. destruct c as [[] [] [] [] [] [] [] []]; reflexivity. Qed.

Lemma lowerUnit_dot (c : ascii) : Ascii.eqb (Js.lowerUnit c) "." = Ascii.eqb c ".".
Proof. destruct c as [[] [] [] [] [] [] [] []]; reflexivity. Qed.

Lemma lowerUnit_classChar (c : ascii) :
  AuthRoutes.classChar (Js.lowerUnit c) = AuthRoutes.classChar c.
Proof. unfold AuthRoutes.classChar. rewrite lowerUnit_whiteSpace, lowerUnit_at. reflexivity. Qed.

Lemma toLowerCase_empty (s : string) :
  String.eqb (Js.toLowerCase s) "" = String.eqb s "".
Proof. destruct s; reflexivity. Qed.

Lemma toLowerCase_truthy (s : string) : Js.truthy (Js.toLowerCase s) = Js.truthy s.
Proof. unfold Js.truthy. rewrite toLowerCase_empty. reflexivity. Qed.

Lemma toLowerCase_allClass (s : string) :
  AuthRoutes.allClass (Js.toLowerCase s) = AuthRoutes.allClass s.
Proof.
  induction s as [|c s IH]; [reflexivity|]. cbn.
  rewrite lowerUnit_classChar, IH. reflexivity.
Qed.

Lemma toLowerCase_dotBeforeLast (s : string) :
  AuthRoutes.dotBeforeLast (Js.toLowerCase s) = AuthRoutes.dotBeforeLast s.
Proof.
  induction s as [|c s IH]; [reflexivity|]. cbn.
  rewrite lowerUnit_dot, toLowerCase_empty, IH. reflexivity.
Qed.

Lemma toLowerCase_spanClass (s : string) :
  AuthRoutes.spanClass (Js.toLowerCase s)
  = (Js.toLowerCase (fst (AuthRoutes.spanClass s)),
     Js.toLowerCase (snd (AuthRoutes.spanClass s))).
Proof.
  induction s as [|c s IH]; [reflexivity|]. cbn.
  rewrite lowerUnit_classChar. destruct (AuthRoutes.classChar c); [|reflexivity].
  rewrite IH. destruct (AuthRoutes.spanClass s); reflexivity.
Qed.

Lemma toLowerCase_emailRegex (s : string) :
  AuthRoutes.emailRegex_test (Js.toLowerCase s) = AuthRoutes.emailRegex_test s.
Proof.
  unfold AuthRoutes.emailRegex_test. rewrite toLowerCase_spanClass.
  destruct (AuthRoutes.spanClass s) as [a rest]. cbn [fst snd].
  rewrite toLowerCase_empty. destruct rest as [|x d]; [reflexivity|]. cbn.
  rewrite lowerUnit_at. unfold AuthRoutes.domainMatches.
  destruct d as [|y r]; [reflexivity|]. cbn.
  rewrite lowerUnit_classChar, toLowerCase_allClass, toLowerCase_dotBeforeLast.
  reflexivity.
Qed.

Lemma toLowerCase_noWhiteSpace (s : string) :
  noWhiteSpace (Js.toLowerCase s) = noWhiteSpace s.
Proof.
  induction s as [|c s IH]; [reflexivity|]. cbn.
  rewrite lowerUnit_whiteSpace, IH. reflexivity.
Qed.

Lemma emailRegex_truthy (s : string) :
  AuthRoutes.emailRegex_test s = true -> Js.truthy s = true.
Proof. destruct s; [discriminate | reflexivity]. Qed.

(** ** POST /auth/register, and the page that calls it *)

Section RegisterRoute.
Context `{Platform}.

(** X7. What a registration request writes.  A request that is not
    answered 201 writes nothing.  A request answered 201 carried the four
    required fields, an e-mail that passes the pattern (so that [trim]
    leaves it as it is), a password of at least six code units and an
    e-mail that no stored user had in lower case; the state is then the old
    one plus the new user, with the names trimmed and the e-mail in lower
    case, and one USER_REGISTERED audit entry. *)
Theorem post_register_writes (s : State) (newId : string) (now : Z) (salt : string)
    (body : AuthRoutes.RegisterBody) (resp : Response RegisterResponse.t) (s' : State) :
  AuthRoutes.post_register newId now salt body s = (inr resp, s') ->
  (status resp <> 201 -> s' = s)
  /\ (status resp = 201 ->
      exists firstName lastName email password,
        AuthRoutes.rb_firstName body = Some firstName
        /\ AuthRoutes.rb_lastName body = Some lastName
        /\ AuthRoutes.rb_email body = Some email
        /\ AuthRoutes.rb_password body = Some password
        /\ AuthRoutes.emailRegex_test email = true
        /\ Js.trim email = email
        /\ 6 <= Z.of_nat (String.length password)
        /\ find (Prisma.user_by_email (Js.toLowerCase email)) (users s) = None
        /\ s' = registeredState newId now salt
                  {| ri_firstName := Js.trim firstName;
                     ri_lastName := Js.trim lastName;
                     ri_email := email;
                     ri_phone := AuthRoutes.trimmedPhone (AuthRoutes.rb_phone body);
                     ri_password := password |} s).
Proof.
  unfold AuthRoutes.post_register, try_catch, bind.
  destruct (AuthRoutes.rb_firstName body) as [firstName|];
    destruct (AuthRoutes.rb_lastName body) as [lastName|];
    destruct (AuthRoutes.rb_email body) as [email|];
    destruct (AuthRoutes.rb_password body) as [password|];
    try (intros [= <- <-]; split; [reflexivity | discriminate]).
  destruct (_ || _); [intros [= <- <-]; split; [reflexivity | discriminate]|].
  destruct (_ <? _) eqn:Hlen; [intros [= <- <-]; split; [reflexivity | discriminate]|].
  destruct (AuthRoutes.emailRegex_test email) eqn:Hre; cbn [negb];
    [|intros [= <- <-]; split; [reflexivity | discriminate]].
  assert (Htrim : Js.trim email = email)
    by (apply trim_noWhiteSpace, emailRegex_noWhiteSpace, Hre).
  rewrite register_run. cbn [ri_email]. rewrite Htrim.
  destruct (find _ (users s)) eqn:Hfind.
  - intros [= <- <-]. split; [reflexivity | discriminate].
  - intros [= <- <-]. split; [intros Hne; destruct Hne; reflexivity|].
    intros _. exists firstName, lastName, email, password.
    repeat (split; [first [reflexivity | assumption]|]).
    split; [apply Z.ltb_ge; exact Hlen|]. split; [exact Hfind|].
    reflexivity.
Qed.

Lemma formError_none (fd : RegisterPage.FormData) :
  RegisterPage.validateForm fd = true ->
  Js.truthy (Js.trim (RegisterPage.firstName fd)) = true
  /\ Js.truthy (Js.trim (RegisterPage.lastName fd)) = true
  /\ AuthRoutes.emailRegex_test (RegisterPage.email fd) = true
  /\ Js.truthy (RegisterPage.password fd) = true
  /\ (Z.of_nat (String.length (RegisterPage.password fd)) <? 6) = false
  /\ RegisterPage.confirmPassword fd = RegisterPage.password fd.
Proof.
  unfold RegisterPage.validateForm, RegisterPage.formError.
  destruct (Js.truthy (Js.trim (RegisterPage.firstName fd))); [|discriminate].
  destruct (Js.truthy (Js.trim (RegisterPage.lastName fd))); [|discriminate].
  destruct (Js.truthy (Js.trim (RegisterPage.email fd))); [|discriminate].
  destruct (AuthRoutes.emailRegex_test (RegisterPage.email fd)); [|discriminate].
  destruct (Js.truthy (RegisterPage.password fd)); [|discriminate].
  destruct (_ <? _); [discriminate|].
  destruct (String.eqb _ _) eqn:Heq; [|discriminate].
  apply String.eqb_eq in Heq. repeat split; congruence.
Qed.

(** X8. A form that the registration page accepts is never refused by
    the checks of the route: the request the page sends is answered 400 only
    for an e-mail already taken, and 201 otherwise, the new user having the
    lower-case e-mail of the form. *)
Theorem register_form_accepted (s : State) (newId : string) (now : Z) (salt : string)
    (fd : RegisterPage.FormData) :
  RegisterPage.validateForm fd = true ->
  match find (Prisma.user_by_email (Js.toLowerCase (RegisterPage.email fd))) (users s) with
  | Some _ =>
      AuthRoutes.post_register newId now salt (RegisterPage.registerRequest fd) s
      = (inr (json_error 400 AuthService.DuplicateEmail), s)
  | None =>
      exists r s',
        AuthRoutes.post_register newId now salt (RegisterPage.registerRequest fd) s
        = (inr (json_data 201 r (RegisterResponse.message r)), s')
        /\ UserSummary.email (RegisterResponse.user r)
           = Js.toLowerCase (RegisterPage.email fd)
        /\ exists u, users s' = (users s ++ [u])%list
                     /\ User.email u = Js.toLowerCase (RegisterPage.email fd)
  end.
Proof.
  intros Hvalid.
  destruct (formError_none fd Hvalid) as (Hfn & Hln & Hre & Hpw & Hlen & _).
  assert (Hnows : noWhiteSpace (RegisterPage.email fd) = true)
    by (apply emailRegex_noWhiteSpace, Hre).
  assert (Htrim : Js.trim (RegisterPage.email fd) = RegisterPage.email fd)
    by (apply trim_noWhiteSpace, Hnows).
  assert (Htriml : Js.trim (Js.toLowerCase (RegisterPage.email fd))
                   = Js.toLowerCase (RegisterPage.email fd))
    by (apply trim_noWhiteSpace; rewrite toLowerCase_noWhiteSpace; exact Hnows).
  unfold AuthRoutes.post_register, RegisterPage.registerRequest.
  cbn [AuthRoutes.rb_firstName AuthRoutes.rb_lastName AuthRoutes.rb_email
       AuthRoutes.rb_password AuthRoutes.rb_phone].
  rewrite Htrim, Hfn, Hln, Hpw, Hlen, toLowerCase_truthy,
    (emailRegex_truthy _ Hre), toLowerCase_emailRegex, Hre.
  cbn [negb orb]. unfold try_catch, bind.
  rewrite register_run. cbn [ri_email].
  rewrite Htriml, toLowerCase_idempotent.
  destruct (find _ (users s)).
  - reflexivity.
  - eexists _, _. split; [reflexivity|].
    split; [simpl; apply toLowerCase_idempotent|].
    eexists. split; [reflexivity|]. simpl. apply toLowerCase_idempotent.
Qed.
End RegisterRoute.

(** ** The users router *)

(** X9. No request reaches the routes [GET /search] and
    [PUT /bulk/validate] of users.ts: whatever the method and the path, the
    router selects another route, because [GET /:id] and
    [PUT /:id/validate] are registered before them and match the same
    paths. *)
Theorem users_routes_never_selected (m : Express.Method) (path : list string)
    (r : UsersRoutes.Route) (params : list (string * string)) :
  Express.dispatch UsersRoutes.routes m path = Some (r, params) ->
  r <> UsersRoutes.GetSearch /\ r <> UsersRoutes.PutBulkValidate.
Proof.
  unfold UsersRoutes.routes.
  destruct path as [|a [|b [|c rest]]]; destruct m;
    cbn [Express.dispatch Express.matchPath];
    repeat match goal with
           | |- context [bool_decide (?x = ?y)] =>
               first [ rewrite (bool_decide_eq_true_2 (x = y)) by reflexivity
                     | rewrite (bool_decide_eq_false_2 (x = y)) by discriminate ]
           | |- context [String.eqb ?x ?y] => destruct (String.eqb x y)
           end;
    intros Heq; inversion Heq; subst; split; discriminate.
Qed.

Lemma users_routes_never_selected_witness :
  UsersRoutes.GetById <> UsersRoutes.GetSearch
  /\ UsersRoutes.GetById <> UsersRoutes.PutBulkValidate.
Proof.
  apply (users_routes_never_selected Express.GET ["search"] UsersRoutes.GetById
           [("id", "search")]).
  reflexivity.
Defined.

(** ** The two single-validation routes *)

Lemma put_validate_cases (s : State) (user : ReqUser) (id : string) :
  req_role user = ADMIN \/ req_role user = PRACTITIONER ->
  match find (Prisma.user_by_id id) (users s) with
  | None =>
      UsersRoutes.put_validate user id s = (inr (json_error 404 "User not found"), s)
  | Some u =>
      if negb (UserRole_eqb (User.role u) CLIENT)
      then UsersRoutes.put_validate user id s
           = (inr (json_error 400 "Only client accounts can be validated"), s)
      else if User.validated u
      then UsersRoutes.put_validate user id s
           = (inr (json_error 400 "Client account is already validated"), s)
      else exists resp s',
             UsersRoutes.put_validate user id s = (inr resp, s')
             /\ status resp = 200
             /\ users s' = Prisma.update_where (Prisma.user_by_id id)
                             (User.set_validated true) (users s)
             /\ animals s' = animals s /\ appointments s' = appointments s
             /\ treatmentNotes s' = treatmentNotes s /\ reminders s' = reminders s
             /\ manualReminders s' = manualReminders s
             /\ exists entry,
                  auditLogs s' = (auditLogs s ++ [entry])%list
                  /\ AuditLog.userId entry = req_id user
                  /\ AuditLog.action entry = "VALIDATE_CLIENT"
  end.
Proof.
  intros Hrole.
  unfold UsersRoutes.put_validate, requireRole, Prisma.user_update,
    Prisma.user_findUnique_id, Prisma.auditLog_create.
  rewrite (staff_allowed user Hrole). run_handler.
  destruct (find (Prisma.user_by_id id) (users s)) as [u|] eqn:Hf; [|reflexivity].
  destruct (negb (UserRole_eqb (User.role u) CLIENT)); [reflexivity|].
  destruct (User.validated u); [reflexivity|].
  simpl. rewrite Hf. simpl.
  eexists _, _. split; [reflexivity|]. repeat (split; [reflexivity|]).
  eexists. repeat split.
Qed.

Lemma put_validate_client_cases (s : State) (user : ReqUser) (id : string) :
  req_role user = ADMIN \/ req_role user = PRACTITIONER ->
  Js.truthy id = true ->
  match find (Prisma.user_by_id id) (users s) with
  | None =>
      AuthRoutes.put_validate_client user id s
      = (inr (json_error 400 AuthService.ClientNotFound), s)
  | Some u =>
      if negb (UserRole_eqb (User.role u) CLIENT)
      then AuthRoutes.put_validate_client user id s
           = (inr (json_error 400 AuthService.OnlyClients), s)
      else if User.validated u
      then AuthRoutes.put_validate_client user id s
           = (inr (json_error 400 AuthService.AlreadyValidated), s)
      else exists resp,
             AuthRoutes.put_validate_client user id s
             = (inr resp, validatedState id (req_id user) u s)
             /\ status resp = 200
  end.
Proof.
  intros Hrole Hid. unfold AuthRoutes.put_validate_client, requireRole.
  rewrite (staff_allowed user Hrole), Hid. cbn [negb]. unfold try_catch, bind.
  destruct (find (Prisma.user_by_id id) (users s)) as [u|] eqn:Hf.
  - destruct (negb (UserRole_eqb (User.role u) CLIENT)) eqn:Hr.
    + apply negb_true_iff, UserRole_eqb_neq in Hr.
      rewrite (validateClient_not_client s id _ u Hf Hr). reflexivity.
    + apply negb_false_iff, UserRole_eqb_eq in Hr.
      destruct (User.validated u) eqn:Hv.
      * rewrite (validateClient_already s id _ u Hf Hr Hv). reflexivity.
      * rewrite (validateClient_pending s id _ u Hf Hr Hv).
        eexists. split; reflexivity.
  - rewrite (validateClient_missing s id _ Hf). reflexivity.
Qed.

(** X10. [PUT /users/:id/validate] and [PUT /auth/validate-client/:id]
    are two routes to one update: for staff and the same id they leave the
    same users table and touch no other table but the audit log, and one
    answers 200 exactly when the other does.  They differ for an id that
    matches no user, which the first answers with 404 and the second with
    400. *)
Theorem validation_routes_agree (s : State) (user : ReqUser) (id : string) :
  req_role user = ADMIN \/ req_role user = PRACTITIONER ->
  Js.truthy id = true ->
  exists ra sa rb sb,
    UsersRoutes.put_validate user id s = (inr ra, sa)
    /\ AuthRoutes.put_validate_client user id s = (inr rb, sb)
    /\ users sa = users sb
    /\ animals sa = animals s /\ animals sb = animals s
    /\ reminders sa = reminders s /\ reminders sb = reminders s
    /\ manualReminders sa = manualReminders s /\ manualReminders sb = manualReminders s
    /\ (status ra = 200 <-> status rb = 200)
    /\ (find (Prisma.user_by_id id) (users s) = None ->
        status ra = 404 /\ status rb = 400 /\ sa = s /\ sb = s).
Proof.
  intros Hrole Hid.
  pose proof (put_validate_cases s user id Hrole) as Ha.
  pose proof (put_validate_client_cases s user id Hrole Hid) as Hb.
  destruct (find (Prisma.user_by_id id) (users s)) as [u|] eqn:Hf.
  - destruct (negb (UserRole_eqb (User.role u) CLIENT)).
    + eexists _, _, _, _. split; [exact Ha|]. split; [exact Hb|].
      repeat (split; [reflexivity|]). discriminate.
    + destruct (User.validated u).
      * eexists _, _, _, _. split; [exact Ha|]. split; [exact Hb|].
        repeat (split; [reflexivity|]). discriminate.
      * destruct Ha as (ra & sa & Ha & Hsa & Hu & Han & _ & _ & Hrem & Hman & _).
        destruct Hb as (rb & Hb & Hsb).
        exists ra, sa, rb, (validatedState id (req_id user) u s).
        split; [exact Ha|]. split; [exact Hb|].
        split; [rewrite Hu; reflexivity|].
        split; [exact Han|]. split; [reflexivity|].
        split; [exact Hrem|]. split; [reflexivity|].
        split; [exact Hman|]. split; [reflexivity|].
        split; [tauto | discriminate].
  - eexists _, _, _, _. split; [exact Ha|]. split; [exact Hb|].
    repeat (split; [reflexivity|]). split; [split; discriminate|].
    intros _. repeat split.
Qed.

Lemma validation_routes_agree_witness :
  exists ra sa rb sb,
    UsersRoutes.put_validate Demo.adminUser "c1" Demo.state = (inr ra, sa)
    /\ AuthRoutes.put_validate_client Demo.adminUser "c1" Demo.state = (inr rb, sb)
    /\ users sa = users sb
    /\ (status ra = 200 <-> status rb = 200).
Proof.
  destruct (validation_routes_agree Demo.state Demo.adminUser "c1"
              (or_introl eq_refl) eq_refl)
    as (ra & sa & rb & sb & Ha & Hb & Hu & _ & _ & _ & _ & _ & _ & Hst & _).
  exists ra, sa, rb, sb. auto.
Defined.

(** ** Unique ids and e-mails *)

Lemma update_where_cons {A} (p : A -> bool) (f : A -> A) (x : A) (l : list A) :
  Prisma.update_where p f (x :: l)
  = (if p x then f x else x) :: Prisma.update_where p f l.
Proof. reflexivity. Qed.

Lemma map_update_where {A B} (g : A -> B) (p : A -> bool) (f : A -> A) (l : list A) :
  (forall x, g (f x) = g x) -> map g (Prisma.update_where p f l) = map g l.
Proof.
  intros Hg. unfold Prisma.update_where. rewrite map_map. apply map_ext.
  intros x. destruct (p x); [apply Hg | reflexivity].
Qed.

Lemma update_where_untouched {A} (p : A -> bool) (f : A -> A) (l : list A) :
  (forall x, In x l -> p x = false) -> Prisma.update_where p f l = l.
Proof.
  intros Hp. unfold Prisma.update_where.
  rewrite (map_ext_in _ (fun x => x)); [apply map_id|].
  intros x Hx. rewrite (Hp x Hx). reflexivity.
Qed.

Lemma in_map_update_where {A B} (g : A -> B) (p : A -> bool) (f : A -> A)
    (l : list A) (b : B) :
  In b (map g (Prisma.update_where p f l)) ->
  In b (map g l) \/ exists x, In x l /\ p x = true /\ b = g (f x).
Proof.
  unfold Prisma.update_where. rewrite map_map. intros Hb.
  apply in_map_iff in Hb as (x & Hx & Hin).
  destruct (p x) eqn:Hpx.
  - right. exists x. auto.
  - left. rewrite <- Hx. apply in_map. exact Hin.
Qed.

Lemma NoDup_update_email (l : list User.t) (i e : string) (f : User.t -> User.t) :
  List.NoDup (map User.id l) ->
  List.NoDup (map User.email l) ->
  (forall x, User.email (f x) = e) ->
  (forall x, In x l -> User.email x = e -> User.id x = i) ->
  List.NoDup (map User.email (Prisma.update_where (Prisma.user_by_id i) f l)).
Proof.
  intros Hids Hemails Hf Htaken.
  induction l as [|x l IH]; [constructor|].
  cbn in Hids, Hemails. inversion Hids as [|? ? Hidx Hids']; subst.
  inversion Hemails as [|? ? Hex Hemails']; subst.
  rewrite update_where_cons. cbn [map].
  destruct (Prisma.user_by_id i x) eqn:Hx.
  - apply String.eqb_eq in Hx.
    rewrite update_where_untouched.
    + constructor; [|exact Hemails']. rewrite Hf. intros Hin.
      apply in_map_iff in Hin as (y & Hy & Hyl).
      apply Hidx. rewrite Hx, <- (Htaken y (or_intror Hyl) Hy).
      apply in_map. exact Hyl.
    + intros y Hy. apply String.eqb_neq. intros Heq. apply Hidx.
      rewrite Hx, <- Heq. apply in_map. exact Hy.
  - constructor.
    + intros Hin. apply in_map_update_where in Hin as [Hin | (y & Hy & _ & Hey)].
      * exact (Hex Hin).
      * rewrite Hf in Hey. apply String.eqb_neq in Hx. apply Hx.
        apply (Htaken x (or_introl eq_refl)). exact Hey.
    + apply IH; [exact Hids' | exact Hemails' |].
      intros y Hy. apply Htaken. right. exact Hy.
Qed.

Lemma uniqueKeys_same_keys (l l' : list User.t) :
  map User.id l' = map User.id l ->
  map User.email l' = map User.email l ->
  uniqueKeys l -> uniqueKeys l'.
Proof. unfold uniqueKeys. intros -> ->. trivial. Qed.

Lemma uniqueKeys_set_validated (p : User.t -> bool) (l : list User.t) :
  uniqueKeys l -> uniqueKeys (Prisma.update_where p (User.set_validated true) l).
Proof. apply uniqueKeys_same_keys; apply map_update_where; reflexivity. Qed.

Create HintDb unique.

#[local] Hint Resolve uniqueKeys_set_validated : unique.

(** Closes [uniqueKeys (users s) -> uniqueKeys (users (snd (h s)))] for a
    handler [h] laid open whose only write to the users sets [validated]. *)
Ltac unique_branches :=
  repeat match goal with
         | |- context [find ?p ?l] => destruct (find p l) eqn:?; simpl
         | |- context [UsersRoutes.b_clientIds ?b] =>
             destruct (UsersRoutes.b_clientIds b) as [[|? ?]|] eqn:?; simpl
         | |- context [if ?b then _ else _] => destruct b eqn:?; simpl
         | |- context [match ?x with _ => _ end] => destruct x eqn:?; simpl
         end;
  auto with unique.

Lemma put_validate_unique user id s :
  uniqueKeys (users s) -> uniqueKeys (users (snd (UsersRoutes.put_validate user id s))).
Proof.
  unfold UsersRoutes.put_validate, requireRole, Prisma.user_update,
    Prisma.user_findUnique_id, Prisma.auditLog_create.
  run_handler. unique_branches.
Qed.

Lemma put_bulk_validate_unique user body s :
  uniqueKeys (users s) ->
  uniqueKeys (users (snd (UsersRoutes.put_bulk_validate user body s))).
Proof.
  unfold UsersRoutes.put_bulk_validate, requireRole, Prisma.user_updateMany,
    Prisma.auditLog_create.
  run_handler. unique_branches.
Qed.

Lemma put_validate_client_unique user clientId s :
  uniqueKeys (users s) ->
  uniqueKeys (users (snd (AuthRoutes.put_validate_client user clientId s))).
Proof.
  unfold AuthRoutes.put_validate_client, requireRole, AuthService.validateClient,
    Prisma.user_update, Prisma.user_findUnique_id, Prisma.auditLog_create.
  run_handler. unique_branches.
Qed.

(** The users table after [PUT /:id]: as before, or the target rewritten
    after the check that no other user holds the new e-mail. *)
Lemma put_update_users user id body s :
  users (snd (UsersRoutes.put_update user id body s)) = users s
  \/ (users (snd (UsersRoutes.put_update user id body s))
      = Prisma.update_where (Prisma.user_by_id id) (UsersRoutes.profileData body)
          (users s)
      /\ (Js.truthy_opt (UsersRoutes.b_email body) = true ->
          find (fun u => Prisma.user_by_email (default "" (UsersRoutes.b_email body)) u
                         && negb (Prisma.user_by_id id u)) (users s) = None)).
Proof.
  unfold UsersRoutes.put_update, requireRole, Prisma.user_update,
    Prisma.user_findUnique_id, Prisma.user_findFirst_email_not_id.
  destruct (existsb _ staff); [|left; reflexivity].
  run_handler.
  destruct (find (Prisma.user_by_id id) (users s)) as [u|] eqn:Hf; [|left; reflexivity].
  destruct (negb (UserRole_eqb (User.role u) CLIENT)); [left; reflexivity|].
  destruct (Js.truthy_opt (UsersRoutes.b_email body)) eqn:He; simpl.
  - destruct (find (fun u0 => Prisma.user_by_email _ u0 && negb _) (users s))
      eqn:Htaken; simpl; [left; reflexivity|].
    rewrite Hf. simpl. right. split; [reflexivity | reflexivity].
  - rewrite Hf. simpl. right. split; [reflexivity | discriminate].
Qed.

Lemma put_update_unique user id body s :
  uniqueKeys (users s) ->
  uniqueKeys (users (snd (UsersRoutes.put_update user id body s))).
Proof.
  intros [Hids Hemails].
  destruct (put_update_users user id body s) as [-> | [-> Htaken]]; [split; assumption|].
  split.
  - rewrite map_update_where by reflexivity. exact Hids.
  - destruct (Js.truthy_opt (UsersRoutes.b_email body)) eqn:He.
    + apply NoDup_update_email with (e := default "" (UsersRoutes.b_email body));
        [exact Hids | exact Hemails | |].
      * intros x. unfold UsersRoutes.profileData. cbn. rewrite He. reflexivity.
      * intros x Hx Hex.
        pose proof (find_none _ _ (Htaken eq_refl) x Hx) as Hnone. cbn in Hnone.
        unfold Prisma.user_by_email in Hnone. rewrite Hex, String.eqb_refl in Hnone.
        cbn in Hnone. apply negb_false_iff, String.eqb_eq in Hnone. exact Hnone.
    + rewrite map_update_where; [exact Hemails|].
      intros x. unfold UsersRoutes.profileData. cbn. rewrite He. reflexivity.
Qed.

Lemma perform_unique op s :
  uniqueKeys (users s) -> uniqueKeys (users (perform op s)).
Proof.
  destruct op as [user id body|user body|user id|user clientId|user path body]; simpl.
  - apply put_update_unique.
  - apply put_bulk_validate_unique.
  - apply put_validate_unique.
  - apply put_validate_client_unique.
  - unfold UsersRoutes.handle_put.
    destruct (Express.dispatch _ _ _) as [[[] params]|];
      auto using put_validate_unique, put_update_unique, put_bulk_validate_unique.
Qed.

Section UniqueKeys.
Context `{Platform}.

Lemma post_register_unique s newId now salt body :
  ~ In newId (map User.id (users s)) ->
  uniqueKeys (users s) ->
  uniqueKeys (users (snd (AuthRoutes.post_register newId now salt body s))).
Proof.
  intros Hfresh [Hids Hemails].
  unfold AuthRoutes.post_register, try_catch, bind.
  destruct (AuthRoutes.rb_firstName body) as [firstName|];
    destruct (AuthRoutes.rb_lastName body) as [lastName|];
    destruct (AuthRoutes.rb_email body) as [email|];
    destruct (AuthRoutes.rb_password body) as [password|];
    try (split; assumption).
  destruct (_ || _); [split; assumption|].
  destruct (_ <? _); [split; assumption|].
  destruct (negb _); [split; assumption|].
  rewrite register_run.
  destruct (find _ (users s)) eqn:Hfind; [split; assumption|].
  match type of Hfind with
  | find (Prisma.user_by_email (Js.toLowerCase (ri_email ?d))) _ = None =>
      change (uniqueKeys (users s ++ [registeredUser newId now salt d])%list)
  end.
  split; rewrite map_app; cbn [map]; apply List.NoDup_app;
    try assumption; try (constructor; [intros []|constructor]).
  - intros x Hx [<- | []]. exact (Hfresh Hx).
  - intros x Hx [<- | []]. apply in_map_iff in Hx as (y & Hy & Hyl).
    pose proof (find_none _ _ Hfind y Hyl) as Hnone.
    unfold Prisma.user_by_email in Hnone. cbn in Hy. rewrite Hy in Hnone.
    rewrite String.eqb_refl in Hnone. discriminate.
Qed.

(** X11. Ids and e-mails stay unique.  If no two users share an id and no
    two share an e-mail, this still holds after a registration request
    (the store generating an id that is not in use) and after any sequence
    of profile updates, single and bulk validations and [PUT] requests to
    the users router, whatever their answers. *)
Theorem unique_keys_kept (s : State) :
  uniqueKeys (users s) ->
  (forall newId now salt body,
     ~ In newId (map User.id (users s)) ->
     uniqueKeys (users (snd (AuthRoutes.post_register newId now salt body s))))
  /\ forall ops, uniqueKeys (users (performAll ops s)).
Proof.
  intros Hs. split.
  - intros newId now salt body Hfresh. apply post_register_unique; assumption.
  - intros ops. revert s Hs. induction ops as [|op ops IH]; intros s Hs; [exact Hs|].
    cbn. apply IH, perform_unique, Hs.
Qed.
End UniqueKeys.

(** ** A profile update and the next login *)

Section ProfileEmail.
Context `{Platform}.

(** X12. [PUT /users/:id] stores the e-mail as it is sent, while [login]
    looks users up by the lower-case form of the e-mail typed.  So when
    staff give a CLIENT an e-mail that is not in lower case (and that no
    other user holds), the update is answered 200, the user now has that
    e-mail, and no login request whatsoever succeeds as a user with that
    e-mail any more. *)
Theorem profile_email_case_lockout (s : State) (user : ReqUser) (id : string)
    (body : UsersRoutes.Body) (u : User.t) (e : string) :
  req_role user = ADMIN \/ req_role user = PRACTITIONER ->
  find (Prisma.user_by_id id) (users s) = Some u ->
  User.role u = CLIENT ->
  UsersRoutes.b_email body = Some e ->
  Js.truthy e = true ->
  find (fun x => Prisma.user_by_email e x && negb (Prisma.user_by_id id x)) (users s)
  = None ->
  Js.toLowerCase e <> e ->
  exists resp s',
    UsersRoutes.put_update user id body s = (inr resp, s')
    /\ status resp = 200
    /\ (exists u', find (Prisma.user_by_id id) (users s') = Some u'
                   /\ User.email u' = e)
    /\ forall now data r s2,
         AuthService.login now data s' = (inr r, s2) ->
         AuthUser.email (AuthResponse.user r) <> e.
Proof.
  intros Hrole Hf Hr Hbody Htruthy Hfree Hcase.
  assert (Hrun : UsersRoutes.put_update user id body s
                 = (inr (json_data 200
                           (UsersRoutes.DProfile
                              (UsersRoutes.clientProfile (UsersRoutes.profileData body u)))
                           "Client profile updated successfully"),
                    set_users (Prisma.update_where (Prisma.user_by_id id)
                                 (UsersRoutes.profileData body)) s)).
  { unfold UsersRoutes.put_update, requireRole, Prisma.user_update,
      Prisma.user_findUnique_id, Prisma.user_findFirst_email_not_id.
    rewrite (staff_allowed user Hrole). run_handler. rewrite Hf.
    apply UserRole_eqb_eq in Hr. rewrite Hr, Hbody. cbn. rewrite Htruthy.
    cbn. rewrite Hfree. cbn. rewrite Hf. reflexivity. }
  eexists _, _. split; [exact Hrun|]. split; [reflexivity|]. split.
  - exists (UsersRoutes.profileData body u). split.
    + cbn. rewrite find_update_where_same by reflexivity. rewrite Hf. reflexivity.
    + cbn. rewrite Hbody. cbn. rewrite Htruthy. reflexivity.
  - intros now data r s2 Hlogin Hemail.
    destruct (login_outcomes (set_users (Prisma.update_where (Prisma.user_by_id id)
                                           (UsersRoutes.profileData body)) s) now data)
      as [Hok _].
    destruct (Hok r s2 Hlogin) as (u2 & Hfind & _ & _ & Huser & _).
    apply find_some in Hfind as [_ Hmatch].
    unfold Prisma.user_by_email in Hmatch. apply String.eqb_eq in Hmatch.
    rewrite Huser in Hemail. cbn in Hemail.
    apply Hcase. rewrite <- Hemail, Hmatch. apply toLowerCase_idempotent.
Qed.
End ProfileEmail.

Lemma profile_email_case_lockout_witness :
  exists resp s',
    UsersRoutes.put_update Demo.adminUser "c2"
      {| UsersRoutes.b_firstName := None; UsersRoutes.b_lastName := None;
         UsersRoutes.b_phone := None; UsersRoutes.b_email := Some "Bob@Example.com";
         UsersRoutes.b_clientIds := None |} Demo.state
    = (inr resp, s')
    /\ status resp = 200
    /\ forall now r s2,
         AuthService.login (H := Demo.platform) now
           {| li_email := "Bob@Example.com"; li_password := "secret2" |} s'
         = (inr r, s2) ->
         AuthUser.email (AuthResponse.user r) <> "Bob@Example.com".
Proof.
  destruct (profile_email_case_lockout (H := Demo.platform) Demo.state Demo.adminUser "c2"
              {| UsersRoutes.b_firstName := None; UsersRoutes.b_lastName := None;
                 UsersRoutes.b_phone := None; UsersRoutes.b_email := Some "Bob@Example.com";
                 UsersRoutes.b_clientIds := None |}
              Demo.approved "Bob@Example.com" (or_introl eq_refl) eq_refl eq_refl eq_refl
              eq_refl eq_refl)
    as (resp & s' & Hrun & Hst & _ & Hlogin); [discriminate|].
  exists resp, s'. split; [exact Hrun|]. split; [exact Hst|].
  intros now r s2. apply Hlogin.
Defined.

(** ** DELETE /animals/:id: who may delete, and what is written *)

Lemma find_visible_client (user : ReqUser) (id : string) (l : list Animal.t) :
  req_role user = CLIENT ->
  (forall a, In a l -> Animal.id a = id -> Animal.ownerId a <> req_id user) ->
  find (AnimalsRoutes.visible user id) l = None.
Proof.
  intros Hrole Hown. unfold AnimalsRoutes.visible, AnimalsRoutes.isAdmin.
  rewrite Hrole. cbn.
  induction l as [|a l IH]; [reflexivity|]. cbn.
  destruct (String.eqb (Animal.id a) id) eqn:Hid; cbn.
  - apply String.eqb_eq in Hid.
    pose proof (Hown a (or_introl eq_refl) Hid) as Hne.
    apply String.eqb_neq in Hne. rewrite Hne. apply IH.
    intros b Hb. apply Hown. right. exact Hb.
  - apply IH. intros b Hb. apply Hown. right. exact Hb.
Qed.

(** X13. The scope of an animal deletion.  A CLIENT who owns no animal
    with the id is answered 404 and nothing is deleted, whether or not an
    animal with that id exists.  For every caller the request always gets an
    answer; an answer other than 200 leaves the state untouched; an answer of
    200 removes the rows of that id from the animals and touches no other
    table, and animals with another id always stay. *)
Theorem delete_animal_scope (s : State) (user : ReqUser) (id : string) :
  (req_role user = CLIENT ->
   (forall a, In a (animals s) -> Animal.id a = id -> Animal.ownerId a <> req_id user) ->
   AnimalsRoutes.delete_animal user id s
   = (inr (json_error 404 "Animal not found or you do not have permission to delete it"),
      s))
  /\ exists resp s',
       AnimalsRoutes.delete_animal user id s = (inr resp, s')
       /\ (status resp <> 200 -> s' = s)
       /\ (status resp = 200 ->
           s' = set_animals (Prisma.delete_where (Prisma.animal_by_id id)) s)
       /\ forall b, In b (animals s) -> Animal.id b <> id -> In b (animals s').
Proof.
  split.
  - intros Hrole Hown. unfold AnimalsRoutes.delete_animal. run_handler.
    rewrite (find_visible_client user id (animals s) Hrole Hown). reflexivity.
  - unfold AnimalsRoutes.delete_animal, Prisma.appointment_findFirst_animal,
      Prisma.treatmentNote_findFirst_animal, Prisma.animal_delete.
    run_handler.
    destruct (find (AnimalsRoutes.visible user id) (animals s)).
    2:{ eexists _, _. split; [reflexivity|]. repeat split; auto; discriminate. }
    destruct (AnimalsRoutes.is_some _ || AnimalsRoutes.is_some _); cbn.
    { eexists _, _. split; [reflexivity|]. repeat split; auto; discriminate. }
    destruct (find (Prisma.animal_by_id id) (animals s)); cbn.
    + eexists _, _. split; [reflexivity|].
      split; [intros Hne; destruct Hne; reflexivity|]. split; [reflexivity|].
      intros b Hb Hne. cbn. unfold Prisma.delete_where. apply filter_In.
      split; [exact Hb|]. unfold Prisma.animal_by_id.
      apply negb_true_iff, String.eqb_neq. exact Hne.
    + eexists _, _. split; [reflexivity|]. repeat split; auto; discriminate.
Qed.

Lemma delete_animal_scope_witness :
  AnimalsRoutes.delete_animal {| req_id := "c1"; req_role := CLIENT |} "an2" Demo.state
  = (inr (json_error 404 "Animal not found or you do not have permission to delete it"),
     Demo.state).
Proof.
  apply (delete_animal_scope Demo.state {| req_id := "c1"; req_role := CLIENT |} "an2");
    [reflexivity|].
  intros a [<- | [<- | []]]; cbn; [discriminate|]. intros _. discriminate.
Defined.

(** ** POST /reminders: validation and writes *)


Section CreateReminderMore.
Context `{Platform}.

(** The three ways [POST /reminders] ends once the body has passed the
    schema. *)
Lemma post_reminder_parsed (s : State) (user : ReqUser) (newId : string) (now : Z)
    (rnd : string) (body : RemindersRoutes.CreateBody) (v : RemindersRoutes.ValidatedData) :
  req_role user = ADMIN \/ req_role user = PRACTITIONER ->
  RemindersRoutes.createReminderSchema_parse body = inr v ->
  let a := default "" (RemindersRoutes.v_appointmentId v) in
  RemindersRoutes.post_reminder user newId now rnd body s
  = if Js.truthy_opt (RemindersRoutes.v_appointmentId v) then
      match find (fun x => String.eqb (Appointment.id x) a) (appointments s) with
      | None => (inr (json_error 404 "Appointment not found"), s)
      | Some _ =>
          match parseDate (RemindersRoutes.v_dueDate v) with
          | None => (inr (json_error 500 "Failed to create reminder in database"), s)
          | Some d =>
              let r :=
                {| Reminder.id := newId;
                   Reminder.message := RemindersRoutes.v_message v;
                   Reminder.messageFr := RemindersRoutes.v_message v;
                   Reminder.type :=
                     RemindersRoutes.mapStringToReminderType (RemindersRoutes.v_type v);
                   Reminder.remindAt := d; Reminder.sent := false;
                   Reminder.appointmentId := a; Reminder.createdAt := now |} in
              (inr (json_data 201
                      {| ReminderResponse.id := newId;
                         ReminderResponse.message := RemindersRoutes.v_message v;
                         ReminderResponse.type := RemindersRoutes.v_type v;
                         ReminderResponse.dueDate := toISOString d;
                         ReminderResponse.completed := false;
                         ReminderResponse.priority := RemindersRoutes.v_priority v;
                         ReminderResponse.appointmentId := Some a;
                         ReminderResponse.createdAt := toISOString now |}
                      "Reminder created successfully"),
               set_reminders (fun l => (l ++ [r])%list) s)
          end
      end
    else
      (inr (json_data 201 (manualRecord now rnd v) "Manual reminder created successfully"),
       set_manualReminders
         (insert (RemindersRoutes.manualId now rnd) (manualRecord now rnd v)) s).
Proof.
  intros Hrole Hparse a. unfold RemindersRoutes.post_reminder, requireRole.
  rewrite (staff_allowed user Hrole), Hparse.
  destruct (Js.truthy_opt (RemindersRoutes.v_appointmentId v)); [|reflexivity].
  unfold RemindersRoutes.create_linked, Prisma.appointment_findUnique,
    Prisma.reminder_create.
  run_handler. fold a.
  destruct (find _ (appointments s)); [|reflexivity].
  destruct (parseDate (RemindersRoutes.v_dueDate v)); reflexivity.
Qed.


(** X15. What [POST /reminders] writes.  For staff, a request that is
    not answered 201 writes nothing; a request answered 201 wrote to exactly
    one store: either one new row of the reminders table, not yet sent and
    under the generated id, or one record of the in-memory map, not
    completed and under its [manual-] id. *)
Theorem create_reminder_writes (s : State) (user : ReqUser) (newId : string)
    (now : Z) (rnd : string) (body : RemindersRoutes.CreateBody) :
  req_role user = ADMIN \/ req_role user = PRACTITIONER ->
  exists resp s',
    RemindersRoutes.post_reminder user newId now rnd body s = (inr resp, s')
    /\ (status resp <> 201 -> s' = s)
    /\ (status resp = 201 ->
        (exists r,
           s' = set_reminders (fun l => (l ++ [r])%list) s
           /\ Reminder.id r = newId /\ Reminder.sent r = false)
        \/ (exists m,
              s' = set_manualReminders (insert (RemindersRoutes.manualId now rnd) m) s
              /\ ReminderResponse.id m = RemindersRoutes.manualId now rnd
              /\ ReminderResponse.completed m = false
              /\ ReminderResponse.appointmentId m = None)).
Proof.
  intros Hrole.
  destruct (RemindersRoutes.createReminderSchema_parse body) as [e|v] eqn:Hparse.
  - exists (if String.eqb (Js.name e) "ZodError"
            then json_error 400 "Validation error"
            else json_error 400 (message_or e "Failed to create reminder")), s.
    split.
    + unfold RemindersRoutes.post_reminder, requireRole.
      rewrite (staff_allowed user Hrole), Hparse. unfold try_catch, throw.
      destruct (String.eqb (Js.name e) "ZodError"); reflexivity.
    + destruct (String.eqb (Js.name e) "ZodError"); split; auto; discriminate.
  - pose proof (post_reminder_parsed s user newId now rnd body v Hrole Hparse) as Hrun.
    cbn zeta in Hrun. rewrite Hrun.
    destruct (Js.truthy_opt (RemindersRoutes.v_appointmentId v)).
    + destruct (find _ (appointments s)).
      * destruct (parseDate _); eexists _, _; (split; [reflexivity|]).
        -- split; [intros Hne; destruct Hne; reflexivity|].
           intros _. left. eexists. repeat split.
        -- split; [reflexivity | discriminate].
      * eexists _, _; (split; [reflexivity|]). split; [reflexivity | discriminate].
    + eexists _, _; (split; [reflexivity|]).
      split; [intros Hne; destruct Hne; reflexivity|].
      intros _. right. eexists. repeat split.
Qed.
End CreateReminderMore.


Lemma create_reminder_writes_witness :
  exists resp s',
    RemindersRoutes.post_reminder (H := Demo.platform) Demo.adminUser "r2" 1700000600000
      "abc"
      {| RemindersRoutes.cb_message := Some "Give tablets";
         RemindersRoutes.cb_type := Some "FOLLOW_UP";
         RemindersRoutes.cb_dueDate := Some "tomorrow";
         RemindersRoutes.cb_priority := None;
         RemindersRoutes.cb_appointmentId := Some "ap1" |} Demo.state
    = (inr resp, s')
    /\ (status resp <> 201 -> s' = Demo.state).
Proof.
  destruct (create_reminder_writes (H := Demo.platform) Demo.state Demo.adminUser "r2"
              1700000600000 "abc"
              {| RemindersRoutes.cb_message := Some "Give tablets";
                 RemindersRoutes.cb_type := Some "FOLLOW_UP";
                 RemindersRoutes.cb_dueDate := Some "tomorrow";
                 RemindersRoutes.cb_priority := None;
                 RemindersRoutes.cb_appointmentId := Some "ap1" |} (or_introl eq_refl))
    as (resp & s' & Hrun & Hkeep & _).
  exists resp, s'. split; [exact Hrun | exact Hkeep].
Defined.

(** ** Completing and deleting reminders *)

Lemma startsWith_manualId (now : Z) (rnd : string) :
  Js.startsWith (RemindersRoutes.manualId now rnd) "manual-" = true.
Proof.
  unfold Js.startsWith, RemindersRoutes.manualId.
  repeat (rewrite append_cons; cbn [String.prefix]; destruct (ascii_dec _ _);
          [|congruence]).
  match goal with |- String.prefix "" ?x = true => destruct x; reflexivity end.
Qed.

Lemma set_manualReminders_same (s : State) (f : gmap string ReminderResponse.t ->
                                                gmap string ReminderResponse.t) :
  f (manualReminders s) = manualReminders s -> set_manualReminders f s = s.
Proof. destruct s. unfold set_manualReminders. cbn. intros ->. reflexivity. Qed.

Lemma reminder_by_id_self (id : string) (r : Reminder.t) :
  Prisma.reminder_by_id id r = true -> Reminder.id r = id.
Proof. unfold Prisma.reminder_by_id. apply String.eqb_eq. Qed.

Lemma put_complete_manual (s : State) (user : ReqUser) (id : string) :
  req_role user = ADMIN \/ req_role user = PRACTITIONER ->
  Js.startsWith id "manual-" = true ->
  RemindersRoutes.put_complete user id s
  = match manualReminders s !! id with
    | None => (inr (json_error 404 "Manual reminder not found"), s)
    | Some r =>
        (inr (json_data 200
                {| RemindersRoutes.done_id := id; RemindersRoutes.done_completed := true |}
                "Manual reminder marked as completed"),
         set_manualReminders (insert id (RemindersRoutes.markCompleted r)) s)
    end.
Proof.
  intros Hrole Hprefix. unfold RemindersRoutes.put_complete, requireRole.
  rewrite (staff_allowed user Hrole), Hprefix. run_handler.
  destruct (manualReminders s !! id); reflexivity.
Qed.

Lemma put_complete_persisted (s : State) (user : ReqUser) (id : string) :
  req_role user = ADMIN \/ req_role user = PRACTITIONER ->
  Js.startsWith id "manual-" = false ->
  RemindersRoutes.put_complete user id s
  = match find (Prisma.reminder_by_id id) (reminders s) with
    | None => (inr (json_error 404 "Reminder not found"), s)
    | Some r =>
        (inr (json_data 200
                {| RemindersRoutes.done_id := Reminder.id r;
                   RemindersRoutes.done_completed := true |}
                "Reminder marked as completed"),
         set_reminders (Prisma.update_where (Prisma.reminder_by_id id) markSent) s)
    end.
Proof.
  intros Hrole Hprefix.
  unfold RemindersRoutes.put_complete, requireRole, Prisma.reminder_update_sent,
    Prisma.reminder_findUnique.
  rewrite (staff_allowed user Hrole), Hprefix. run_handler.
  destruct (find _ (reminders s)); reflexivity.
Qed.

Lemma delete_reminder_manual (s : State) (user : ReqUser) (id : string) :
  req_role user = ADMIN \/ req_role user = PRACTITIONER ->
  Js.startsWith id "manual-" = true ->
  RemindersRoutes.delete_reminder user id s
  = match manualReminders s !! id with
    | None => (inr (json_error 404 "Manual reminder not found"), s)
    | Some _ =>
        (inr (json_message 200 "Manual reminder deleted successfully"),
         set_manualReminders (delete id) s)
    end.
Proof.
  intros Hrole Hprefix. unfold RemindersRoutes.delete_reminder, requireRole.
  rewrite (staff_allowed user Hrole), Hprefix. run_handler.
  destruct (manualReminders s !! id) eqn:Hr.
  - rewrite bool_decide_eq_true_2 by eauto. reflexivity.
  - rewrite bool_decide_eq_false_2 by (intros [? ?]; discriminate). cbn.
    rewrite set_manualReminders_same; [reflexivity|]. apply delete_id. exact Hr.
Qed.

Lemma delete_reminder_persisted (s : State) (user : ReqUser) (id : string) :
  req_role user = ADMIN \/ req_role user = PRACTITIONER ->
  Js.startsWith id "manual-" = false ->
  RemindersRoutes.delete_reminder user id s
  = match find (Prisma.reminder_by_id id) (reminders s) with
    | None => (inr (json_error 404 "Reminder not found"), s)
    | Some _ =>
        (inr (json_message 200 "Reminder deleted successfully"),
         set_reminders (Prisma.delete_where (Prisma.reminder_by_id id)) s)
    end.
Proof.
  intros Hrole Hprefix.
  unfold RemindersRoutes.delete_reminder, requireRole, Prisma.reminder_delete,
    Prisma.reminder_findUnique.
  rewrite (staff_allowed user Hrole), Hprefix. run_handler.
  destruct (find _ (reminders s)); reflexivity.
Qed.

Lemma find_delete_where_other {A} (p q : A -> bool) (l : list A) :
  (forall x, q x = true -> p x = false) ->
  find q (Prisma.delete_where p l) = find q l.
Proof.
  intros Hpq. induction l as [|x l IH]; [reflexivity|]. cbn.
  destruct (p x) eqn:Hp; cbn.
  - destruct (q x) eqn:Hq; [rewrite (Hpq x Hq) in Hp; discriminate | exact IH].
  - destruct (q x); [reflexivity | exact IH].
Qed.

Lemma update_where_twice {A} (p : A -> bool) (f : A -> A) (l : list A) :
  (forall x, f (f x) = f x) ->
  Prisma.update_where p f (Prisma.update_where p f l) = Prisma.update_where p f l.
Proof.
  intros Hf. unfold Prisma.update_where. rewrite map_map. apply map_ext.
  intros x. destruct (p x) eqn:Hp; [|rewrite Hp; reflexivity].
  destruct (p (f x)); [apply Hf | reflexivity].
Qed.

(** X16. Completing a reminder.  For staff and an id that denotes a
    stored reminder, in memory or in the database, the call answers 200 with
    that id and [completed: true]; afterwards the reminder has its
    sent/completed flag set and every other field as before, and the other
    reminders are as before.  Completing it once more changes nothing. *)
Theorem complete_marks_done (s : State) (user : ReqUser) (id : string)
    (st : RemindersRoutes.Stored) :
  req_role user = ADMIN \/ req_role user = PRACTITIONER ->
  RemindersRoutes.lookupReminder s id = Some st ->
  exists s',
    RemindersRoutes.put_complete user id s
    = (inr (json_data 200
              {| RemindersRoutes.done_id := id; RemindersRoutes.done_completed := true |}
              (match st with
               | RemindersRoutes.Manual _ => "Manual reminder marked as completed"
               | RemindersRoutes.Persisted _ => "Reminder marked as completed"
               end)), s')
    /\ RemindersRoutes.lookupReminder s' id = Some (completedStored st)
    /\ storedDone (completedStored st) = true
    /\ (forall id', id' <> id ->
          RemindersRoutes.lookupReminder s' id' = RemindersRoutes.lookupReminder s id')
    /\ snd (RemindersRoutes.put_complete user id s') = s'.
Proof.
  intros Hrole Hst. unfold RemindersRoutes.lookupReminder in Hst.
  destruct (Js.startsWith id "manual-") eqn:Hprefix.
  - destruct (manualReminders s !! id) as [r|] eqn:Hr; [|discriminate].
    injection Hst as <-.
    rewrite (put_complete_manual s user id Hrole Hprefix), Hr.
    eexists. split; [reflexivity|].
    unfold RemindersRoutes.lookupReminder. cbn [manualReminders set_manualReminders].
    rewrite Hprefix. split; [rewrite lookup_insert_eq; reflexivity|].
    split; [reflexivity|]. split.
    + intros id' Hne. destruct (Js.startsWith id' "manual-"); [|reflexivity].
      rewrite lookup_insert_ne by congruence. reflexivity.
    + rewrite (put_complete_manual _ user id Hrole Hprefix).
      cbn [manualReminders set_manualReminders]. rewrite lookup_insert_eq. cbn [snd].
      destruct s. unfold set_manualReminders. cbn. f_equal.
      apply insert_insert_eq.
  - destruct (find (Prisma.reminder_by_id id) (reminders s)) as [r|] eqn:Hr;
      [|discriminate].
    injection Hst as <-.
    rewrite (put_complete_persisted s user id Hrole Hprefix), Hr.
    apply find_some in Hr as Hin. destruct Hin as [_ Hid].
    rewrite (reminder_by_id_self id r Hid).
    eexists. split; [reflexivity|].
    unfold RemindersRoutes.lookupReminder. cbn [reminders set_reminders].
    rewrite Hprefix.
    split; [rewrite find_update_where_same by reflexivity; rewrite Hr; reflexivity|].
    split; [reflexivity|]. split.
    + intros id' Hne. destruct (Js.startsWith id' "manual-"); [reflexivity|].
      rewrite find_update_where_other;
        [reflexivity | reflexivity | intros x; apply reminder_by_id_other; exact Hne].
    + rewrite (put_complete_persisted _ user id Hrole Hprefix).
      cbn [reminders set_reminders].
      rewrite find_update_where_same by reflexivity. rewrite Hr. cbn [snd fmap option_fmap option_map].
      destruct s. unfold set_reminders. cbn. f_equal.
      apply update_where_twice. reflexivity.
Qed.

(** X17. Deleting a reminder.  For staff and an id that denotes a stored
    reminder the call answers 200, the id denotes nothing afterwards, and
    every other reminder is as before. *)
Theorem delete_reminder_removes (s : State) (user : ReqUser) (id : string)
    (st : RemindersRoutes.Stored) :
  req_role user = ADMIN \/ req_role user = PRACTITIONER ->
  RemindersRoutes.lookupReminder s id = Some st ->
  exists resp s',
    RemindersRoutes.delete_reminder user id s = (inr resp, s')
    /\ status resp = 200
    /\ RemindersRoutes.lookupReminder s' id = None
    /\ forall id', id' <> id ->
         RemindersRoutes.lookupReminder s' id' = RemindersRoutes.lookupReminder s id'.
Proof.
  intros Hrole Hst. unfold RemindersRoutes.lookupReminder in Hst.
  destruct (Js.startsWith id "manual-") eqn:Hprefix.
  - destruct (manualReminders s !! id) as [r|] eqn:Hr; [|discriminate].
    rewrite (delete_reminder_manual s user id Hrole Hprefix), Hr.
    eexists _, _. split; [reflexivity|]. split; [reflexivity|].
    unfold RemindersRoutes.lookupReminder. cbn [manualReminders set_manualReminders].
    rewrite Hprefix. split; [rewrite lookup_delete_eq; reflexivity|].
    intros id' Hne. destruct (Js.startsWith id' "manual-"); [|reflexivity].
    rewrite lookup_delete_ne by congruence. reflexivity.
  - destruct (find (Prisma.reminder_by_id id) (reminders s)) as [r|] eqn:Hr;
      [|discriminate].
    rewrite (delete_reminder_persisted s user id Hrole Hprefix), Hr.
    eexists _, _. split; [reflexivity|]. split; [reflexivity|].
    unfold RemindersRoutes.lookupReminder. cbn [reminders set_reminders].
    rewrite Hprefix. split; [rewrite find_delete_where; reflexivity|].
    intros id' Hne. destruct (Js.startsWith id' "manual-"); [reflexivity|].
    rewrite find_delete_where_other; [reflexivity|].
    intros x. apply reminder_by_id_other. exact Hne.
Qed.

Section UnknownReminder.
Context `{Platform}.

(** X18. An id that denotes no stored reminder.  For staff, completing,
    deleting and snoozing (for any positive number of minutes) such an id
    are each answered 404 and change nothing. *)
Theorem unknown_reminder_not_found (s : State) (user : ReqUser) (id : string) :
  req_role user = ADMIN \/ req_role user = PRACTITIONER ->
  RemindersRoutes.lookupReminder s id = None ->
  (exists resp, RemindersRoutes.put_complete user id s = (inr resp, s)
                /\ status resp = 404)
  /\ (exists resp, RemindersRoutes.delete_reminder user id s = (inr resp, s)
                   /\ status resp = 404)
  /\ forall now m, 0 < m ->
       exists resp, RemindersRoutes.put_snooze user now id (Some m) s = (inr resp, s)
                    /\ status resp = 404.
Proof.
  intros Hrole Hnone. unfold RemindersRoutes.lookupReminder in Hnone.
  destruct (Js.startsWith id "manual-") eqn:Hprefix.
  - destruct (manualReminders s !! id) as [r|] eqn:Hr; [discriminate|].
    split; [|split].
    + rewrite (put_complete_manual s user id Hrole Hprefix), Hr. eauto.
    + rewrite (delete_reminder_manual s user id Hrole Hprefix), Hr. eauto.
    + intros now m Hm. unfold RemindersRoutes.put_snooze, requireRole.
      rewrite (staff_allowed user Hrole), (invalidMinutes_positive m Hm), Hprefix.
      run_handler. rewrite Hr. eauto.
  - destruct (find (Prisma.reminder_by_id id) (reminders s)) as [r|] eqn:Hr;
      [discriminate|].
    split; [|split].
    + rewrite (put_complete_persisted s user id Hrole Hprefix), Hr. eauto.
    + rewrite (delete_reminder_persisted s user id Hrole Hprefix), Hr. eauto.
    + intros now m Hm.
      unfold RemindersRoutes.put_snooze, requireRole, Prisma.reminder_update_remindAt,
        Prisma.reminder_findUnique.
      rewrite (staff_allowed user Hrole), (invalidMinutes_positive m Hm), Hprefix.
      change (default 0 (Some m)) with m.
      destruct (RemindersRoutes.snoozeDate now m); run_handler;
        [rewrite Hr|]; eauto.
Qed.
End UnknownReminder.

Lemma complete_marks_done_witness :
  exists resp s',
    RemindersRoutes.put_complete Demo.adminUser "r1" Demo.state = (inr resp, s')
    /\ RemindersRoutes.lookupReminder s' "r1"
       = Some (RemindersRoutes.Persisted (markSent Demo.followUp)).
Proof.
  destruct (complete_marks_done Demo.state Demo.adminUser "r1"
              (RemindersRoutes.Persisted Demo.followUp) (or_introl eq_refl) eq_refl)
    as (s' & Hrun & Hlook & _).
  eexists _, s'. split; [exact Hrun | exact Hlook].
Defined.

Lemma delete_reminder_removes_witness :
  exists resp s',
    RemindersRoutes.delete_reminder Demo.practitioner "manual-1700000000000-k3x9q2m1z"
      Demo.state = (inr resp, s')
    /\ RemindersRoutes.lookupReminder s' "manual-1700000000000-k3x9q2m1z" = None.
Proof.
  destruct (delete_reminder_removes Demo.state Demo.practitioner
              "manual-1700000000000-k3x9q2m1z" (RemindersRoutes.Manual Demo.note)
              (or_intror eq_refl) eq_refl)
    as (resp & s' & Hrun & _ & Hlook & _).
  exists resp, s'. split; [exact Hrun | exact Hlook].
Defined.

Lemma unknown_reminder_not_found_witness :
  exists resp,
    RemindersRoutes.put_snooze (H := Demo.platform) Demo.adminUser 1700000600000
      "manual-nothing" (Some 10) Demo.state = (inr resp, Demo.state)
    /\ status resp = 404.
Proof.
  destruct (unknown_reminder_not_found (H := Demo.platform) Demo.state Demo.adminUser
              "manual-nothing" (or_introl eq_refl) eq_refl) as (_ & _ & Hsnooze).
  apply (Hsnooze 1700000600000 10). lia.
Defined.

(** ** Manual reminders: creation and the keys of the map *)

Lemma manualKeyed_insert (m : gmap string ReminderResponse.t) (k : string)
    (r : ReminderResponse.t) :
  manualKeyed m ->
  Js.startsWith k "manual-" = true ->
  ReminderResponse.id r = k ->
  manualKeyed (<[k := r]> m).
Proof.
  intros Hm Hk Hr k' r' Hlook. destruct (decide (k = k')) as [<- | Hne].
  - rewrite lookup_insert_eq in Hlook. injection Hlook as <-. auto.
  - rewrite lookup_insert_ne in Hlook by exact Hne. apply Hm. exact Hlook.
Qed.

Lemma manualKeyed_delete (m : gmap string ReminderResponse.t) (k : string) :
  manualKeyed m -> manualKeyed (delete k m).
Proof.
  intros Hm k' r' Hlook. destruct (decide (k = k')) as [<- | Hne].
  - rewrite lookup_delete_eq in Hlook. discriminate.
  - rewrite lookup_delete_ne in Hlook by exact Hne. apply Hm. exact Hlook.
Qed.

Lemma put_complete_keyed user id s :
  manualKeyed (manualReminders s) ->
  manualKeyed (manualReminders (snd (RemindersRoutes.put_complete user id s))).
Proof.
  intros Hm.
  unfold RemindersRoutes.put_complete, requireRole, Prisma.reminder_update_sent,
    Prisma.reminder_findUnique.
  destruct (existsb _ staff); [|exact Hm]. run_handler.
  destruct (Js.startsWith id "manual-") eqn:Hprefix.
  - destruct (manualReminders s !! id) as [r|] eqn:Hr; cbn; [|exact Hm].
    apply manualKeyed_insert; [exact Hm | exact Hprefix |].
    apply (Hm id r Hr).
  - destruct (find _ (reminders s)); exact Hm.
Qed.

Lemma delete_reminder_keyed user id s :
  manualKeyed (manualReminders s) ->
  manualKeyed (manualReminders (snd (RemindersRoutes.delete_reminder user id s))).
Proof.
  intros Hm.
  unfold RemindersRoutes.delete_reminder, requireRole, Prisma.reminder_delete,
    Prisma.reminder_findUnique.
  destruct (existsb _ staff); [|exact Hm]. run_handler.
  destruct (Js.startsWith id "manual-").
  - destruct (negb _); cbn; apply manualKeyed_delete, Hm.
  - destruct (find _ (reminders s)); exact Hm.
Qed.

Section ManualReminders.
Context `{Platform}.

Lemma put_snooze_keyed user now id minutes s :
  manualKeyed (manualReminders s) ->
  manualKeyed (manualReminders (snd (RemindersRoutes.put_snooze user now id minutes s))).
Proof.
  intros Hm.
  unfold RemindersRoutes.put_snooze, requireRole, Prisma.reminder_update_remindAt,
    Prisma.reminder_findUnique.
  destruct (existsb _ staff); [|exact Hm].
  destruct (RemindersRoutes.invalidMinutes minutes); [exact Hm|].
  destruct (Js.startsWith id "manual-") eqn:Hprefix.
  - run_handler. destruct (manualReminders s !! id) as [r|] eqn:Hr; [|exact Hm].
    destruct (RemindersRoutes.snoozeDate now _); cbn; [|exact Hm].
    apply manualKeyed_insert; [exact Hm | exact Hprefix |].
    apply (Hm id r Hr).
  - destruct (RemindersRoutes.snoozeDate now _); run_handler; [|exact Hm].
    destruct (find _ (reminders s)); exact Hm.
Qed.

Lemma post_reminder_keyed user newId now rnd body s :
  manualKeyed (manualReminders s) ->
  manualKeyed (manualReminders
                 (snd (RemindersRoutes.post_reminder user newId now rnd body s))).
Proof.
  intros Hm.
  unfold RemindersRoutes.post_reminder, requireRole.
  destruct (existsb _ staff); [|exact Hm].
  destruct (RemindersRoutes.createReminderSchema_parse body) as [e|v].
  { unfold try_catch, throw. destruct (String.eqb _ _); exact Hm. }
  destruct (Js.truthy_opt (RemindersRoutes.v_appointmentId v)).
  - unfold RemindersRoutes.create_linked, Prisma.appointment_findUnique,
      Prisma.reminder_create.
    run_handler. destruct (find _ (appointments s)); [|exact Hm].
    destruct (parseDate _); exact Hm.
  - cbn. apply manualKeyed_insert;
      [exact Hm | apply startsWith_manualId | reflexivity].
Qed.

(** X19. The keys of the in-memory map.  If every key of the map of
    manual reminders starts with [manual-] and is the id of its record, this
    still holds after a creation, a snooze, a completion or a deletion,
    whoever calls and whatever the arguments and the answer.  So the routes,
    which choose the map by that prefix, reach every record of the map. *)
Theorem manual_keys_kept (s : State) :
  manualKeyed (manualReminders s) ->
  (forall user newId now rnd body,
     manualKeyed (manualReminders
                    (snd (RemindersRoutes.post_reminder user newId now rnd body s))))
  /\ (forall user now id minutes,
        manualKeyed (manualReminders
                       (snd (RemindersRoutes.put_snooze user now id minutes s))))
  /\ (forall user id,
        manualKeyed (manualReminders (snd (RemindersRoutes.put_complete user id s))))
  /\ (forall user id,
        manualKeyed (manualReminders (snd (RemindersRoutes.delete_reminder user id s))))
  /\ forall k r,
       manualReminders s !! k = Some r ->
       RemindersRoutes.lookupReminder s k = Some (RemindersRoutes.Manual r).
Proof.
  intros Hm.
  split; [intros; apply post_reminder_keyed, Hm|].
  split; [intros; apply put_snooze_keyed, Hm|].
  split; [intros; apply put_complete_keyed, Hm|].
  split; [intros; apply delete_reminder_keyed, Hm|].
  intros k r Hr. unfold RemindersRoutes.lookupReminder.
  destruct (Hm k r Hr) as [-> _]. rewrite Hr. reflexivity.
Qed.

(** X20. A manual reminder can be used at once.  For staff and a body
    that passes the schema without an [appointmentId], the record answered
    with 201 is the one its id denotes afterwards; the reminders under other
    ids and the database are as before; and a completion of that id then
    succeeds and leaves the same record with [completed] set. *)
Theorem manual_reminder_round_trip (s : State) (user : ReqUser) (newId : string)
    (now : Z) (rnd : string) (body : RemindersRoutes.CreateBody)
    (v : RemindersRoutes.ValidatedData) :
  req_role user = ADMIN \/ req_role user = PRACTITIONER ->
  RemindersRoutes.createReminderSchema_parse body = inr v ->
  Js.truthy_opt (RemindersRoutes.v_appointmentId v) = false ->
  exists m s1,
    RemindersRoutes.post_reminder user newId now rnd body s
    = (inr (json_data 201 m "Manual reminder created successfully"), s1)
    /\ RemindersRoutes.lookupReminder s1 (ReminderResponse.id m)
       = Some (RemindersRoutes.Manual m)
    /\ (forall id', id' <> ReminderResponse.id m ->
          RemindersRoutes.lookupReminder s1 id' = RemindersRoutes.lookupReminder s id')
    /\ reminders s1 = reminders s
    /\ exists resp s2,
         RemindersRoutes.put_complete user (ReminderResponse.id m) s1 = (inr resp, s2)
         /\ status resp = 200
         /\ RemindersRoutes.lookupReminder s2 (ReminderResponse.id m)
            = Some (RemindersRoutes.Manual (RemindersRoutes.markCompleted m)).
Proof.
  intros Hrole Hparse Hmanual.
  pose proof (post_reminder_parsed s user newId now rnd body v Hrole Hparse) as Hrun.
  cbn zeta in Hrun. rewrite Hmanual in Hrun.
  exists (manualRecord now rnd v). eexists. split; [exact Hrun|].
  change (ReminderResponse.id (manualRecord now rnd v))
    with (RemindersRoutes.manualId now rnd).
  pose proof (startsWith_manualId now rnd) as Hprefix.
  split.
  { unfold RemindersRoutes.lookupReminder. rewrite Hprefix.
    cbn [manualReminders set_manualReminders]. rewrite lookup_insert_eq. reflexivity. }
  split.
  { intros id' Hne. unfold RemindersRoutes.lookupReminder.
    destruct (Js.startsWith id' "manual-"); [|reflexivity].
    cbn [manualReminders set_manualReminders].
    rewrite lookup_insert_ne by congruence. reflexivity. }
  split; [reflexivity|].
  rewrite (put_complete_manual _ user _ Hrole Hprefix).
  cbn [manualReminders set_manualReminders]. rewrite lookup_insert_eq.
  eexists _, _. split; [reflexivity|]. split; [reflexivity|].
  unfold RemindersRoutes.lookupReminder. rewrite Hprefix.
  cbn [manualReminders set_manualReminders]. rewrite lookup_insert_eq. reflexivity.
Qed.

(** X22. The type a client is shown changes.  For staff, a reminder
    created for an appointment with a type that names no enum value is
    answered with that type; a later snooze of the same reminder answers
    with the type FOLLOW_UP, the original being stored nowhere. *)
Theorem linked_type_not_kept (s : State) (user : ReqUser) (newId : string)
    (now : Z) (rnd : string) (body : RemindersRoutes.CreateBody)
    (v : RemindersRoutes.ValidatedData) (a : string) (ap : Appointment.t) (d : Z)
    (now' m : Z) :
  req_role user = ADMIN \/ req_role user = PRACTITIONER ->
  RemindersRoutes.createReminderSchema_parse body = inr v ->
  (forall rt, RemindersRoutes.v_type v <> ReminderType_toString rt) ->
  RemindersRoutes.v_appointmentId v = Some a ->
  Js.truthy a = true ->
  find (fun x => String.eqb (Appointment.id x) a) (appointments s) = Some ap ->
  parseDate (RemindersRoutes.v_dueDate v) = Some d ->
  Js.startsWith newId "manual-" = false ->
  find (Prisma.reminder_by_id newId) (reminders s) = None ->
  0 < m -> 0 <= now' -> now' + m * 60 * 1000 <= Js.maxTime ->
  exists r1 s1 r2 s2,
    RemindersRoutes.post_reminder user newId now rnd body s
    = (inr (json_data 201 r1 "Reminder created successfully"), s1)
    /\ ReminderResponse.type r1 = RemindersRoutes.v_type v
    /\ RemindersRoutes.put_snooze user now' newId (Some m) s1 = (inr r2, s2)
    /\ status r2 = 200
    /\ exists shown, data r2 = Some shown
                     /\ ReminderResponse.id shown = ReminderResponse.id r1
                     /\ ReminderResponse.type shown = "FOLLOW_UP"
                     /\ ReminderResponse.type shown <> ReminderResponse.type r1.
Proof.
  intros Hrole Hparse Hout Ha Htruthy Hap Hd Hprefix Hfresh Hm Hnow Hmax.
  pose proof (post_reminder_parsed s user newId now rnd body v Hrole Hparse) as Hrun.
  cbn zeta in Hrun. unfold Js.truthy_opt in Hrun. rewrite Ha, Htruthy in Hrun.
  change (default "" (Some a)) with a in Hrun.
  rewrite Hap, Hd, (mapStringToReminderType_fallback _ Hout) in Hrun.
  eexists _, _. 
  set (row := {| Reminder.id := newId;
                 Reminder.message := RemindersRoutes.v_message v;
                 Reminder.messageFr := RemindersRoutes.v_message v;
                 Reminder.type := FOLLOW_UP; Reminder.remindAt := d;
                 Reminder.sent := false; Reminder.appointmentId := a;
                 Reminder.createdAt := now |}) in *.
  assert (Hfind : find (Prisma.reminder_by_id newId) (reminders s ++ [row])%list
                  = Some row).
  { rewrite (find_app_none _ _ row Hfresh). unfold Prisma.reminder_by_id. cbn.
    rewrite String.eqb_refl. reflexivity. }
  assert (Hsnooze : RemindersRoutes.put_snooze user now' newId (Some m)
                      (set_reminders (fun l => (l ++ [row])%list) s)
                    = (inr (json_data 200
                              (RemindersRoutes.dbResponse
                                 (Reminder.set_remindAt (now' + m * 60 * 1000) row))
                              ("Reminder snoozed for " +:+ pretty m +:+ " minutes")),
                       set_reminders
                         (Prisma.update_where (Prisma.reminder_by_id newId)
                            (Reminder.set_remindAt (now' + m * 60 * 1000)))
                         (set_reminders (fun l => (l ++ [row])%list) s))).
  { unfold RemindersRoutes.put_snooze, requireRole, Prisma.reminder_update_remindAt,
      Prisma.reminder_findUnique.
    rewrite (staff_allowed user Hrole), (invalidMinutes_positive m Hm), Hprefix.
    change (default 0 (Some m)) with m.
    rewrite (snoozeDate_in_range now' m Hnow Hm Hmax).
    run_handler. rewrite Hfind. reflexivity. }
  eexists _, _. split; [exact Hrun|]. split; [reflexivity|].
  split; [exact Hsnooze|]. split; [reflexivity|].
  eexists. split; [reflexivity|]. split; [reflexivity|]. split; [reflexivity|].
  cbn. intros Heq. apply (Hout FOLLOW_UP). symmetry. exact Heq.
Qed.
End ManualReminders.

(** X21. The mapping of type strings onto the enum.  It sends the name
    of each enum value back to that value, and every other string to
    FOLLOW_UP, so that a string mapped to a value other than FOLLOW_UP is
    that value's name. *)
Theorem reminder_type_round_trip :
  (forall rt, RemindersRoutes.mapStringToReminderType (ReminderType_toString rt) = rt)
  /\ (forall t,
        (forall rt, t <> ReminderType_toString rt) ->
        RemindersRoutes.mapStringToReminderType t = FOLLOW_UP)
  /\ forall t rt,
       RemindersRoutes.mapStringToReminderType t = rt ->
       rt <> FOLLOW_UP ->
       t = ReminderType_toString rt.
Proof.
  split; [intros []; reflexivity|].
  split; [apply mapStringToReminderType_fallback|].
  intros t rt Hmap Hrt. unfold RemindersRoutes.mapStringToReminderType in Hmap.
  destruct (String.eqb t "APPOINTMENT_REMINDER") eqn:H1;
    [apply String.eqb_eq in H1; subst; reflexivity|].
  destruct (String.eqb t "FOLLOW_UP"); [congruence|].
  destruct (String.eqb t "APPOINTMENT_CONFIRMATION") eqn:H3;
    [apply String.eqb_eq in H3; subst; reflexivity|].
  destruct (String.eqb t "BIRTHDAY") eqn:H4;
    [apply String.eqb_eq in H4; subst; reflexivity|].
  repeat match type of Hmap with
         | (if ?b then _ else _) = _ => destruct b
         end; congruence.
Qed.

(** ** Instances on the demonstration state *)

Lemma register_duplicate_email_witness :
  AuthService.register (H := Demo.platform) "c3" 4000 "salt"
    {| ri_firstName := "Bob"; ri_lastName := "Stone"; ri_email := "Bob@Example.com";
       ri_phone := None; ri_password := "secret9" |} Demo.state
  = (inl (Js.newError AuthService.DuplicateEmail), Demo.state).
Proof.
  refine (proj1 (register_duplicate_email (H := Demo.platform) Demo.state "c3" 4000
                   "salt"
                   {| ri_firstName := "Bob"; ri_lastName := "Stone";
                      ri_email := "Bob@Example.com"; ri_phone := None;
                      ri_password := "secret9" |} Demo.approved _ _)).
  - simpl. right. right. left. reflexivity.
  - reflexivity.
Defined.




Lemma post_login_answers_witness :
  AuthRoutes.post_login (H := Demo.platform) 5000
    {| AuthRoutes.lb_email := Some "bob@example.com"; AuthRoutes.lb_password := None |}
    Demo.state
  = (inr (json_error 400 "Email and password are required"), Demo.state).
Proof.
  apply (proj1 (post_login_answers (H := Demo.platform) Demo.state 5000
                  {| AuthRoutes.lb_email := Some "bob@example.com";
                     AuthRoutes.lb_password := None |})).
  reflexivity.
Defined.

Lemma post_register_writes_witness :
  exists resp s',
    AuthRoutes.post_register (H := Demo.platform) "c3" 4000 "salt"
      {| AuthRoutes.rb_firstName := Some "Eve"; AuthRoutes.rb_lastName := Some "Hill";
         AuthRoutes.rb_email := Some "bob@example.com"; AuthRoutes.rb_phone := None;
         AuthRoutes.rb_password := Some "secret3"; AuthRoutes.rb_extra := [] |}
      Demo.state
    = (inr resp, s')
    /\ (status resp <> 201 -> s' = Demo.state).
Proof.
  eexists _, _. split; [reflexivity|].
  apply (post_register_writes (H := Demo.platform) Demo.state "c3" 4000 "salt"
           {| AuthRoutes.rb_firstName := Some "Eve"; AuthRoutes.rb_lastName := Some "Hill";
              AuthRoutes.rb_email := Some "bob@example.com"; AuthRoutes.rb_phone := None;
              AuthRoutes.rb_password := Some "secret3"; AuthRoutes.rb_extra := [] |}).
  reflexivity.
Defined.

Lemma register_form_accepted_witness :
  exists r s',
    AuthRoutes.post_register (H := Demo.platform) "c3" 4000 "salt"
      (RegisterPage.registerRequest
         {| RegisterPage.firstName := " Eve"; RegisterPage.lastName := "Hill ";
            RegisterPage.email := "Eve@Example.com"; RegisterPage.phone := " ";
            RegisterPage.password := "secret3";
            RegisterPage.confirmPassword := "secret3" |}) Demo.state
    = (inr (json_data 201 r (RegisterResponse.message r)), s')
    /\ UserSummary.email (RegisterResponse.user r) = "eve@example.com".
Proof.
  pose proof (register_form_accepted (H := Demo.platform) Demo.state "c3" 4000 "salt"
                {| RegisterPage.firstName := " Eve"; RegisterPage.lastName := "Hill ";
                   RegisterPage.email := "Eve@Example.com"; RegisterPage.phone := " ";
                   RegisterPage.password := "secret3";
                   RegisterPage.confirmPassword := "secret3" |} eq_refl) as Hform.
  change (find _ (users Demo.state)) with (@None User.t) in Hform.
  destruct Hform as (r & s' & Hrun & Hemail & _).
  exists r, s'. split; [exact Hrun | exact Hemail].
Defined.

Lemma unique_keys_kept_witness :
  uniqueKeys
    (users (performAll
              [ProfileUpdate Demo.adminUser "c1"
                 {| UsersRoutes.b_firstName := None; UsersRoutes.b_lastName := None;
                    UsersRoutes.b_email := Some "bob@example.com";
                    UsersRoutes.b_phone := None; UsersRoutes.b_clientIds := None |};
               ValidateUser Demo.adminUser "c1"] Demo.state)).
Proof.
  apply (unique_keys_kept (H := Demo.platform) Demo.state).
  split; simpl; repeat constructor; simpl; intuition discriminate.
Defined.

Lemma manual_keys_kept_witness :
  RemindersRoutes.lookupReminder Demo.state "manual-1700000000000-k3x9q2m1z"
  = Some (RemindersRoutes.Manual Demo.note).
Proof.
  apply (manual_keys_kept (H := Demo.platform) Demo.state).
  - intros k r Hlook. unfold Demo.state in Hlook. cbn [manualReminders] in Hlook.
    apply lookup_singleton_Some in Hlook as [<- <-]. split; reflexivity.
  - reflexivity.
Defined.

Lemma manual_reminder_round_trip_witness :
  exists m s1,
    RemindersRoutes.post_reminder (H := Demo.platform) Demo.practitioner "r2"
      1700000600000 "abc"
      {| RemindersRoutes.cb_message := Some "Order bandages";
         RemindersRoutes.cb_type := None;
         RemindersRoutes.cb_dueDate := Some "2030-01-01T00:00:00.000Z";
         RemindersRoutes.cb_priority := None;
         RemindersRoutes.cb_appointmentId := None |} Demo.state
    = (inr (json_data 201 m "Manual reminder created successfully"), s1)
    /\ RemindersRoutes.lookupReminder s1 (ReminderResponse.id m)
       = Some (RemindersRoutes.Manual m).
Proof.
  destruct (manual_reminder_round_trip (H := Demo.platform) Demo.state Demo.practitioner
              "r2" 1700000600000 "abc"
              {| RemindersRoutes.cb_message := Some "Order bandages";
                 RemindersRoutes.cb_type := None;
                 RemindersRoutes.cb_dueDate := Some "2030-01-01T00:00:00.000Z";
                 RemindersRoutes.cb_priority := None;
                 RemindersRoutes.cb_appointmentId := None |}
              _ (or_intror eq_refl) eq_refl eq_refl)
    as (m & s1 & Hrun & Hlook & _).
  exists m, s1. split; [exact Hrun | exact Hlook].
Defined.

Lemma linked_type_not_kept_witness :
  exists r1 s1 r2 s2,
    RemindersRoutes.post_reminder (H := Demo.platform) Demo.adminUser "r2"
      1700000600000 "abc"
      {| RemindersRoutes.cb_message := Some "Give tablets";
         RemindersRoutes.cb_type := Some "MEDICATION";
         RemindersRoutes.cb_dueDate := Some "2030-01-01T00:00:00.000Z";
         RemindersRoutes.cb_priority := None;
         RemindersRoutes.cb_appointmentId := Some "ap1" |} Demo.state
    = (inr (json_data 201 r1 "Reminder created successfully"), s1)
    /\ ReminderResponse.type r1 = "MEDICATION"
    /\ RemindersRoutes.put_snooze (H := Demo.platform) Demo.adminUser 1700000700000 "r2"
         (Some 30) s1 = (inr r2, s2)
    /\ exists shown, data r2 = Some shown /\ ReminderResponse.type shown = "FOLLOW_UP".
Proof.
  destruct (linked_type_not_kept (H := Demo.platform) Demo.state Demo.adminUser "r2"
              1700000600000 "abc"
              {| RemindersRoutes.cb_message := Some "Give tablets";
                 RemindersRoutes.cb_type := Some "MEDICATION";
                 RemindersRoutes.cb_dueDate := Some "2030-01-01T00:00:00.000Z";
                 RemindersRoutes.cb_priority := None;
                 RemindersRoutes.cb_appointmentId := Some "ap1" |}
              {| RemindersRoutes.v_message := "Give tablets";
                 RemindersRoutes.v_type := "MEDICATION";
                 RemindersRoutes.v_dueDate := "2030-01-01T00:00:00.000Z";
                 RemindersRoutes.v_priority := "MEDIUM";
                 RemindersRoutes.v_appointmentId := Some "ap1" |}
              "ap1" Demo.visit 1893456000000 1700000700000 30
              (or_introl eq_refl) eq_refl
              ltac:(intros []; discriminate)
              eq_refl eq_refl eq_refl eq_refl eq_refl eq_refl
              ltac:(lia) ltac:(lia) ltac:(vm_compute; discriminate))
    as (r1 & s1 & r2 & s2 & Hrun & Htype & Hsnooze & _ & shown & Hdata & _ & Hshown & _).
  exists r1, s1, r2, s2. split; [exact Hrun|]. split; [exact Htype|].
  split; [exact Hsnooze|]. exists shown. split; [exact Hdata | exact Hshown].
Defined.

Lemma reminder_type_round_trip_witness :
  RemindersRoutes.mapStringToReminderType "Vaccination" = FOLLOW_UP.
Proof.
  apply (proj1 (proj2 reminder_type_round_trip)). intros []; discriminate.
Defined.

(** ** POST /auth/refresh *)

Lemma find_by_id_unique (l : list User.t) (u : User.t) :
  List.NoDup (map User.id l) ->
  In u l ->
  find (Prisma.user_by_id (User.id u)) l = Some u.
Proof.
  induction l as [|x l IH]; intros Hnd Hin; [destruct Hin|].
  inversion Hnd as [|? ? Hx Hl]; subst. cbn [find]. unfold Prisma.user_by_id at 1.
  destruct (String.eqb (User.id x) (User.id u)) eqn:He.
  - destruct Hin as [-> | Hin]; [reflexivity|].
    apply String.eqb_eq in He. exfalso. apply Hx. rewrite He. apply in_map, Hin.
  - destruct Hin as [-> | Hin]; [rewrite String.eqb_refl in He; discriminate|].
    apply IH; assumption.
Qed.

Section Refresh.
Context `{Platform}.

Lemma refreshToken_run (s : State) (now : Z) (token : string) :
  AuthService.refreshToken now token s
  = match jwt_verify token JWT_REFRESH_SECRET now with
    | Decoded (Some userId) =>
        match find (Prisma.user_by_id userId) (users s) with
        | Some u =>
            if AuthService.pendingClient u
            then (inl (Js.newError AuthService.InvalidRefreshToken), s)
            else (inr (AuthService.authResponse u
                         (AuthService.generateTokens now (User.id u))), s)
        | None => (inl (Js.newError AuthService.InvalidRefreshToken), s)
        end
    | _ => (inl (Js.newError AuthService.InvalidRefreshToken), s)
    end.
Proof.
  unfold AuthService.refreshToken, AuthService.refreshToken_try,
    Prisma.user_findUnique_id.
  destruct (jwt_verify token JWT_REFRESH_SECRET now) as [[userId|]|e];
    run_handler; try reflexivity.
  destruct (find _ (users s)) as [u|]; [|reflexivity].
  destruct (AuthService.pendingClient u); reflexivity.
Qed.

(** X23. The answers of [POST /auth/refresh].  The request never writes.
    It is answered 400 exactly when the token is missing or empty, and
    otherwise 401 or 200; every 401 carries the message
    [InvalidRefreshToken], whatever went wrong; a 200 is given only for a
    token that [jwt.verify] decodes to the id of a stored user who is not a
    CLIENT waiting for validation, and carries fresh tokens for that user. *)
Theorem post_refresh_answers (s : State) (now : Z) (token : option string) :
  exists resp,
    AuthRoutes.post_refresh now token s = (inr resp, s)
    /\ (status resp = 400 <-> Js.truthy_opt token = false)
    /\ (status resp = 400 \/ status resp = 401 \/ status resp = 200)
    /\ (status resp = 401 -> error resp = Some AuthService.InvalidRefreshToken)
    /\ (status resp = 200 ->
        exists t u,
          token = Some t
          /\ jwt_verify t JWT_REFRESH_SECRET now = Decoded (Some (User.id u))
          /\ In u (users s)
          /\ AuthService.pendingClient u = false
          /\ data resp = Some (AuthService.authResponse u
                                 (AuthService.generateTokens now (User.id u)))).
Proof.
  unfold AuthRoutes.post_refresh.
  destruct (Js.truthy_opt token) eqn:Htok; cbn [negb].
  2:{ eexists. split; [reflexivity|]. cbn.
      repeat split; auto; intros; discriminate. }
  unfold try_catch, bind. rewrite refreshToken_run.
  assert (Hfail : exists resp : Response AuthResponse.t,
             (let (r, s1) := (@inl Js.Error AuthResponse.t
                                (Js.newError AuthService.InvalidRefreshToken), s) in
              match r with
              | inl e => ret (json_error 401 (message_or e "Token refresh failed")) s1
              | inr a => ret (json_data 200 a "Token refreshed successfully") s1
              end) = (inr resp, s)
             /\ (status resp = 400 <-> true = false)
             /\ (status resp = 400 \/ status resp = 401 \/ status resp = 200)
             /\ (status resp = 401 -> error resp = Some AuthService.InvalidRefreshToken)
             /\ (status resp = 200 ->
                 exists t u,
                   token = Some t
                   /\ jwt_verify t JWT_REFRESH_SECRET now = Decoded (Some (User.id u))
                   /\ In u (users s)
                   /\ AuthService.pendingClient u = false
                   /\ data resp = Some (AuthService.authResponse u
                                          (AuthService.generateTokens now (User.id u))))).
  { eexists. split; [reflexivity|]. cbn.
    split; [split; intros; discriminate|]. split; [auto|].
    split; [reflexivity | intros; discriminate]. }
  destruct token as [t|]; [|discriminate Htok]. change (default "" (Some t)) with t.
  destruct (jwt_verify t JWT_REFRESH_SECRET now) as [[userId|]|e] eqn:Hverify;
    try exact Hfail.
  destruct (find (Prisma.user_by_id userId) (users s)) as [u|] eqn:Hfind;
    [|exact Hfail].
  destruct (AuthService.pendingClient u) eqn:Hpending; [exact Hfail|].
  eexists. split; [reflexivity|]. cbn.
  split; [split; intros; discriminate|]. split; [auto|].
  split; [intros; discriminate|]. intros _. exists t, u.
  pose proof (find_some _ _ Hfind) as [Hin Hid].
  unfold Prisma.user_by_id in Hid. apply String.eqb_eq in Hid. subst userId.
  repeat split; auto.
Qed.

(** X24. A session can be continued.  If no two users share an id, and
    [jwt.verify] decodes the refresh token of a successful login to the id
    of the user it was issued to, then [POST /auth/refresh] with that token,
    in the state the login left, is answered 200 for the same user. *)
Theorem login_then_refresh (s s1 : State) (now now' : Z) (data : LoginInput)
    (resp : AuthResponse.t) :
  List.NoDup (map User.id (users s)) ->
  AuthService.login now data s = (inr resp, s1) ->
  Js.truthy (AuthResponse.refreshToken resp) = true ->
  jwt_verify (AuthResponse.refreshToken resp) JWT_REFRESH_SECRET now'
  = Decoded (Some (AuthUser.id (AuthResponse.user resp))) ->
  exists resp',
    AuthRoutes.post_refresh now' (Some (AuthResponse.refreshToken resp)) s1
    = (inr (json_data 200 resp' "Token refreshed successfully"), s1)
    /\ AuthResponse.user resp' = AuthResponse.user resp.
Proof.
  intros Hnd Hlogin Htruthy Hverify.
  destruct (proj1 (login_outcomes s now data) resp s1 Hlogin)
    as (u & Hfind & _ & Hgate & Huser & ->).
  unfold AuthRoutes.post_refresh, Js.truthy_opt. rewrite Htruthy. cbn [negb].
  change (default "" (Some (AuthResponse.refreshToken resp)))
    with (AuthResponse.refreshToken resp).
  unfold try_catch, bind. rewrite refreshToken_run, Hverify, Huser.
  cbn [AuthUser.id AuthService.authUser users set_auditLogs].
  pose proof (find_some _ _ Hfind) as [Hin _].
  rewrite (find_by_id_unique _ u Hnd Hin).
  assert (Hpending : AuthService.pendingClient u = false).
  { unfold AuthService.pendingClient. destruct (User.role u); try reflexivity.
    rewrite (Hgate eq_refl). reflexivity. }
  rewrite Hpending. eexists. split; reflexivity.
Qed.
End Refresh.

Lemma post_refresh_answers_witness :
  exists resp,
    AuthRoutes.post_refresh (H := Demo.platform) 5000 (Some "refresh-secret.c1")
      Demo.state = (inr resp, Demo.state)
    /\ error resp = Some AuthService.InvalidRefreshToken.
Proof.
  destruct (post_refresh_answers (H := Demo.platform) Demo.state 5000
              (Some "refresh-secret.c1")) as (resp & Hrun & _ & _ & H401 & _).
  exists resp. split; [exact Hrun|]. apply H401.
  vm_compute in Hrun. injection Hrun as <-. reflexivity.
Defined.

Lemma login_then_refresh_witness :
  exists resp',
    AuthRoutes.post_refresh (H := Demo.platform) 6000 (Some "refresh-secret.c2")
      (set_auditLogs (fun l => (l ++ [loginEntry Demo.approved])%list) Demo.state)
    = (inr (json_data 200 resp' "Token refreshed successfully"),
       set_auditLogs (fun l => (l ++ [loginEntry Demo.approved])%list) Demo.state)
    /\ AuthResponse.user resp' = AuthService.authUser Demo.approved.
Proof.
  refine (login_then_refresh (H := Demo.platform) Demo.state _ 5000 6000
            {| li_email := "Bob@example.com"; li_password := "secret2" |}
            {| AuthResponse.user := AuthService.authUser Demo.approved;
               AuthResponse.token := "access-secret.c2";
               AuthResponse.refreshToken := "refresh-secret.c2" |} _ _ _ _).
  - simpl. repeat constructor; simpl; intuition discriminate.
  - reflexivity.
  - reflexivity.
  - reflexivity.
Defined.

(** ** The steps of the booking page *)

(** X25. The booking wizard moves one step at a time and never leaves its
    five steps: [handleNext] and [handleBack] always store a step; each
    undoes the other, except that [handleNext] stays on the confirmation
    and [handleBack] stays on the choice of the service; four times
    [handleNext] reaches the confirmation from every step. *)
Theorem booking_steps (st : BookingPage.BookingStep) :
  (exists n, BookingPage.handleNext st = Some n
             /\ (st <> BookingPage.confirmation -> BookingPage.handleBack n = Some st)
             /\ (st = BookingPage.confirmation -> n = st))
  /\ (exists b, BookingPage.handleBack st = Some b
                /\ (st <> BookingPage.service -> BookingPage.handleNext b = Some st)
                /\ (st = BookingPage.service -> b = st))
  /\ (((BookingPage.handleNext st ≫= BookingPage.handleNext)
         ≫= BookingPage.handleNext) ≫= BookingPage.handleNext)
     = Some BookingPage.confirmation.
Proof.
  destruct st; (split; [|split]);
    try reflexivity; eexists; (split; [reflexivity|]);
    (split; [intros Hne; try reflexivity; congruence | intros Heq; congruence]).
Qed.

Lemma booking_steps_witness :
  exists n, BookingPage.handleNext BookingPage.datetime = Some n
            /\ BookingPage.handleBack n = Some BookingPage.datetime.
Proof.
  destruct (proj1 (booking_steps BookingPage.datetime)) as (n & Hnext & Hback & _).
  exists n. split; [exact Hnext|]. apply Hback. discriminate.
Defined.
